(** * ScreenGuard: alert dispatch engine, gaze classifier and detection sessions

    A shallow embedding of
    - [src/services/alert_service.py]  (module [Alerts]),
    - [src/models/screen_peek_detector.py] (module [Detector]),
    - [src/api/detection_routes.py] (module [Sessions]),
    together with the properties of the design document that concern them.

    Conventions of the embedding.
    - Python [float]s (confidences, thresholds, wall-clock times, angles) are
      rationals [Q]; comparisons and differences are the exact ones.
    - [time.time()] is an oracle [clock : nat -> Q]: the [n]-th call performed
      by the program returns [clock n]; the world counts the calls.  Nothing
      is assumed about the oracle except where a statement says so.
    - Python dictionaries are [gmap]s, keyed exactly as in the source (the
      rate-limit and cooldown tables by the formatted string
      [user_id + "_" + alert_type.value]).
    - Code that mutates the service and may raise lives in a small state and
      exception monad [M].
    - A callback is opaque code: it is known by a name, whether it is a
      coroutine function, and by what it does on an event (returns or
      raises).  Callbacks do not reach back into the service object.
    - Calls to [logger] are recorded, in order, as structured records,
      whatever the logging level in force.
    - The service is driven from one event loop.  [send_alert] suspends only
      inside a callback, after all its updates to the service, so calls are
      modelled as running one after the other. *)

From Stdlib Require Import QArith Qabs Lqa ZArith Lia Ascii String.
From stdpp Require Import base option list strings gmap pretty.

Local Open Scope Z_scope.
Local Open Scope string_scope.
Local Open Scope list_scope.
Local Open Scope stdpp_scope.

(** ** Numbers *)

(** [a < b] on floats. *)
Definition Qltb (a b : Q) : bool := (Qnum a * QDen b <? Qnum b * QDen a)%Z.

(** [a > b] on floats. *)
Definition Qgtb (a b : Q) : bool := Qltb b a.

(** [int(x)]: truncation towards zero. *)
Definition py_int (x : Q) : Z := Z.quot (Qnum x) (Z.pos (Qden x)).

(** ** Python sequences *)

(** [l[i:]] for an integer [i] of either sign. *)
Definition slice_from {A : Type} (i : Z) (l : list A) : list A :=
  if (i <? 0)%Z
  then drop (Z.to_nat (Z.max 0 (Z.of_nat (length l) + i))) l
  else drop (Z.to_nat i) l.

(** [s or t] on strings: the empty string is falsy. *)
Definition str_or (s t : string) : string :=
  match s with EmptyString => t | _ => s end.

Module Alerts.

(** ** Data model ([alert_service.py], lines 18-54) *)

Inductive AlertType := VISUAL | AUDIO | HAPTIC | NOTIFICATION | EMAIL | SMS.

Definition value (t : AlertType) : string :=
  match t with
  | VISUAL => "visual"
  | AUDIO => "audio"
  | HAPTIC => "haptic"
  | NOTIFICATION => "notification"
  | EMAIL => "email"
  | SMS => "sms"
  end.

Inductive AlertLevel := LOW | MEDIUM | HIGH | CRITICAL.

Definition level_value (l : AlertLevel) : string :=
  match l with
  | LOW => "low"
  | MEDIUM => "medium"
  | HIGH => "high"
  | CRITICAL => "critical"
  end.

#[global] Instance AlertType_eq_dec : EqDecision AlertType.
Proof. solve_decision. Defined.

#[global] Instance AlertLevel_eq_dec : EqDecision AlertLevel.
Proof. solve_decision. Defined.

Definition AlertType_code (t : AlertType) : nat :=
  match t with
  | VISUAL => 0 | AUDIO => 1 | HAPTIC => 2 | NOTIFICATION => 3 | EMAIL => 4 | SMS => 5
  end%nat.

Definition AlertType_decode (n : nat) : option AlertType :=
  match n with
  | 0 => Some VISUAL | 1 => Some AUDIO | 2 => Some HAPTIC
  | 3 => Some NOTIFICATION | 4 => Some EMAIL | 5 => Some SMS
  | _ => None
  end%nat.

#[global] Instance AlertType_countable : Countable AlertType.
Proof.
  apply (inj_countable AlertType_code AlertType_decode).
  intros []; reflexivity.
Defined.

Record AlertConfig := {
  config_alert_type : AlertType;
  enabled : bool;
  threshold : Q;
  cooldown : Z;            (* seconds *)
  max_frequency : Z;       (* max alerts per minute *)
  custom_message : option string
}.

Definition Metadata := list (string * string).

Record AlertEvent := {
  alert_id : string;
  user_id : string;
  alert_type : AlertType;
  level : AlertLevel;
  message : string;
  timestamp : Q;
  confidence : Q;
  metadata : Metadata
}.

(** ** Exceptions, callbacks, log *)

(** A raised Python exception: whether it is an instance of [Exception]
    (as opposed to a bare [BaseException] such as [CancelledError],
    [KeyboardInterrupt] or [SystemExit]) and its text. *)
Record PyException := {
  is_Exception : bool;
  exc_text : string
}.

Inductive Outcome := Returned | Raised (e : PyException).

Record Callback := {
  cb_name : nat;
  cb_is_coroutine : bool;
  cb_body : AlertEvent -> Outcome
}.

Inductive LogLevel := DEBUG | INFO | WARNING | ERROR.

Inductive LogMessage :=
| ServiceInitialized
| RegisteredCallback (t : AlertType)
| UpdatedConfiguration (t : AlertType)
| NoConfigurationFound (t : AlertType)
| BelowThreshold (c thr : Q)
| RateLimitedOrCooldown (user : string)
| CallbackError (e : PyException)
| AlertSent (t : AlertType) (user : string) (c : Q)
| SendError (t : AlertType) (e : PyException)
| ClearedHistoryFor (user : string)
| ClearedAllHistory.

(** ** The service object and its world *)

Record AlertService := {
  alert_configs : gmap string AlertConfig;
  alert_history : list AlertEvent;
  alert_callbacks : gmap AlertType (list Callback);
  rate_limits : gmap string (list Q);
  cooldowns : gmap string Q
}.

Record World := {
  svc : AlertService;
  ticks : nat;                              (* calls of time.time() so far *)
  logged : list (LogLevel * LogMessage);    (* calls of logger, oldest first *)
  invoked : list (nat * AlertEvent)         (* callback invocations, oldest first *)
}.

Definition set_svc (f : AlertService -> AlertService) (w : World) : World :=
  {| svc := f (svc w); ticks := ticks w; logged := logged w; invoked := invoked w |}.

Definition set_alert_configs (m : gmap string AlertConfig) (s : AlertService) :=
  {| alert_configs := m; alert_history := alert_history s;
     alert_callbacks := alert_callbacks s; rate_limits := rate_limits s;
     cooldowns := cooldowns s |}.

Definition set_alert_history (h : list AlertEvent) (s : AlertService) :=
  {| alert_configs := alert_configs s; alert_history := h;
     alert_callbacks := alert_callbacks s; rate_limits := rate_limits s;
     cooldowns := cooldowns s |}.

Definition set_alert_callbacks (m : gmap AlertType (list Callback)) (s : AlertService) :=
  {| alert_configs := alert_configs s; alert_history := alert_history s;
     alert_callbacks := m; rate_limits := rate_limits s;
     cooldowns := cooldowns s |}.

Definition set_rate_limits (m : gmap string (list Q)) (s : AlertService) :=
  {| alert_configs := alert_configs s; alert_history := alert_history s;
     alert_callbacks := alert_callbacks s; rate_limits := m;
     cooldowns := cooldowns s |}.

Definition set_cooldowns (m : gmap string Q) (s : AlertService) :=
  {| alert_configs := alert_configs s; alert_history := alert_history s;
     alert_callbacks := alert_callbacks s; rate_limits := rate_limits s;
     cooldowns := m |}.

(** ** A monad for code that mutates the world and may raise *)

Inductive Result (A : Type) := Ret (a : A) | Exc (e : PyException).
Arguments Ret {A} a.
Arguments Exc {A} e.

Definition M (A : Type) : Type := World -> Result A * World.

Definition ret {A} (a : A) : M A := fun w => (Ret a, w).

Definition bind {A B} (m : M A) (k : A -> M B) : M B :=
  fun w =>
    match m w with
    | (Ret a, w') => k a w'
    | (Exc e, w') => (Exc e, w')
    end.

Notation "'do' x <- m ; k" := (bind m (fun x => k))
  (at level 10, x name, m at level 100, k at level 200).
Notation "m ;;; k" := (bind m (fun _ => k))
  (at level 100, k at level 200, right associativity).

Definition get_svc : M AlertService := fun w => (Ret (svc w), w).

Definition modify (f : AlertService -> AlertService) : M unit :=
  fun w => (Ret tt, set_svc f w).

Definition logger (l : LogLevel) (m : LogMessage) : M unit :=
  fun w => (Ret tt,
            {| svc := svc w; ticks := ticks w;
               logged := logged w ++ [(l, m)]; invoked := invoked w |}).

(** [try: m  except Exception as e: h e]; anything that is not an
    [Exception] passes through. *)
Definition try_except {A} (m : M A) (h : PyException -> M A) : M A :=
  fun w =>
    match m w with
    | (Ret a, w') => (Ret a, w')
    | (Exc e, w') => if is_Exception e then h e w' else (Exc e, w')
    end.

(** ** [AlertService] ([alert_service.py], lines 56-398) *)

(** [f"{user_id}_{alert_type.value}"], the key of both [rate_limits] and
    [cooldowns]. *)
Definition rate_key (user : string) (t : AlertType) : string :=
  user +:+ "_" +:+ value t.

Definition default_configs : list (AlertType * AlertConfig) :=
  [ (VISUAL,
     {| config_alert_type := VISUAL; enabled := true; threshold := 7 # 10;
        cooldown := 3; max_frequency := 20; custom_message := None |});
    (AUDIO,
     {| config_alert_type := AUDIO; enabled := true; threshold := 8 # 10;
        cooldown := 5; max_frequency := 10; custom_message := None |});
    (HAPTIC,
     {| config_alert_type := HAPTIC; enabled := true; threshold := 6 # 10;
        cooldown := 2; max_frequency := 30; custom_message := None |});
    (NOTIFICATION,
     {| config_alert_type := NOTIFICATION; enabled := true; threshold := 7 # 10;
        cooldown := 10; max_frequency := 5; custom_message := None |}) ].

(** [_setup_default_configs]: the loop over [default_configs.items()]. *)
Definition _setup_default_configs (s : AlertService) : AlertService :=
  fold_left
    (fun s tc =>
       set_alert_callbacks (<[tc.1 := []]> (alert_callbacks s))
         (set_alert_configs (<[value tc.1 := tc.2]> (alert_configs s)) s))
    default_configs s.

(** [AlertService.__init__]. *)
Definition empty_service : AlertService :=
  {| alert_configs := ∅; alert_history := []; alert_callbacks := ∅;
     rate_limits := ∅; cooldowns := ∅ |}.

Definition init : World :=
  {| svc := _setup_default_configs empty_service;
     ticks := 0;
     logged := [(INFO, ServiceInitialized)];
     invoked := [] |}.

Definition register_callback (t : AlertType) (cb : Callback) : M unit :=
  modify (fun s =>
    let cbs := match alert_callbacks s !! t with
               | Some _ => alert_callbacks s
               | None => <[t := []]> (alert_callbacks s)
               end in
    set_alert_callbacks (<[t := (cbs !!! t) ++ [cb]]> cbs) s) ;;;
  logger INFO (RegisteredCallback t).

Definition update_config (t : AlertType) (config : AlertConfig) : M unit :=
  modify (fun s => set_alert_configs (<[value t := config]> (alert_configs s)) s) ;;;
  logger INFO (UpdatedConfiguration t).

(** [if user_id:] on an optional string: [None] and the empty string are
    both falsy. *)
Definition truthy (user : option string) : option string :=
  match user with
  | Some EmptyString => None
  | other => other
  end.

Definition clear_history (user : option string) : M unit :=
  match truthy user with
  | Some u =>
    modify (fun s =>
      set_alert_history (filter (fun alert => user_id alert <> u) (alert_history s)) s) ;;;
    logger INFO (ClearedHistoryFor u)
  | None =>
    modify (set_alert_history []) ;;;
    logger INFO ClearedAllHistory
  end.

(** The part of [update_detection_config] ([detection_routes.py], lines
    227-235) that touches the service: [AlertType(name)] must succeed, and
    then an existing configuration is switched on in place. *)
Definition AlertType_of (name : string) : option AlertType :=
  list_find (fun t => value t = name) [VISUAL; AUDIO; HAPTIC; NOTIFICATION; EMAIL; SMS]
    ≫= (fun p => Some p.2).

Definition enable (config : AlertConfig) : AlertConfig :=
  {| config_alert_type := config_alert_type config; enabled := true;
     threshold := threshold config; cooldown := cooldown config;
     max_frequency := max_frequency config; custom_message := custom_message config |}.

Definition enable_alert_type (name : string) : M unit :=
  match AlertType_of name with
  | Some _ => modify (fun s => set_alert_configs (alter enable name (alert_configs s)) s)
  | None => ret tt
  end.

Section WithClock.

(** The wall clock: the [n]-th call of [time.time()] returns [clock n]. *)
Variable clock : nat -> Q.

Definition time_time : M Q :=
  fun w => (Ret (clock (ticks w)),
            {| svc := svc w; ticks := S (ticks w);
               logged := logged w; invoked := invoked w |}).

Definition _can_send_alert (user : string) (t : AlertType) : M bool :=
  do s <- get_svc;
  match alert_configs s !! value t with
  | None => ret false
  | Some config =>
    if negb (enabled config) then ret false else
    (* Check cooldown *)
    let cooldown_key := rate_key user t in
    do current_time <- time_time;
    let in_cooldown :=
      match cooldowns s !! cooldown_key with
      | Some last => Qltb (current_time - last) (inject_Z (cooldown config))
      | None => false
      end in
    if in_cooldown then ret false else
    (* Check rate limit *)
    let rate_key := rate_key user t in
    let stamps := default [] (rate_limits s !! rate_key) in
    (* Remove old timestamps (older than 1 minute) *)
    let minute_ago := (current_time - 60)%Q in
    let kept := filter (fun ts => Qgtb ts minute_ago = true) stamps in
    modify (fun s => set_rate_limits (<[rate_key := kept]> (rate_limits s)) s) ;;;
    (* Check if we're within rate limit *)
    if (Z.of_nat (length kept) >=? max_frequency config)%Z then ret false
    else ret true
  end.

Definition _update_rate_limits (user : string) (t : AlertType) : M unit :=
  let rate_key := rate_key user t in
  let cooldown_key := rate_key in
  do current_time <- time_time;
  modify (fun s =>
    let stamps := default [] (rate_limits s !! rate_key) in
    set_cooldowns (<[cooldown_key := current_time]> (cooldowns s))
      (set_rate_limits (<[rate_key := stamps ++ [current_time]]> (rate_limits s)) s)).

(** One pass of [for callback in callbacks: try: ... except Exception]. *)
Definition call (cb : Callback) (ev : AlertEvent) : M unit :=
  fun w =>
    let w' := {| svc := svc w; ticks := ticks w; logged := logged w;
                 invoked := invoked w ++ [(cb_name cb, ev)] |} in
    match cb_body cb ev with
    | Returned => (Ret tt, w')
    | Raised e => (Exc e, w')
    end.

Fixpoint execute_callbacks (callbacks : list Callback) (ev : AlertEvent) : M unit :=
  match callbacks with
  | [] => ret tt
  | callback :: rest =>
    try_except
      (if cb_is_coroutine callback then call callback ev else call callback ev)
      (fun e => logger ERROR (CallbackError e)) ;;;
    execute_callbacks rest ev
  end.

Definition default_message : string := "Screen peeking detected!".

Definition send_alert (user : string) (t : AlertType) (lvl : AlertLevel)
    (msg : string) (conf : Q) (meta : option Metadata) : M bool :=
  do s <- get_svc;
  match alert_configs s !! value t with
  | None => logger WARNING (NoConfigurationFound t) ;;; ret false
  | Some config =>
    (* Check if alert meets threshold *)
    if Qltb conf (threshold config)
    then logger DEBUG (BelowThreshold conf (threshold config)) ;;; ret false
    else
    (* Check if alert can be sent *)
    do ok <- _can_send_alert user t;
    if negb ok
    then logger DEBUG (RateLimitedOrCooldown user) ;;; ret false
    else
    (* Create alert event *)
    do t_id <- time_time;
    do t_ev <- time_time;
    let alert_event :=
      {| alert_id := user +:+ "_" +:+ value t +:+ "_" +:+ pretty (py_int (t_id * 1000)%Q);
         user_id := user;
         alert_type := t;
         level := lvl;
         message := str_or msg (str_or (default "" (custom_message config))
                                       default_message);
         timestamp := t_ev;
         confidence := conf;
         metadata := default [] meta |} in
    (* Add to history *)
    modify (fun s => set_alert_history (alert_history s ++ [alert_event]) s) ;;;
    (* Update rate limits *)
    _update_rate_limits user t ;;;
    (* Execute callbacks *)
    do s' <- get_svc;
    execute_callbacks (default [] (alert_callbacks s' !! t)) alert_event ;;;
    logger INFO (AlertSent t user conf) ;;;
    ret true
  end.

(** [send_multiple_alerts]: the coroutines are created first and awaited
    one after the other, so the sends run in list order.  The result is
    the dictionary built by the second loop. *)
Fixpoint await_all (user : string) (tasks : list AlertType) (lvl : AlertLevel)
    (msg : string) (conf : Q) (meta : option Metadata)
    (results : gmap AlertType bool) : M (gmap AlertType bool) :=
  match tasks with
  | [] => ret results
  | t :: rest =>
    do success <-
      try_except (send_alert user t lvl msg conf meta)
                 (fun e => logger ERROR (SendError t e) ;;; ret false);
    await_all user rest lvl msg conf meta (<[t := success]> results)
  end.

Definition send_multiple_alerts (user : string) (alert_types : list AlertType)
    (lvl : AlertLevel) (msg : string) (conf : Q) (meta : option Metadata)
    : M (gmap AlertType bool) :=
  await_all user alert_types lvl msg conf meta ∅.

(** [get_alert_history]; [limit] defaults to [100] at the call sites
    that omit it. *)
Definition get_alert_history (user : option string) (limit : Z) : M (list AlertEvent) :=
  do s <- get_svc;
  match truthy user with
  | Some u =>
    let user_alerts := filter (fun alert => user_id alert = u) (alert_history s) in
    ret (slice_from (- limit) user_alerts)
  | None => ret (slice_from (- limit) (alert_history s))
  end.

Definition default_limit : Z := 100.

Record AlertStats := {
  total_alerts : nat;
  alerts_by_type : gmap string nat;
  alerts_by_level : gmap string nat;
  average_confidence : Q;
  recent_alerts : nat
}.

(** The accumulators of the loop of [get_alert_stats]. *)
Record StatsAcc := {
  acc_by_type : gmap string nat;
  acc_by_level : gmap string nat;
  acc_total_confidence : Q;
  acc_recent : nat
}.

Definition stats_step (one_hour_ago : Q) (acc : StatsAcc) (alert : AlertEvent) : StatsAcc :=
  let alert_type := value (alert_type alert) in
  let alert_level := level_value (level alert) in
  {| acc_by_type :=
       <[alert_type := (default 0 (acc_by_type acc !! alert_type) + 1)%nat]> (acc_by_type acc);
     acc_by_level :=
       <[alert_level := (default 0 (acc_by_level acc !! alert_level) + 1)%nat]> (acc_by_level acc);
     acc_total_confidence := (acc_total_confidence acc + confidence alert)%Q;
     acc_recent :=
       if Qgtb (timestamp alert) one_hour_ago then S (acc_recent acc) else acc_recent acc |}.

Definition get_alert_stats (user : option string) : M AlertStats :=
  do alerts <- get_alert_history user default_limit;
  match alerts with
  | [] =>
    ret {| total_alerts := 0; alerts_by_type := ∅; alerts_by_level := ∅;
           average_confidence := 0; recent_alerts := 0 |}
  | _ =>
    let total := length alerts in
    do current_time <- time_time;
    let one_hour_ago := (current_time - 3600)%Q in
    let acc :=
      fold_left (stats_step one_hour_ago) alerts
        {| acc_by_type := ∅; acc_by_level := ∅;
           acc_total_confidence := 0; acc_recent := 0 |} in
    ret {| total_alerts := total;
           alerts_by_type := acc_by_type acc;
           alerts_by_level := acc_by_level acc;
           average_confidence :=
             if (0 <? total)%nat
             then (acc_total_confidence acc / inject_Z (Z.of_nat total))%Q
             else 0;
           recent_alerts := acc_recent acc |}
  end.

(** *** Sequences of dispatches

    Every mutation that [send_alert] makes to the service happens before
    its first [await], so the calls of concurrent tasks act on the service
    one after the other. *)

Record Call := {
  call_user : string;
  call_type : AlertType;
  call_level : AlertLevel;
  call_message : string;
  call_confidence : Q;
  call_metadata : option Metadata
}.

Definition send (c : Call) : M bool :=
  send_alert (call_user c) (call_type c) (call_level c) (call_message c)
    (call_confidence c) (call_metadata c).

(** The calls are run whatever the earlier ones answered. *)
Fixpoint run (calls : list Call) (w : World) : list (Result bool) * World :=
  match calls with
  | [] => ([], w)
  | c :: rest =>
    let '(r, w1) := send c w in
    let '(rs, w2) := run rest w1 in
    (r :: rs, w2)
  end.

(** *** Everything a client of the service can do *)

Inductive Op :=
| op_send_alert (c : Call)
| op_send_multiple_alerts (user : string) (alert_types : list AlertType)
    (lvl : AlertLevel) (msg : string) (conf : Q) (meta : option Metadata)
| op_register_callback (t : AlertType) (cb : Callback)
| op_update_config (t : AlertType) (config : AlertConfig)
| op_enable_alert_type (name : string)
| op_get_alert_stats (user : option string)
| op_clear_history (user : option string).

Definition step (w : World) (o : Op) : World :=
  match o with
  | op_send_alert c => (send c w).2
  | op_send_multiple_alerts user ts lvl msg conf meta =>
    (send_multiple_alerts user ts lvl msg conf meta w).2
  | op_register_callback t cb => (register_callback t cb w).2
  | op_update_config t config => (update_config t config w).2
  | op_enable_alert_type name => (enable_alert_type name w).2
  | op_get_alert_stats user => (get_alert_stats user w).2
  | op_clear_history user => (clear_history user w).2
  end.

Definition exec (ops : list Op) (w : World) : World := fold_left step ops w.

End WithClock.

(** Whether an operation is [update_config] for channel [t]. *)
Definition configures (t : AlertType) (o : Op) : Prop :=
  match o with
  | op_update_config t' _ => t' = t
  | _ => False
  end.

(** A service that has not dispatched yet (whatever its configuration
    and callbacks). *)
Definition quiet (w : World) : Prop :=
  alert_history (svc w) = [] /\ rate_limits (svc w) = ∅ /\ cooldowns (svc w) = ∅.

End Alerts.

Module Detector.

(** ** [ScreenPeekDetector] ([screen_peek_detector.py])

    Face detection and the face mesh are MediaPipe's; what they answer on
    a frame is data of the model.  For one detection, [MeshOutcome] is what
    happens inside [estimate_gaze_direction]: an exception, an empty face
    region, no landmarks, a missing eye or nose landmark, or a head pose. *)

Inductive MeshOutcome :=
| EstimationRaised
| EmptyRegion
| NoLandmarks
| MissingLandmark
| HeadPose (pitch yaw : Q).

Record Detection := {
  score : Q;
  mesh : MeshOutcome
}.

Record Face := {
  face_confidence : Q;
  face_mesh : MeshOutcome
}.

Record DetectionResult := {
  is_peeking : bool;
  confidence : Q;
  face_count : nat;
  gaze_angles : list (Q * Q);
  timestamp : Q
}.

Definition detect_faces (confidence_threshold : Q) (detections : list Detection)
    : list Face :=
  omap (fun d =>
          if negb (Qltb (score d) confidence_threshold)
          then Some {| face_confidence := score d; face_mesh := mesh d |}
          else None)
       detections.

Definition estimate_gaze_direction (face : Face) : Q * Q :=
  match face_mesh face with
  | HeadPose pitch yaw => (pitch, yaw)
  | EstimationRaised | EmptyRegion | NoLandmarks | MissingLandmark => (0, 0)%Q
  end.

Definition is_looking_at_screen (gaze_angles : Q * Q) : bool :=
  let '(pitch, yaw) := gaze_angles in
  let pitch_threshold := 15%Q in
  let yaw_threshold := 20%Q in
  let is_pitch_ok := Qltb (Qabs pitch) pitch_threshold in
  let is_yaw_ok := Qltb (Qabs yaw) yaw_threshold in
  is_pitch_ok && is_yaw_ok.

(** [max(a, b)] of Python: [b] only when it is strictly greater. *)
Definition py_max (a b : Q) : Q := if Qgtb b a then b else a.

(** The loop of [process_frame] over the detected faces; the state is
    [(is_peeking, gaze_angles, max_confidence)]. *)
Definition face_step (st : bool * list (Q * Q) * Q) (face : Face)
    : bool * list (Q * Q) * Q :=
  let '(peeking, angles, max_confidence) := st in
  let gaze := estimate_gaze_direction face in
  if is_looking_at_screen gaze
  then (true, angles ++ [gaze], py_max max_confidence (face_confidence face))
  else (peeking, angles ++ [gaze], max_confidence).

Definition process_frame (confidence_threshold : Q) (now : Q)
    (detections : list Detection) : DetectionResult :=
  let faces := detect_faces confidence_threshold detections in
  let '(peeking, angles, max_confidence) :=
    fold_left face_step faces (false, [], 0%Q) in
  {| is_peeking := peeking;
     confidence := if peeking then max_confidence else 0%Q;
     face_count := length faces;
     gaze_angles := angles;
     timestamp := now |}.

(** A gaze estimate that fell back to the default angles. *)
Definition failed (o : MeshOutcome) : Prop :=
  match o with
  | HeadPose _ _ => False
  | EstimationRaised | EmptyRegion | NoLandmarks | MissingLandmark => True
  end.

End Detector.

Module Sessions.

(** ** [DetectionConnectionManager] and the detection loop
       ([detection_routes.py], lines 64-89 and 285-371)

    The event loop's tasks are kept in creation order; a task is named by
    its position.  [task.cancel()] marks a pending task; the coroutine
    sees [CancelledError] the next time it is resumed. *)

Inductive Frame :=
| status_update (is_active : bool) (timestamp : Q).

Inductive TaskState := Pending | CancelRequested | Done.

#[global] Instance TaskState_eq_dec : EqDecision TaskState.
Proof. solve_decision. Defined.

Record Task := {
  task_user : string;
  task_state : TaskState
}.

Inductive LogMessage :=
| ErrorSendingUpdate (user : string)
| ErrorInDetectionLoop (user : string)
| Connected (user : string)
| Disconnected (user : string).

Record Manager := {
  active_connections : gmap string nat;    (* user -> websocket *)
  detection_tasks : gmap string nat;       (* user -> task *)
  tasks : list Task;                       (* tasks of the event loop *)
  pushed : list (nat * Frame);             (* frames written, per websocket *)
  logged : list LogMessage
}.

Definition empty_manager : Manager :=
  {| active_connections := ∅; detection_tasks := ∅; tasks := [];
     pushed := []; logged := [] |}.

Definition set_state (st : TaskState) (t : Task) : Task :=
  {| task_user := task_user t; task_state := st |}.

(** [task.cancel()]: only a task that is not done is affected. *)
Definition cancel (t : Task) : Task :=
  match task_state t with
  | Pending => set_state CancelRequested t
  | CancelRequested | Done => t
  end.

Definition connect (websocket : nat) (user : string) (m : Manager) : Manager :=
  {| active_connections := <[user := websocket]> (active_connections m);
     detection_tasks := detection_tasks m; tasks := tasks m;
     pushed := pushed m; logged := logged m ++ [Connected user] |}.

(** The shared body of the three places that stop a loop:
    [if user_id in detection_tasks: task.cancel(); del detection_tasks[user_id]]. *)
Definition cancel_and_forget (user : string) (m : Manager) : Manager :=
  match detection_tasks m !! user with
  | Some id =>
    {| active_connections := active_connections m;
       detection_tasks := delete user (detection_tasks m);
       tasks := alter cancel id (tasks m);
       pushed := pushed m; logged := logged m |}
  | None => m
  end.

Definition disconnect (user : string) (m : Manager) : Manager :=
  let m1 :=
    {| active_connections := delete user (active_connections m);
       detection_tasks := detection_tasks m; tasks := tasks m;
       pushed := pushed m; logged := logged m |} in
  let m2 := cancel_and_forget user m1 in
  {| active_connections := active_connections m2;
     detection_tasks := detection_tasks m2; tasks := tasks m2;
     pushed := pushed m2; logged := logged m2 ++ [Disconnected user] |}.

(** [send_detection_update]; [write_ok] says whether [send_text] returns
    or raises. *)
Definition send_detection_update (user : string) (frame : Frame) (write_ok : bool)
    (m : Manager) : Manager :=
  match active_connections m !! user with
  | Some websocket =>
    if write_ok
    then {| active_connections := active_connections m;
            detection_tasks := detection_tasks m; tasks := tasks m;
            pushed := pushed m ++ [(websocket, frame)]; logged := logged m |}
    else {| active_connections := active_connections m;
            detection_tasks := detection_tasks m; tasks := tasks m;
            pushed := pushed m; logged := logged m ++ [ErrorSendingUpdate user] |}
  | None => m
  end.

(** [start_continuous_detection]. *)
Definition start_continuous_detection (user : string) (m : Manager) : Manager :=
  match detection_tasks m !! user with
  | Some _ => m  (* Already running *)
  | None =>
    let task := length (tasks m) in
    {| active_connections := active_connections m;
       detection_tasks := <[user := task]> (detection_tasks m);
       tasks := tasks m ++ [{| task_user := user; task_state := Pending |}];
       pushed := pushed m; logged := logged m |}
  end.

Record StopResponse := {
  response_user_id : string;
  detection_stopped : bool
}.

(** [stop_detection]: nothing in the [try] block raises, so the answer is
    always the success record. *)
Definition stop_detection (user : string) (m : Manager) : StopResponse * Manager :=
  ({| response_user_id := user; detection_stopped := true |},
   cancel_and_forget user m).

(** What happens when the event loop resumes the coroutine of
    [detection_loop] inside its [try] block. *)
Inductive Resumption :=
| Slept (now : Q) (write_ok : bool)   (* the sleep ends; the update is sent *)
| Faulted.                            (* an Exception other than cancellation *)

Definition set_task (id : nat) (st : TaskState) (m : Manager) : Manager :=
  {| active_connections := active_connections m;
     detection_tasks := detection_tasks m;
     tasks := alter (set_state st) id (tasks m);
     pushed := pushed m; logged := logged m |}.

(** One resumption of task [id], running [detection_loop]. *)
Definition detection_loop_step (id : nat) (r : Resumption) (m : Manager) : Manager :=
  match tasks m !! id with
  | None => m
  | Some t =>
    match task_state t with
    | Done => m
    | CancelRequested =>
      (* except asyncio.CancelledError: break *)
      set_task id Done m
    | Pending =>
      match r with
      | Slept now write_ok =>
        send_detection_update (task_user t) (status_update true now) write_ok m
      | Faulted =>
        (* except Exception as e: logger.error(...); break *)
        let m' := set_task id Done m in
        {| active_connections := active_connections m';
           detection_tasks := detection_tasks m'; tasks := tasks m';
           pushed := pushed m';
           logged := logged m' ++ [ErrorInDetectionLoop (task_user t)] |}
      end
    end
  end.

(** The messages of the websocket endpoint. *)
Inductive ClientMessage := start_detection | stop_detection_msg | update_config_msg.

Definition websocket_message (user : string) (msg : ClientMessage) (m : Manager)
    : Manager :=
  match msg with
  | start_detection => start_continuous_detection user m
  | stop_detection_msg => cancel_and_forget user m
  | update_config_msg => m
  end.

(** The number of loops of [user] that are still running. *)
Definition running_loops (user : string) (m : Manager) : nat :=
  length (filter (fun t => task_user t = user /\ task_state t = Pending) (tasks m)).

(** The manager after user "u" connected on websocket 7 and started
    detection. *)
Definition watching : Manager :=
  start_continuous_detection "u" (connect 7 "u" empty_manager).

End Sessions.

Module AlertsSpec.
Import Alerts.

(** ** Vocabulary for the properties of the dispatch engine *)

(** The timestamps that survive the pruning done at time [c]. *)
Definition pruned (c : Q) (stamps : list Q) : list Q :=
  filter (fun ts => Qgtb ts (c - 60)%Q = true) stamps.

Definition stamps_of (s : AlertService) (key : string) : list Q :=
  default [] (rate_limits s !! key).

(** The service after an admission checked at time [c], stamped [r], that
    created [ev]. *)
Definition accepted (user : string) (t : AlertType) (c r : Q) (ev : AlertEvent)
    (s : AlertService) : AlertService :=
  {| alert_configs := alert_configs s;
     alert_history := alert_history s ++ [ev];
     alert_callbacks := alert_callbacks s;
     rate_limits :=
       <[rate_key user t := pruned c (stamps_of s (rate_key user t)) ++ [r]]>
         (<[rate_key user t := pruned c (stamps_of s (rate_key user t))]> (rate_limits s));
     cooldowns := <[rate_key user t := r]> (cooldowns s) |}.

(** The service after a rejection by the rate limit checked at time [c]. *)
Definition throttled (user : string) (t : AlertType) (c : Q) (s : AlertService)
    : AlertService :=
  set_rate_limits
    (<[rate_key user t := pruned c (stamps_of s (rate_key user t))]> (rate_limits s)) s.

Definition raises_only_Exception (cbs : list Callback) (ev : AlertEvent) : Prop :=
  Forall (fun cb => forall e, cb_body cb ev = Raised e -> is_Exception e = true) cbs.

(** The event created by an admission whose second and third clock
    readings are [t_id] and [t_ev]. *)
Definition event_of (user : string) (t : AlertType) (lvl : AlertLevel) (msg : string)
    (conf : Q) (meta : option Metadata) (config : AlertConfig) (t_id t_ev : Q)
    : AlertEvent :=
  {| alert_id := user +:+ "_" +:+ value t +:+ "_" +:+ pretty (py_int (t_id * 1000)%Q);
     user_id := user;
     alert_type := t;
     level := lvl;
     message := str_or msg (str_or (default "" (custom_message config)) default_message);
     timestamp := t_ev;
     confidence := conf;
     metadata := default [] meta |}.

(** The end of [send_alert] once the callbacks have run. *)
Definition conclude (user : string) (t : AlertType) (conf : Q)
    (x : Result unit * World) : Result bool * World :=
  match x with
  | (Ret _, w2) =>
    (Ret true,
     {| svc := svc w2; ticks := ticks w2;
        logged := logged w2 ++ [(INFO, AlertSent t user conf)];
        invoked := invoked w2 |})
  | (Exc e, w2) => (Exc e, w2)
  end.

(** *** Counting dispatches *)

(** Events of [(u, t)] in [h] whose timestamp satisfies [inw]. *)
Definition window_count (u : string) (t : AlertType) (inw : Q -> bool)
    (h : list AlertEvent) : nat :=
  length (filter (fun e => user_id e = u /\ alert_type e = t /\ inw (timestamp e) = true) h).

(** Events of [(u, t)] in [h] stamped after [x]. *)
Definition count_after (u : string) (t : AlertType) (x : Q) (h : list AlertEvent) : nat :=
  window_count u t (Qltb x) h.

Definition stamps_after (x : Q) (l : list Q) : nat :=
  length (filter (fun r => Qltb x r = true) l).

(** The window [(a, a + 60]] and the window [[a, a + 60)]. *)
Definition trailing (a : Q) (ts : Q) : bool := Qltb a ts && negb (Qltb (a + 60) ts).
Definition leading (a : Q) (ts : Q) : bool := negb (Qltb ts a) && Qltb ts (a + 60).

(** A history in which every event found fewer than [max_frequency]
    earlier events of its own user and channel in the minute before it. *)
Inductive hist_ok (cfgs : gmap string AlertConfig) : list AlertEvent -> Prop :=
| hist_ok_nil : hist_ok cfgs []
| hist_ok_snoc h e :
    hist_ok cfgs h ->
    (forall config, cfgs !! value (alert_type e) = Some config ->
       (Z.of_nat (count_after (user_id e) (alert_type e) (timestamp e - 60) h)
          < max_frequency config)%Z) ->
    hist_ok cfgs (h ++ [e]).

(** A history in which every event comes at least [cooldown] after every
    earlier event of its own user and channel. *)
Inductive hist_spaced (cfgs : gmap string AlertConfig) : list AlertEvent -> Prop :=
| hist_spaced_nil : hist_spaced cfgs []
| hist_spaced_snoc h e :
    hist_spaced cfgs h ->
    (forall e' config, e' ∈ h -> user_id e' = user_id e -> alert_type e' = alert_type e ->
       cfgs !! value (alert_type e) = Some config ->
       (timestamp e' + inject_Z (cooldown config) <= timestamp e)%Q) ->
    hist_spaced cfgs (h ++ [e]).

(** A clock that does not run backwards. *)
Definition monotone (clk : nat -> Q) : Prop :=
  forall i j, (i <= j)%nat -> (clk i <= clk j)%Q.

(** A configuration outside the data model of the design document. *)
Definition invalid (config : AlertConfig) : Prop :=
  (threshold config < 0)%Q \/ (1 < threshold config)%Q \/ (cooldown config < 0)%Z.

(** The events [get_alert_stats] is asked about. *)
Definition selected (user : option string) (h : list AlertEvent) : list AlertEvent :=
  match truthy user with
  | Some u => filter (fun alert => user_id alert = u) h
  | None => h
  end.

(** The error records that running [cbs] on [ev] leaves in the log. *)
Definition errors_of (cbs : list Callback) (ev : AlertEvent)
    : list (LogLevel * LogMessage) :=
  omap (fun cb => match cb_body cb ev with
                  | Raised e => Some (ERROR, CallbackError e)
                  | Returned => None
                  end) cbs.

(** Every registered handler raises instances of [Exception] only. *)
Definition well_behaved (w : World) : Prop :=
  forall t ev, raises_only_Exception (default [] (alert_callbacks (svc w) !! t)) ev.

(** Two worlds whose services differ at most in the registered callbacks. *)
Definition same_engine (w w' : World) : Prop :=
  alert_configs (svc w) = alert_configs (svc w') /\
  alert_history (svc w) = alert_history (svc w') /\
  rate_limits (svc w) = rate_limits (svc w') /\
  cooldowns (svc w) = cooldowns (svc w') /\
  ticks w = ticks w'.

Section WithClock.

Variable clock : nat -> Q.

(** The world in which the callbacks of an admitted event start. *)
Definition dispatching (user : string) (t : AlertType) (lvl : AlertLevel) (msg : string)
    (conf : Q) (meta : option Metadata) (config : AlertConfig) (w : World) : World :=
  {| svc := accepted user t (clock (ticks w)) (clock (3 + ticks w))
              (event_of user t lvl msg conf meta config
                 (clock (1 + ticks w)) (clock (2 + ticks w)))
              (svc w);
     ticks := 4 + ticks w;
     logged := logged w;
     invoked := invoked w |}.

(** The three ways a call of [send_alert] can end. *)
Variant send_case (user : string) (t : AlertType) (lvl : AlertLevel) (msg : string)
    (conf : Q) (meta : option Metadata) (w : World) (r : Result bool) (w' : World)
    : Prop :=
| case_rejected :
    r = Ret false ->
    svc w' = svc w ->
    (ticks w <= ticks w')%nat ->
    invoked w' = invoked w ->
    send_case user t lvl msg conf meta w r w'
| case_throttled (config : AlertConfig) :
    alert_configs (svc w) !! value t = Some config ->
    (forall last, cooldowns (svc w) !! rate_key user t = Some last ->
       (inject_Z (cooldown config) <= clock (ticks w) - last)%Q) ->
    r = Ret false ->
    svc w' = throttled user t (clock (ticks w)) (svc w) ->
    ticks w' = S (ticks w) ->
    invoked w' = invoked w ->
    (max_frequency config
       <= Z.of_nat (length (pruned (clock (ticks w)) (stamps_of (svc w) (rate_key user t)))))%Z ->
    send_case user t lvl msg conf meta w r w'
| case_accepted (config : AlertConfig) :
    alert_configs (svc w) !! value t = Some config ->
    enabled config = true ->
    (threshold config <= conf)%Q ->
    (forall last, cooldowns (svc w) !! rate_key user t = Some last ->
       (inject_Z (cooldown config) <= clock (ticks w) - last)%Q) ->
    (Z.of_nat (length (pruned (clock (ticks w)) (stamps_of (svc w) (rate_key user t))))
       < max_frequency config)%Z ->
    (r, w') = conclude user t conf
                (execute_callbacks (default [] (alert_callbacks (svc w) !! t))
                   (event_of user t lvl msg conf meta config
                      (clock (1 + ticks w)) (clock (2 + ticks w)))
                   (dispatching user t lvl msg conf meta config w)) ->
    send_case user t lvl msg conf meta w r w'.

(** The invariant of the dispatch engine under a fixed configuration
    [cfgs]: the stamps kept for a key dominate the history of every user
    and channel with that key, every event respected the rate limit and
    the cooldown when it was created, and the cooldown stamps cover the
    history and are in the past. *)
Record Inv (cfgs : gmap string AlertConfig) (w : World) : Prop := {
  inv_configs : alert_configs (svc w) = cfgs;
  inv_stamps :
    forall u t x,
      (forall i, (i < ticks w)%nat -> (clock i <= x + 60)%Q) ->
      (count_after u t x (alert_history (svc w))
         <= stamps_after x (stamps_of (svc w) (rate_key u t)))%nat;
  inv_window : hist_ok cfgs (alert_history (svc w));
  inv_cool_seen :
    forall e, e ∈ alert_history (svc w) ->
      exists last, cooldowns (svc w) !! rate_key (user_id e) (alert_type e) = Some last /\
                   (timestamp e <= last)%Q;
  inv_cool_past :
    forall k last, cooldowns (svc w) !! k = Some last ->
      forall j, (ticks w <= j)%nat -> (last <= clock j)%Q;
  inv_spaced : hist_spaced cfgs (alert_history (svc w))
}.

End WithClock.

End AlertsSpec.

Module Scenarios.
Import Alerts.

(** The clock that answers the readings [l] in order, and [last] after. *)
Definition readings (l : list Q) (last : Q) (n : nat) : Q := nth n l last.

Definition dispatch (user : string) (t : AlertType) (conf : Q) : Call :=
  {| call_user := user; call_type := t; call_level := MEDIUM; call_message := "";
     call_confidence := conf; call_metadata := None |}.

(** Cooldown: visual channel as configured by default (threshold 0.7,
    cooldown 3 s, 20 per minute); dispatches at t = 0, 1 and 4.  An
    admitted call reads the clock four times, the rejected one once. *)
Definition cooldown_clock : nat -> Q := readings [0; 0; 0; 0; 1; 4; 4; 4; 4]%Q 4%Q.

Definition cooldown_calls : list Call :=
  [dispatch "u" VISUAL (8 # 10); dispatch "u" VISUAL (9 # 10); dispatch "u" VISUAL (9 # 10)].

(** Rate window: 20 per minute and no cooldown; dispatches at
    t = 0, 1, ..., 20 and one more at t = 60. *)
Definition burst_config : AlertConfig :=
  {| config_alert_type := VISUAL; enabled := true; threshold := 7 # 10;
     cooldown := 0; max_frequency := 20; custom_message := None |}.

Definition burst_clock (n : nat) : Q :=
  if (n <? 80)%nat then inject_Z (Z.of_nat (n / 4))
  else if (n =? 80)%nat then 20%Q else 60%Q.

Definition burst_start : World := (update_config VISUAL burst_config init).2.

Definition burst_calls : list Call := replicate 22 (dispatch "u" VISUAL (9 # 10)).

(** History longer than a hundred: 101 haptic alerts (default: cooldown
    2 s, 30 per minute), one every two seconds. *)
Definition steady_clock (n : nat) : Q := inject_Z (2 * Z.of_nat (n / 4)).

Definition steady_calls : list Call := replicate 101 (dispatch "u" HAPTIC (9 # 10)).

Definition steady : World := (run steady_clock steady_calls init).2.

(** A configuration outside the data model: threshold above 1, negative
    cooldown. *)
Definition bad_config : AlertConfig :=
  {| config_alert_type := VISUAL; enabled := true; threshold := 3 # 2;
     cooldown := -1; max_frequency := 20; custom_message := None |}.

(** A configuration for a channel that has none by default. *)
Definition email_config : AlertConfig :=
  {| config_alert_type := EMAIL; enabled := true; threshold := 9 # 10;
     cooldown := 60; max_frequency := 1; custom_message := Some "Someone is watching" |}.

(** One per minute, no cooldown; dispatches at t = 0 and at t = 60. *)
Definition minute_config : AlertConfig :=
  {| config_alert_type := VISUAL; enabled := true; threshold := 7 # 10;
     cooldown := 0; max_frequency := 1; custom_message := None |}.

Definition minute_clock (n : nat) : Q := if (n <? 4)%nat then 0%Q else 60%Q.

(** Two dispatches within one millisecond on a channel without cooldown. *)
Definition twin_calls : list Call := [dispatch "u" VISUAL 1; dispatch "u" VISUAL 1].

(** Two handlers: the visual one returns, the audio one raises. *)
Definition visual_handler : Callback :=
  {| cb_name := 1; cb_is_coroutine := false; cb_body := fun _ => Returned |}.

Definition audio_handler : Callback :=
  {| cb_name := 2; cb_is_coroutine := true;
     cb_body := fun _ => Raised {| is_Exception := true; exc_text := "speaker unplugged" |} |}.

Definition fan_out_start : World :=
  (register_callback AUDIO audio_handler
     (register_callback VISUAL visual_handler init).2).2.

Definition fan_out_clock : nat -> Q := fun _ => 0%Q.

End Scenarios.

Module Routes.

(** ** The remaining endpoints of [detection_routes.py]

    The module-level objects [detector], [alert_service] and [manager]
    are the three parts of [App].  What the endpoints write to a
    websocket as [detection_update] frames is kept in [updates]; the
    calls of the module's [logger] (and of the detector's) in [route_log]. *)

Record DetectorState := {
  confidence_threshold : Q;
  gaze_threshold : Q;
  screen_region : option (Z * Z * Z * Z)
}.

(** [ScreenPeekDetector()] with its default arguments. *)
Definition new_detector : DetectorState :=
  {| confidence_threshold := 7 # 10; gaze_threshold := 3 # 10; screen_region := None |}.

Record DetectionUpdate := {
  update_detection_id : string;
  update_is_peeking : bool;
  update_confidence : Q;
  update_timestamp : Q
}.

Inductive RouteLog :=
| ScreenRegionUpdated (region : Z * Z * Z * Z)
| ErrorProcessingDetection
| InvalidAlertType (name : string)
| WebSocketError (user : string).

Record App := {
  service : Alerts.World;
  manager : Sessions.Manager;
  detector : DetectorState;
  updates : list (nat * DetectionUpdate);
  route_log : list RouteLog
}.

Definition new_app : App :=
  {| service := Alerts.init; manager := Sessions.empty_manager;
     detector := new_detector; updates := []; route_log := [] |}.

(** How a route ends: with its answer, with an [HTTPException], or with
    an exception that no handler of the route catches. *)
Inductive Http (A : Type) :=
| Ok (a : A)
| HTTPException (status_code : Z) (detail : string)
| Unhandled (e : Alerts.PyException).
Arguments Ok {A} a.
Arguments HTTPException {A} status_code detail.
Arguments Unhandled {A} e.

(** The tuple built from a [screen_region] dictionary. *)
Definition region_of (d : gmap string Z) : Z * Z * Z * Z :=
  (default 0 (d !! "x"), default 0 (d !! "y"),
   default 1920 (d !! "width"), default 1080 (d !! "height")).

(** [if region: detector.update_screen_region(...)]; an empty dictionary
    is falsy. *)
Definition maybe_update_screen_region (region : option (gmap string Z)) (a : App) : App :=
  match region with
  | Some d =>
    if decide (d = ∅) then a
    else {| service := service a; manager := manager a;
            detector := {| confidence_threshold := confidence_threshold (detector a);
                           gaze_threshold := gaze_threshold (detector a);
                           screen_region := Some (region_of d) |};
            updates := updates a;
            route_log := route_log a ++ [ScreenRegionUpdated (region_of d)] |}
  | None => a
  end.

Record DetectionRequest := {
  request_user_id : string;
  image_data : string;
  request_timestamp : option Q;
  request_screen_region : option (gmap string Z)
}.

Record DetectionResponse := {
  detection_id : string;
  response_user_id : string;
  is_peeking : bool;
  confidence : Q;
  face_count : nat;
  gaze_angles : list (Q * Q);
  timestamp : Q;
  alerts_sent : list string
}.

(** [manager.send_detection_update] ([detection_routes.py], lines 82-87)
    for a [detection_update] payload. *)
Definition send_detection_frame (user : string) (frame : DetectionUpdate)
    (write_ok : bool) (a : App) : App :=
  match Sessions.active_connections (manager a) !! user with
  | Some websocket =>
    if write_ok
    then {| service := service a; manager := manager a; detector := detector a;
            updates := updates a ++ [(websocket, frame)]; route_log := route_log a |}
    else {| service := service a;
            manager :=
              {| Sessions.active_connections := Sessions.active_connections (manager a);
                 Sessions.detection_tasks := Sessions.detection_tasks (manager a);
                 Sessions.tasks := Sessions.tasks (manager a);
                 Sessions.pushed := Sessions.pushed (manager a);
                 Sessions.logged :=
                   Sessions.logged (manager a) ++ [Sessions.ErrorSendingUpdate user] |};
            detector := detector a; updates := updates a; route_log := route_log a |}
  | None => a
  end.

Definition with_service (w : Alerts.World) (a : App) : App :=
  {| service := w; manager := manager a; detector := detector a;
     updates := updates a; route_log := route_log a |}.

Definition log_route (l : RouteLog) (a : App) : App :=
  {| service := service a; manager := manager a; detector := detector a;
     updates := updates a; route_log := route_log a ++ [l] |}.

(** The result that [process_detection] puts in place of real image
    processing. *)
Definition simulated_result (ts : Q) : Detector.DetectionResult :=
  {| Detector.is_peeking := false; Detector.confidence := 0;
     Detector.face_count := 0; Detector.gaze_angles := [];
     Detector.timestamp := ts |}.

Definition internal_server_error {A : Type} : Http A :=
  HTTPException 500 "Internal server error".

Section WithClock.

Variable clock : nat -> Q.

(** [time.time()], which does not raise. *)
Definition time_now (w : Alerts.World) : Q * Alerts.World :=
  (clock (Alerts.ticks w), (Alerts.time_time clock w).2).

(** [request.timestamp or time.time()]: a missing or zero timestamp is
    falsy. *)
Definition timestamp_or_now (ts : option Q) (w : Alerts.World) : Q * Alerts.World :=
  match ts with
  | Some t => if Qeq_bool t 0 then time_now w else (t, w)
  | None => time_now w
  end.

(** [process_detection] ([detection_routes.py], lines 91-168).
    [write_ok] says whether the websocket write returns or raises. *)
Definition process_detection (request : DetectionRequest) (write_ok : bool) (a : App)
    : Http DetectionResponse * App :=
  (* Validate user_id: the HTTPException(400) is raised inside the try
     block, whose except Exception clause catches it *)
  if decide (request_user_id request = "")
  then (internal_server_error, log_route ErrorProcessingDetection a)
  else
  (* Update screen region if provided *)
  let a1 := maybe_update_screen_region (request_screen_region request) a in
  (* Simulate detection processing *)
  let '(ts, w1) := timestamp_or_now (request_timestamp request) (service a1) in
  let detection_result := simulated_result ts in
  (* Generate detection ID *)
  let '(now, w2) := time_now w1 in
  let detection_id :=
    request_user_id request +:+ "_" +:+ pretty (py_int (now * 1000)%Q) in
  (* Send alerts if peeking detected *)
  let alert_types := [Alerts.VISUAL; Alerts.AUDIO; Alerts.HAPTIC] in
  let sent :=
    if Detector.is_peeking detection_result
       && Qgtb (Detector.confidence detection_result) (7 # 10)
    then
      match Alerts.send_multiple_alerts clock (request_user_id request) alert_types
              Alerts.MEDIUM "Screen peeking detected!"
              (Detector.confidence detection_result) None w2 with
      | (Alerts.Ret results, w3) =>
        (inl (Alerts.value <$>
                filter (fun t => results !! t = Some true) alert_types), w3)
      | (Alerts.Exc e, w3) => (inr e, w3)
      end
    else (inl [], w2) in
  match sent with
  | (inr e, w3) =>
    if Alerts.is_Exception e
    then (internal_server_error,
          log_route ErrorProcessingDetection (with_service w3 a1))
    else (Unhandled e, with_service w3 a1)
  | (inl alerts_sent, w3) =>
    (* Send real-time update via WebSocket *)
    let a2 :=
      send_detection_frame (request_user_id request)
        {| update_detection_id := detection_id;
           update_is_peeking := Detector.is_peeking detection_result;
           update_confidence := Detector.confidence detection_result;
           update_timestamp := Detector.timestamp detection_result |}
        write_ok (with_service w3 a1) in
    (Ok {| detection_id := detection_id;
           response_user_id := request_user_id request;
           is_peeking := Detector.is_peeking detection_result;
           confidence := Detector.confidence detection_result;
           face_count := Detector.face_count detection_result;
           gaze_angles := Detector.gaze_angles detection_result;
           timestamp := Detector.timestamp detection_result;
           alerts_sent := alerts_sent |},
     a2)
  end.



End WithClock.





(** *** The websocket endpoint ([detection_routes.py], lines 285-321) *)

(** What [json.loads] makes of a received text: nothing, a value that is
    not an object, or an object with its ["type"] entry when that is a
    string. *)
Inductive Parsed :=
| NotJson
| NotAnObject
| Object (type : option string).

(** What [websocket.receive_text()] yields. *)
Inductive Received :=
| Closed                   (* WebSocketDisconnect *)
| Text (p : Parsed).

(** One turn of the [while True] loop of [websocket_detection]: whether
    the handler goes on, what it logs, and the manager afterwards. *)
Definition websocket_turn (user : string) (r : Received) (m : Sessions.Manager)
    : bool * list RouteLog * Sessions.Manager :=
  match r with
  | Closed => (false, [], Sessions.disconnect user m)
  | Text NotJson | Text NotAnObject =>
    (false, [WebSocketError user], Sessions.disconnect user m)
  | Text (Object type) =>
    if decide (type = Some "start_detection")
    then (true, [], Sessions.start_continuous_detection user m)
    else if decide (type = Some "stop_detection")
    then (true, [], Sessions.cancel_and_forget user m)
    else (true, [], m)
  end.

(** Everything that acts on the manager. *)
Inductive Event :=
| ev_connect (websocket : nat) (user : string)
| ev_receive (user : string) (r : Received)
| ev_stop (user : string)
| ev_resume (id : nat) (r : Sessions.Resumption).

Definition apply_event (m : Sessions.Manager) (e : Event) : Sessions.Manager :=
  match e with
  | ev_connect websocket user => Sessions.connect websocket user m
  | ev_receive user r => (websocket_turn user r m).2
  | ev_stop user => (Sessions.stop_detection user m).2
  | ev_resume id r => Sessions.detection_loop_step id r m
  end.

Definition apply_events (es : list Event) (m : Sessions.Manager) : Sessions.Manager :=
  fold_left apply_event es m.

(** A running loop is the one registered for its user. *)
Definition registered_running (m : Sessions.Manager) : Prop :=
  forall id t,
    Sessions.tasks m !! id = Some t ->
    Sessions.task_state t = Sessions.Pending ->
    Sessions.detection_tasks m !! Sessions.task_user t = Some id.

End Routes.

Module ExtraSpec.
Import Alerts AlertsSpec.

(** ** Vocabulary for the further properties *)

(** Two worlds that agree on everything an admission check reads. *)
Definition same_admission (w w' : World) : Prop :=
  alert_configs (svc w) = alert_configs (svc w') /\
  rate_limits (svc w) = rate_limits (svc w') /\
  cooldowns (svc w) = cooldowns (svc w') /\
  ticks w = ticks w'.



(** Timestamps in the order of the list. *)
Definition chronological (h : list AlertEvent) : Prop :=
  forall i j e e', (i < j)%nat -> h !! i = Some e -> h !! j = Some e' ->
                   (timestamp e <= timestamp e')%Q.

(** [alert_id] as [send_alert] formats it from the clock reading [t_id]. *)
Definition id_of (user : string) (t : AlertType) (t_id : Q) : string :=
  user +:+ "_" +:+ value t +:+ "_" +:+ pretty (py_int (t_id * 1000)%Q).

(** Every recorded event carries an identifier made from a clock
    reading that the cooldown stamp of its user and channel covers. *)
Definition ids_covered (w : World) : Prop :=
  forall e, e ∈ alert_history (svc w) ->
    exists t_id last,
      alert_id e = id_of (user_id e) (alert_type e) t_id /\
      cooldowns (svc w) !! rate_key (user_id e) (alert_type e) = Some last /\
      (t_id <= last)%Q.

(** Events of one user and channel, on a channel with a cooldown of at
    least a second, have different identifiers. *)
Definition ids_distinct (cfgs : gmap string AlertConfig) (h : list AlertEvent) : Prop :=
  forall i j e e' config,
    (i < j)%nat -> h !! i = Some e -> h !! j = Some e' ->
    user_id e = user_id e' -> alert_type e = alert_type e' ->
    cfgs !! value (alert_type e') = Some config ->
    (1 <= cooldown config)%Z ->
    alert_id e <> alert_id e'.

End ExtraSpec.

(** * Properties *)

(** ** Arithmetic of the comparisons *)

Lemma Qltb_lt (a b : Q) : Qltb a b = true <-> (a < b)%Q.
Proof. unfold Qltb, Qlt. apply Z.ltb_lt. Qed.

Lemma Qltb_ge (a b : Q) : Qltb a b = false <-> (b <= a)%Q.
Proof. unfold Qltb, Qle. apply Z.ltb_ge. Qed.

Lemma Qgtb_gt (a b : Q) : Qgtb a b = true <-> (b < a)%Q.
Proof. apply Qltb_lt. Qed.

Lemma Qgtb_le (a b : Q) : Qgtb a b = false <-> (a <= b)%Q.
Proof. apply Qltb_ge. Qed.

Module AlertsFacts.
Import Alerts AlertsSpec.

(** ** What one [send_alert] does to the world *)

(** ** The keys of the rate and cooldown tables *)

Lemma list_ascii_app (s t : string) :
  list_ascii_of_string (s +:+ t) = list_ascii_of_string s ++ list_ascii_of_string t.
Proof. induction s as [|c s IH]; simpl; [reflexivity|]. rewrite IH. reflexivity. Qed.

Lemma list_ascii_inj (s t : string) :
  list_ascii_of_string s = list_ascii_of_string t -> s = t.
Proof.
  intros H.
  rewrite <- (string_of_list_ascii_of_string s), <- (string_of_list_ascii_of_string t), H.
  reflexivity.
Qed.

(** No channel name contains an underscore, so the formatted key names
    one user and one channel, whatever the user id looks like. *)
Lemma rate_key_inj (u u' : string) (t t' : AlertType) :
  rate_key u t = rate_key u' t' -> u = u' /\ t = t'.
Proof.
  unfold rate_key. intros H.
  apply (f_equal list_ascii_of_string) in H.
  rewrite !list_ascii_app in H.
  apply (f_equal (@rev ascii)) in H.
  rewrite !rev_app_distr in H.
  destruct t, t'; simpl in H; try discriminate H;
    (split; [|reflexivity]);
    apply list_ascii_inj, rev_inj; congruence.
Qed.

Section WithClock.

Variable clock : nat -> Q.

Local Abbreviation send_case := (AlertsSpec.send_case clock).
Local Abbreviation dispatching := (AlertsSpec.dispatching clock).
Local Abbreviation Inv := (AlertsSpec.Inv clock).

Lemma execute_callbacks_frame (cbs : list Callback) (ev : AlertEvent) (w : World) :
  svc (execute_callbacks cbs ev w).2 = svc w /\
  ticks (execute_callbacks cbs ev w).2 = ticks w /\
  (forall a, (execute_callbacks cbs ev w).1 = Ret a -> a = tt) /\
  (forall e, (execute_callbacks cbs ev w).1 = Exc e -> is_Exception e = false).
Proof.
  revert w. induction cbs as [|cb cbs IH]; intros w; simpl.
  - repeat split; intros; try destruct a; try discriminate; reflexivity.
  - unfold bind, try_except.
    assert (Hc : (if cb_is_coroutine cb then call cb ev else call cb ev) = call cb ev)
      by (destruct (cb_is_coroutine cb); reflexivity).
    rewrite Hc. unfold call.
    destruct (cb_body cb ev) as [|e]; simpl.
    + match goal with
      | |- context [execute_callbacks cbs ev ?w'] =>
        destruct (IH w') as (H1 & H2 & H3 & H4)
      end.
      repeat split; assumption.
    + destruct (is_Exception e) eqn:He; simpl.
      * match goal with
        | |- context [execute_callbacks cbs ev ?w'] =>
          destruct (IH w') as (H1 & H2 & H3 & H4)
        end.
        repeat split; assumption.
      * repeat split; intros; try discriminate. congruence.
Qed.

Lemma execute_callbacks_safe (cbs : list Callback) (ev : AlertEvent) (w : World) :
  raises_only_Exception cbs ev ->
  (execute_callbacks cbs ev w).1 = Ret tt /\
  invoked (execute_callbacks cbs ev w).2
    = invoked w ++ map (fun cb => (cb_name cb, ev)) cbs.
Proof.
  revert w. induction cbs as [|cb cbs IH]; intros w Hs; simpl.
  - rewrite app_nil_r. split; reflexivity.
  - inversion Hs as [|? ? Hcb Hrest]; subst.
    unfold bind, try_except.
    assert (Hc : (if cb_is_coroutine cb then call cb ev else call cb ev) = call cb ev)
      by (destruct (cb_is_coroutine cb); reflexivity).
    rewrite Hc. unfold call.
    destruct (cb_body cb ev) as [|e] eqn:Hb; simpl.
    + destruct (IH {| svc := svc w; ticks := ticks w; logged := logged w;
                      invoked := invoked w ++ [(cb_name cb, ev)] |} Hrest) as [-> ->].
      simpl. rewrite <- app_assoc. split; reflexivity.
    + rewrite (Hcb e eq_refl). simpl.
      destruct (IH {| svc := svc w; ticks := ticks w;
                      logged := logged w ++ [(ERROR, CallbackError e)];
                      invoked := invoked w ++ [(cb_name cb, ev)] |} Hrest) as [-> ->].
      simpl. rewrite <- app_assoc. split; reflexivity.
Qed.

Lemma conclude_frame (user : string) (t : AlertType) (conf : Q) (cbs : list Callback)
    (ev : AlertEvent) (w1 : World) (r : Result bool) (w' : World) :
  (r, w') = conclude user t conf (execute_callbacks cbs ev w1) ->
  svc w' = svc w1 /\ ticks w' = ticks w1 /\
  (forall b, r = Ret b -> b = true) /\
  (forall e, r = Exc e -> is_Exception e = false).
Proof.
  destruct (execute_callbacks_frame cbs ev w1) as (Hs & Ht & Hr & He).
  destruct (execute_callbacks cbs ev w1) as [[[]|e] w2]; simpl in *;
    intros E; injection E as -> ->; simpl; repeat split; auto; intros; try discriminate.
  - congruence.
  - apply He. congruence.
Qed.

Lemma send_alert_cases (user : string) (t : AlertType) (lvl : AlertLevel) (msg : string)
    (conf : Q) (meta : option Metadata) (w : World) (r : Result bool) (w' : World) :
  send_alert clock user t lvl msg conf meta w = (r, w') ->
  send_case user t lvl msg conf meta w r w'.
Proof.
  unfold send_alert, bind, get_svc. intros E.
  destruct (alert_configs (svc w) !! value t) as [config|] eqn:Hcfg; simpl in E.
  2: { injection E as <- <-. apply case_rejected; simpl; auto. }
  destruct (Qltb conf (threshold config)) eqn:Hthr; simpl in E.
  { injection E as <- <-. apply case_rejected; simpl; auto. }
  apply Qltb_ge in Hthr.
  unfold _can_send_alert, bind, get_svc in E. rewrite Hcfg in E.
  destruct (enabled config) eqn:Hen; simpl in E.
  2: { injection E as <- <-. apply case_rejected; simpl; auto. }
  set (c := clock (ticks w)) in *.
  destruct (match cooldowns (svc w) !! rate_key user t with
            | Some last => Qltb (c - last) (inject_Z (cooldown config))
            | None => false
            end) eqn:Hcd; simpl in E.
  { injection E as <- <-. apply case_rejected; simpl; auto. }
  assert (Hcool : forall last, cooldowns (svc w) !! rate_key user t = Some last ->
                    (inject_Z (cooldown config) <= c - last)%Q).
  { intros last Hl. rewrite Hl in Hcd. apply Qltb_ge in Hcd. exact Hcd. }
  fold (stamps_of (svc w) (rate_key user t)) in E.
  fold (pruned c (stamps_of (svc w) (rate_key user t))) in E.
  set (kept := pruned c (stamps_of (svc w) (rate_key user t))) in *.
  destruct (Z.of_nat (length kept) >=? max_frequency config)%Z eqn:Hmax; simpl in E.
  { injection E as <- <-. apply Z.geb_le in Hmax.
    eapply case_throttled; simpl; eauto. }
  assert (Hlt : (Z.of_nat (length kept) < max_frequency config)%Z).
  { rewrite Z.geb_leb in Hmax. apply Z.leb_gt in Hmax. exact Hmax. }
  unfold _update_rate_limits, bind, time_time, modify, set_svc in E; simpl in E.
  rewrite lookup_insert_eq in E; simpl in E.
  eapply case_accepted; eauto.
Qed.

(** ** Counting dispatches *)

Lemma filter_length_mono {A : Type} (P R : A -> Prop)
    `{forall x, Decision (P x)} `{forall x, Decision (R x)} (l : list A) :
  (forall x, P x -> R x) -> (length (filter P l) <= length (filter R l))%nat.
Proof.
  intros HPR. induction l as [|x l IH]; [reflexivity|].
  rewrite !filter_cons.
  destruct (decide (P x)) as [HP|HP]; destruct (decide (R x)) as [HR|HR]; simpl; try lia.
  exfalso. apply HR, HPR, HP.
Qed.

Lemma window_count_snoc (u : string) (t : AlertType) (inw : Q -> bool)
    (h : list AlertEvent) (e : AlertEvent) :
  window_count u t inw (h ++ [e]) =
  (window_count u t inw h +
   if decide (user_id e = u /\ alert_type e = t /\ inw (timestamp e) = true)
   then 1 else 0)%nat.
Proof.
  unfold window_count. rewrite filter_app, length_app. f_equal.
  rewrite filter_cons, filter_nil. case_decide; reflexivity.
Qed.

Lemma stamps_after_snoc (x r : Q) (l : list Q) :
  stamps_after x (l ++ [r]) =
  (stamps_after x l + if Qltb x r then 1 else 0)%nat.
Proof.
  unfold stamps_after. rewrite filter_app, length_app. f_equal.
  rewrite filter_cons, filter_nil.
  destruct (Qltb x r); case_decide; try reflexivity; congruence.
Qed.

Lemma stamps_after_pruned (c x : Q) (l : list Q) :
  (c <= x + 60)%Q -> stamps_after x (pruned c l) = stamps_after x l.
Proof.
  intros Hc. unfold stamps_after, pruned.
  induction l as [|r l IH]; [reflexivity|].
  rewrite (filter_cons _ r l).
  destruct (decide (Qgtb r (c - 60) = true)) as [Hk|Hk].
  - rewrite !filter_cons. case_decide; simpl; rewrite IH; reflexivity.
  - rewrite IH, filter_cons. case_decide as Hx; [|reflexivity].
    exfalso. apply Hk. apply Qgtb_gt. apply Qltb_lt in Hx. lra.
Qed.

(** *** The windows are bounded in a history that is [hist_ok] *)

Lemma hist_ok_window (cfgs : gmap string AlertConfig) (h : list AlertEvent)
    (u : string) (t : AlertType) (config : AlertConfig) (inw : Q -> bool) :
  hist_ok cfgs h ->
  cfgs !! value t = Some config ->
  (0 <= max_frequency config)%Z ->
  (forall ts ts', inw ts = true -> inw ts' = true -> (ts - 60 < ts')%Q) ->
  (Z.of_nat (window_count u t inw h) <= max_frequency config)%Z.
Proof.
  intros Hok Hcfg Hmax Hw. induction Hok as [|h e Hok IH Hnew].
  - simpl. exact Hmax.
  - rewrite window_count_snoc. case_decide as Hd; [|lia].
    destruct Hd as (Hu & Ht & Hin). subst u t.
    specialize (Hnew config Hcfg).
    assert (window_count (user_id e) (alert_type e) inw h
            <= count_after (user_id e) (alert_type e) (timestamp e - 60) h)%nat.
    { apply filter_length_mono. intros e' (Hu' & Ht' & Hin').
      repeat split; auto. apply Qltb_lt. apply Hw; assumption. }
    lia.
Qed.

Lemma trailing_width (a ts ts' : Q) :
  trailing a ts = true -> trailing a ts' = true -> (ts - 60 < ts')%Q.
Proof.
  unfold trailing. rewrite !andb_true_iff, !negb_true_iff.
  intros [_ H1] [H2 _]. apply Qltb_ge in H1. apply Qltb_lt in H2. lra.
Qed.

Lemma leading_width (a ts ts' : Q) :
  leading a ts = true -> leading a ts' = true -> (ts - 60 < ts')%Q.
Proof.
  unfold leading. rewrite !andb_true_iff, !negb_true_iff.
  intros [_ H1] [H2 _]. apply Qltb_lt in H1. apply Qltb_ge in H2. lra.
Qed.

(** ** The invariant of the dispatch engine *)

Hypothesis clock_mono : monotone clock.

Lemma Inv_rejected (cfgs : gmap string AlertConfig) (w w' : World) :
  Inv cfgs w -> svc w' = svc w -> (ticks w <= ticks w')%nat -> Inv cfgs w'.
Proof.
  intros [H1 H2 H3 H4 H5 H6] Hs Ht.
  split; rewrite ?Hs; auto.
  - intros u t x Hx. apply H2. intros i Hi. apply Hx. lia.
  - intros k last Hk j Hj. apply (H5 k last Hk). lia.
Qed.

Lemma stamps_of_throttled (user : string) (t : AlertType) (c : Q)
    (s : AlertService) (key : string) :
  stamps_of (throttled user t c s) key =
  if decide (rate_key user t = key) then pruned c (stamps_of s key) else stamps_of s key.
Proof.
  unfold stamps_of, throttled. simpl. case_decide as Hk.
  - subst key. rewrite lookup_insert_eq. reflexivity.
  - rewrite lookup_insert_ne by exact Hk. reflexivity.
Qed.

Lemma Inv_throttled (cfgs : gmap string AlertConfig) (user : string) (t : AlertType)
    (w w' : World) :
  Inv cfgs w ->
  svc w' = throttled user t (clock (ticks w)) (svc w) ->
  ticks w' = S (ticks w) ->
  Inv cfgs w'.
Proof.
  intros [H1 H2 H3 H4 H5 H6] Hs Ht.
  split; rewrite ?Hs; simpl; auto.
  - intros u t' x Hx. rewrite stamps_of_throttled.
    assert (Hold : (count_after u t' x (alert_history (svc w))
                    <= stamps_after x (stamps_of (svc w) (rate_key u t')))%nat).
    { apply H2. intros i Hi. apply Hx. lia. }
    case_decide; [|exact Hold].
    rewrite stamps_after_pruned; [exact Hold|].
    apply Hx. lia.
  - intros k last Hk j Hj. apply (H5 k last Hk). lia.
Qed.

Lemma stamps_of_accepted (user : string) (t : AlertType) (c r : Q) (ev : AlertEvent)
    (s : AlertService) (key : string) :
  stamps_of (accepted user t c r ev s) key =
  if decide (rate_key user t = key) then pruned c (stamps_of s key) ++ [r]
  else stamps_of s key.
Proof.
  unfold stamps_of, accepted. simpl. case_decide as Hk.
  - subst key. rewrite lookup_insert_eq. reflexivity.
  - rewrite !lookup_insert_ne by exact Hk. reflexivity.
Qed.

Lemma count_after_anti (u : string) (t : AlertType) (x y : Q) (h : list AlertEvent) :
  (x <= y)%Q -> (count_after u t y h <= count_after u t x h)%nat.
Proof.
  intros Hxy. apply filter_length_mono. intros e (Hu & Ht & Hy).
  repeat split; auto. apply Qltb_lt. apply Qltb_lt in Hy. lra.
Qed.

Lemma Inv_accepted (cfgs : gmap string AlertConfig) (user : string) (t : AlertType)
    (lvl : AlertLevel) (msg : string) (conf : Q) (meta : option Metadata)
    (config : AlertConfig) (w w' : World) :
  Inv cfgs w ->
  alert_configs (svc w) !! value t = Some config ->
  (forall last, cooldowns (svc w) !! rate_key user t = Some last ->
     (inject_Z (cooldown config) <= clock (ticks w) - last)%Q) ->
  (Z.of_nat (length (pruned (clock (ticks w)) (stamps_of (svc w) (rate_key user t))))
     < max_frequency config)%Z ->
  svc w' = accepted user t (clock (ticks w)) (clock (3 + ticks w))
             (event_of user t lvl msg conf meta config
                (clock (1 + ticks w)) (clock (2 + ticks w)))
             (svc w) ->
  ticks w' = (4 + ticks w)%nat ->
  Inv cfgs w'.
Proof.
  intros [H1 H2 H3 H4 H5 H6] Hcfg Hcool Hlen Hs Ht.
  set (c := clock (ticks w)) in *.
  set (ev := event_of user t lvl msg conf meta config
               (clock (1 + ticks w)) (clock (2 + ticks w))) in *.
  assert (Hc_ev : (c <= timestamp ev)%Q) by (apply clock_mono; lia).
  assert (Hev_r : (timestamp ev <= clock (3 + ticks w))%Q) by (apply clock_mono; lia).
  split; rewrite ?Hs; simpl; auto.
  - (* stamps dominate the history *)
    intros u t' x Hx. rewrite stamps_of_accepted.
    assert (Hold : (count_after u t' x (alert_history (svc w))
                    <= stamps_after x (stamps_of (svc w) (rate_key u t')))%nat).
    { apply H2. intros i Hi. apply Hx. lia. }
    unfold count_after in *. rewrite window_count_snoc.
    destruct (decide (rate_key user t = rate_key u t')) as [Hk|Hk].
    + rewrite stamps_after_snoc, stamps_after_pruned by (apply Hx; lia).
      case_decide as Hd; [|lia].
      destruct Hd as (_ & _ & Hlt). apply Qltb_lt in Hlt.
      assert (Hr : Qltb x (clock (3 + ticks w)) = true) by (apply Qltb_lt; lra).
      simpl in Hr. rewrite Hr. lia.
    + case_decide as Hd; [|lia].
      destruct Hd as (Hu & Ht' & _). simpl in Hu, Ht'. subst u t'. contradiction.
  - (* the new event saw fewer than max_frequency in its minute *)
    apply hist_ok_snoc; [exact H3|].
    intros config' Hc'. simpl in Hc'. rewrite <- H1, Hcfg in Hc'.
    injection Hc' as <-. simpl.
    assert (Ha : (count_after user t (timestamp ev - 60) (alert_history (svc w))
                  <= count_after user t (c - 60) (alert_history (svc w)))%nat).
    { apply count_after_anti. lra. }
    assert (Hb : (count_after user t (c - 60) (alert_history (svc w))
                  <= stamps_after (c - 60) (stamps_of (svc w) (rate_key user t)))%nat).
    { apply H2. intros i Hi.
      assert (clock i <= c)%Q by (apply clock_mono; lia). lra. }
    change (stamps_after (c - 60) (stamps_of (svc w) (rate_key user t)))
      with (length (pruned c (stamps_of (svc w) (rate_key user t)))) in Hb.
    simpl in Ha. lia.
  - (* every event is covered by the cooldown stamp of its key *)
    intros e He. apply elem_of_app in He as [He|He].
    + destruct (H4 e He) as (last & Hl & Hle).
      destruct (decide (rate_key user t = rate_key (user_id e) (alert_type e))) as [Hk|Hk].
      * exists (clock (3 + ticks w)). rewrite <- Hk, lookup_insert_eq. split; [reflexivity|].
        assert (last <= clock (3 + ticks w))%Q by (apply (H5 _ _ Hl); lia). lra.
      * exists last. rewrite lookup_insert_ne by exact Hk. split; assumption.
    + apply list_elem_of_singleton in He. subst e. simpl.
      exists (clock (3 + ticks w)). rewrite lookup_insert_eq. split; [reflexivity|exact Hev_r].
  - (* cooldown stamps are in the past *)
    intros k last Hk j Hj. rewrite Ht in Hj.
    destruct (decide (rate_key user t = k)) as [Heq|Hne].
    + subst k. rewrite lookup_insert_eq in Hk. injection Hk as <-.
      apply clock_mono. lia.
    + rewrite lookup_insert_ne in Hk by exact Hne. apply (H5 k last Hk). lia.
  - (* the new event respects the cooldown *)
    apply hist_spaced_snoc; [exact H6|].
    intros e' config' He' Hu' Ht' Hc'. simpl in *.
    rewrite <- H1, Hcfg in Hc'. injection Hc' as <-.
    destruct (H4 e' He') as (last & Hl & Hle).
    rewrite Hu', Ht' in Hl. specialize (Hcool last Hl). lra.
Qed.

Lemma send_alert_Inv (cfgs : gmap string AlertConfig) (user : string) (t : AlertType)
    (lvl : AlertLevel) (msg : string) (conf : Q) (meta : option Metadata)
    (w : World) :
  Inv cfgs w -> Inv cfgs (send_alert clock user t lvl msg conf meta w).2.
Proof.
  intros HI.
  destruct (send_alert clock user t lvl msg conf meta w) as [r w'] eqn:E.
  apply send_alert_cases in E. simpl.
  destruct E as [? Hs Ht ?|config ? ? ? Hs Ht ? ?|config Hcfg ? ? Hcool Hlen Hx].
  - eapply Inv_rejected; eauto.
  - eapply Inv_throttled; eauto.
  - apply conclude_frame in Hx as (Hs & Ht & _ & _).
    unfold dispatching in Hs, Ht. cbn [svc ticks] in Hs, Ht.
    eapply Inv_accepted; [exact HI|exact Hcfg|exact Hcool|exact Hlen|exact Hs|exact Ht].
Qed.

Lemma Inv_quiet (w : World) : quiet w -> Inv (alert_configs (svc w)) w.
Proof.
  intros (Hh & Hr & Hc). split; rewrite ?Hh, ?Hc.
  - reflexivity.
  - intros u t x _. unfold count_after, window_count. simpl. lia.
  - constructor.
  - intros e He. apply elem_of_nil in He. contradiction.
  - intros k last Hk. rewrite lookup_empty in Hk. discriminate.
  - constructor.
Qed.

Lemma run_Inv (cfgs : gmap string AlertConfig) (calls : list Call) (w : World) :
  Inv cfgs w -> Inv cfgs (run clock calls w).2.
Proof.
  revert w. induction calls as [|c calls IH]; intros w HI; simpl; [exact HI|].
  destruct (send clock c w) as [r w1] eqn:E1.
  specialize (IH w1).
  destruct (run clock calls w1) as [rs w2] eqn:E2. simpl in *.
  apply IH. pose proof (send_alert_Inv cfgs (call_user c) (call_type c) (call_level c)
    (call_message c) (call_confidence c) (call_metadata c) w HI) as H.
  unfold send in E1. rewrite E1 in H. exact H.
Qed.

Lemma hist_spaced_lookup (cfgs : gmap string AlertConfig) (h : list AlertEvent)
    (i j : nat) (e e' : AlertEvent) (config : AlertConfig) :
  hist_spaced cfgs h ->
  (i < j)%nat -> h !! i = Some e -> h !! j = Some e' ->
  user_id e = user_id e' -> alert_type e = alert_type e' ->
  cfgs !! value (alert_type e') = Some config ->
  (timestamp e + inject_Z (cooldown config) <= timestamp e')%Q.
Proof.
  intros Hsp. revert i j e e'.
  induction Hsp as [|h e0 Hsp IH Hnew]; intros i j e e' Hij Hi Hj Hu Ht Hc.
  - rewrite lookup_nil in Hi. discriminate.
  - destruct (decide (j < length h)%nat) as [Hlt|Hge].
    + rewrite lookup_app_l in Hi by lia. rewrite lookup_app_l in Hj by lia.
      apply (IH i j e e'); assumption.
    + assert (Hjl : j = length h).
      { apply lookup_lt_Some in Hj. rewrite length_app in Hj. simpl in Hj. lia. }
      subst j. rewrite lookup_app_l in Hi by lia.
      rewrite list_lookup_middle in Hj by reflexivity. injection Hj as <-.
      apply (Hnew e config); auto.
      apply list_elem_of_lookup. exists i. exact Hi.
Qed.

(** *** The rate window (general part of C1) *)

Lemma rate_window (w0 : World) (calls : list Call) (u : string) (t : AlertType)
    (config : AlertConfig) (a : Q) :
  quiet w0 ->
  alert_configs (svc w0) !! value t = Some config ->
  (0 <= max_frequency config)%Z ->
  (Z.of_nat (window_count u t (trailing a) (alert_history (svc (run clock calls w0).2)))
     <= max_frequency config)%Z /\
  (Z.of_nat (window_count u t (leading a) (alert_history (svc (run clock calls w0).2)))
     <= max_frequency config)%Z.
Proof.
  intros Hq Hcfg Hmax.
  pose proof (run_Inv _ calls w0 (Inv_quiet w0 Hq)) as HI.
  split.
  - eapply hist_ok_window; [apply (inv_window _ _ _ HI)|exact Hcfg|exact Hmax|].
    apply trailing_width.
  - eapply hist_ok_window; [apply (inv_window _ _ _ HI)|exact Hcfg|exact Hmax|].
    apply leading_width.
Qed.

(** *** The cooldown (general part of C2) *)

Lemma cooldown_spacing (w0 : World) (calls : list Call) (i j : nat)
    (e e' : AlertEvent) (config : AlertConfig) :
  quiet w0 ->
  (i < j)%nat ->
  alert_history (svc (run clock calls w0).2) !! i = Some e ->
  alert_history (svc (run clock calls w0).2) !! j = Some e' ->
  user_id e = user_id e' -> alert_type e = alert_type e' ->
  alert_configs (svc w0) !! value (alert_type e') = Some config ->
  (timestamp e + inject_Z (cooldown config) <= timestamp e')%Q.
Proof.
  intros Hq Hij Hi Hj Hu Ht Hcfg.
  pose proof (run_Inv _ calls w0 (Inv_quiet w0 Hq)) as HI.
  eapply hist_spaced_lookup; eauto. apply (inv_spaced _ _ _ HI).
Qed.

Lemma cooldown_rejects (w0 : World) (calls : list Call) (user : string) (t : AlertType)
    (lvl : AlertLevel) (msg : string) (conf : Q) (meta : option Metadata)
    (e : AlertEvent) (config : AlertConfig) :
  quiet w0 ->
  let w := (run clock calls w0).2 in
  alert_configs (svc w0) !! value t = Some config ->
  e ∈ alert_history (svc w) -> user_id e = user -> alert_type e = t ->
  (clock (ticks w) - timestamp e < inject_Z (cooldown config))%Q ->
  (send_alert clock user t lvl msg conf meta w).1 = Ret false /\
  svc (send_alert clock user t lvl msg conf meta w).2 = svc w.
Proof.
  intros Hq w Hcfg He Hu Ht Hclose.
  pose proof (run_Inv _ calls w0 (Inv_quiet w0 Hq)) as HI. fold w in HI.
  destruct (inv_cool_seen _ _ _ HI e He) as (last & Hl & Hle).
  rewrite Hu, Ht in Hl.
  destruct (send_alert clock user t lvl msg conf meta w) as [r w'] eqn:E.
  apply send_alert_cases in E. simpl.
  destruct E as [? Hs _ _|config' Hc' Hcool _ _ _ _ _|config' Hc' _ _ Hcool _ _].
  - split; assumption.
  - exfalso. rewrite (inv_configs _ _ _ HI), Hcfg in Hc'. injection Hc' as <-.
    specialize (Hcool last Hl). lra.
  - exfalso. rewrite (inv_configs _ _ _ HI), Hcfg in Hc'. injection Hc' as <-.
    specialize (Hcool last Hl). lra.
Qed.

End WithClock.

Import Scenarios.

Lemma burst_clock_monotone : monotone burst_clock.
Proof.
  intros i j Hij. unfold burst_clock.
  destruct (Nat.ltb_spec i 80) as [Hi|Hi], (Nat.ltb_spec j 80) as [Hj|Hj]; try lia.
  - rewrite <- Zle_Qle. apply Nat2Z.inj_le. apply Nat.Div0.div_le_mono. exact Hij.
  - assert (H19 : (i / 4 <= 19)%nat).
    { change 19%nat with (79 / 4)%nat. apply Nat.Div0.div_le_mono. lia. }
    destruct (j =? 80)%nat.
    + change 20%Q with (inject_Z 20). rewrite <- Zle_Qle. lia.
    + change 60%Q with (inject_Z 60). rewrite <- Zle_Qle. lia.
  - destruct (Nat.eqb_spec i 80), (Nat.eqb_spec j 80); try lia; try apply Qle_refl.
    discriminate.
Qed.

Lemma cooldown_clock_monotone : monotone cooldown_clock.
Proof.
  intros i j Hij. unfold cooldown_clock, readings.
  do 10 (destruct i as [|i]; [do 10 (destruct j as [|j]; [try lia; simpl; lra|]);
                              simpl; destruct j; lra|]).
  do 10 (destruct j as [|j]; [lia|]).
  simpl. destruct i, j; lra.
Qed.

(** C1.  From a service that has not dispatched yet, whatever calls of
    [send_alert] are made (any users, channels and confidences, under a
    clock that does not run backwards and an unchanged configuration), the
    events created for one user and channel within any window of sixty
    seconds that is open at one end, [(a, a + 60]] or [[a, a + 60)], number
    at most the channel's [max_frequency].  In the scenario of twenty-one
    dispatches one second apart with [max_frequency = 20] and no cooldown,
    the twenty-first is rejected and one made at t = 60, when the stamp of
    t = 0 has left the window, is admitted. *)
Theorem C1_rate_window :
  (forall (clock : nat -> Q) (w0 : World) (calls : list Call)
          (u : string) (t : AlertType) (config : AlertConfig) (a : Q),
     monotone clock ->
     quiet w0 ->
     alert_configs (svc w0) !! value t = Some config ->
     (0 <= max_frequency config)%Z ->
     let h := alert_history (svc (run clock calls w0).2) in
     (Z.of_nat (window_count u t (trailing a) h) <= max_frequency config)%Z /\
     (Z.of_nat (window_count u t (leading a) h) <= max_frequency config)%Z) /\
  (run burst_clock burst_calls burst_start).1
    = replicate 20 (Ret true) ++ [Ret false; Ret true].
Proof.
  split.
  - intros clock w0 calls u t config a Hm Hq Hc Hmax. simpl.
    apply rate_window; assumption.
  - vm_compute. reflexivity.
Qed.

Lemma C1_rate_window_witness :
  (Z.of_nat (window_count "u" VISUAL (trailing 0)
               (alert_history (svc (run burst_clock burst_calls burst_start).2)))
     <= max_frequency burst_config)%Z /\
  (Z.of_nat (window_count "u" VISUAL (leading 0)
               (alert_history (svc (run burst_clock burst_calls burst_start).2)))
     <= max_frequency burst_config)%Z.
Proof.
  apply (proj1 C1_rate_window burst_clock burst_start burst_calls "u" VISUAL
           burst_config 0%Q burst_clock_monotone).
  - repeat split; reflexivity.
  - reflexivity.
  - simpl. lia.
Defined.

(** A call that returns true has appended its event, stamped with the
    third clock reading of the call. *)
Lemma accepted_call_is_an_event (clock : nat -> Q) (user : string) (t : AlertType)
    (lvl : AlertLevel) (msg : string) (conf : Q) (meta : option Metadata) (w : World) :
  (send_alert clock user t lvl msg conf meta w).1 = Ret true ->
  exists ev,
    alert_history (svc (send_alert clock user t lvl msg conf meta w).2)
      = alert_history (svc w) ++ [ev] /\
    user_id ev = user /\ alert_type ev = t /\ timestamp ev = clock (2 + ticks w)%nat.
Proof.
  destruct (send_alert clock user t lvl msg conf meta w) as [r w'] eqn:E.
  apply send_alert_cases in E. simpl. intros Hr.
  destruct E as [Hf _ _ _|config _ _ Hf _ _ _ _|config _ _ _ _ _ Hx].
  - congruence.
  - congruence.
  - apply conclude_frame in Hx as (Hs & _). rewrite Hs. simpl.
    eexists. repeat split; reflexivity.
Qed.

(** The windows of C1 are open at one end.  An entry exactly sixty
    seconds old is pruned ([ts > minute_ago] is strict), so with one
    alert per minute the dispatches at t = 0 and t = 60 are both
    admitted, and the closed interval [[0, 60]] holds two events. *)
Lemma closed_window_holds_one_more :
  let out := run minute_clock [dispatch "u" VISUAL 1; dispatch "u" VISUAL 1]
               (update_config VISUAL minute_config init).2 in
  out.1 = [Ret true; Ret true] /\
  map timestamp (alert_history (svc out.2)) = [0%Q; 60%Q].
Proof. vm_compute. split; reflexivity. Qed.

(** C2.  Under the same conditions, two events of one user and channel in
    the history are stamped at least [cooldown] apart; a dispatch whose
    first clock reading is less than [cooldown] after the stamp of an
    earlier event of its user and channel returns false and leaves the
    service as it was.  In the scenario (visual: threshold 0.7, cooldown
    3 s, 20 per minute) confidence 0.8 at t = 0 is admitted, 0.9 at t = 1
    is rejected, 0.9 at t = 4 is admitted. *)
Theorem C2_cooldown :
  (forall (clock : nat -> Q) (w0 : World) (calls : list Call) (i j : nat)
          (e e' : AlertEvent) (config : AlertConfig),
     monotone clock ->
     quiet w0 ->
     (i < j)%nat ->
     alert_history (svc (run clock calls w0).2) !! i = Some e ->
     alert_history (svc (run clock calls w0).2) !! j = Some e' ->
     user_id e = user_id e' -> alert_type e = alert_type e' ->
     alert_configs (svc w0) !! value (alert_type e') = Some config ->
     (timestamp e + inject_Z (cooldown config) <= timestamp e')%Q) /\
  (forall (clock : nat -> Q) (w0 : World) (calls : list Call)
          (user : string) (t : AlertType) (lvl : AlertLevel) (msg : string)
          (conf : Q) (meta : option Metadata) (e : AlertEvent) (config : AlertConfig),
     monotone clock ->
     quiet w0 ->
     let w := (run clock calls w0).2 in
     alert_configs (svc w0) !! value t = Some config ->
     e ∈ alert_history (svc w) -> user_id e = user -> alert_type e = t ->
     (clock (ticks w) - timestamp e < inject_Z (cooldown config))%Q ->
     (send_alert clock user t lvl msg conf meta w).1 = Ret false /\
     svc (send_alert clock user t lvl msg conf meta w).2 = svc w) /\
  (run cooldown_clock cooldown_calls init).1 = [Ret true; Ret false; Ret true].
Proof.
  split; [|split].
  - intros clock w0 calls i j e e' config Hm Hq Hij Hi Hj Hu Ht Hc.
    eapply cooldown_spacing; eauto.
  - intros clock w0 calls user t lvl msg conf meta e config Hm Hq w Hc He Hu Ht Hlt.
    eapply cooldown_rejects; eauto.
  - vm_compute. reflexivity.
Qed.

Lemma C2_cooldown_witness :
  let config := default burst_config (alert_configs (svc init) !! "visual") in
  let first := event_of "u" VISUAL MEDIUM "" (8 # 10) None config 0 0 in
  let third := event_of "u" VISUAL MEDIUM "" (9 # 10) None config 4 4 in
  (timestamp first + inject_Z (cooldown config) <= timestamp third)%Q /\
  (send_alert cooldown_clock "u" VISUAL MEDIUM "" (9 # 10) None
     (run cooldown_clock [dispatch "u" VISUAL (8 # 10)] init).2).1 = Ret false.
Proof.
  intros config first third. split.
  - apply (proj1 C2_cooldown cooldown_clock init cooldown_calls 0%nat 1%nat
             first third config cooldown_clock_monotone).
    + repeat split; reflexivity.
    + lia.
    + reflexivity.
    + reflexivity.
    + reflexivity.
    + reflexivity.
    + reflexivity.
  - apply (proj1 (proj2 C2_cooldown) cooldown_clock init [dispatch "u" VISUAL (8 # 10)]
             "u" VISUAL MEDIUM "" (9 # 10)%Q None first config cooldown_clock_monotone).
    + repeat split; reflexivity.
    + reflexivity.
    + apply list_elem_of_In. simpl. left. reflexivity.
    + reflexivity.
    + reflexivity.
    + vm_compute. reflexivity.
Defined.

(** C3.  When the channel has a configuration and the confidence is
    strictly below its threshold, [send_alert] returns false and changes
    nothing but the log: the history, [cooldowns] and [rate_limits] are
    the same, the clock is not read and no callback runs. *)
Theorem C3_below_threshold (clock : nat -> Q) (w : World) (user : string)
    (t : AlertType) (lvl : AlertLevel) (msg : string) (conf : Q)
    (meta : option Metadata) (config : AlertConfig) :
  alert_configs (svc w) !! value t = Some config ->
  (conf < threshold config)%Q ->
  (send_alert clock user t lvl msg conf meta w).1 = Ret false /\
  alert_history (svc (send_alert clock user t lvl msg conf meta w).2)
    = alert_history (svc w) /\
  cooldowns (svc (send_alert clock user t lvl msg conf meta w).2) = cooldowns (svc w) /\
  rate_limits (svc (send_alert clock user t lvl msg conf meta w).2)
    = rate_limits (svc w) /\
  (send_alert clock user t lvl msg conf meta w).2
    = {| svc := svc w; ticks := ticks w;
         logged := logged w ++ [(DEBUG, BelowThreshold conf (threshold config))];
         invoked := invoked w |}.
Proof.
  intros Hc Hlt. apply Qltb_lt in Hlt.
  unfold send_alert, bind, get_svc. rewrite Hc, Hlt. simpl.
  repeat split; reflexivity.
Qed.

Lemma C3_below_threshold_witness :
  (send_alert cooldown_clock "u" VISUAL HIGH "look" (69 # 100) None init).1 = Ret false /\
  alert_history (svc (send_alert cooldown_clock "u" VISUAL HIGH "look" (69 # 100) None init).2)
    = [].
Proof.
  destruct (C3_below_threshold cooldown_clock init "u" VISUAL HIGH "look" (69 # 100) None
              (default burst_config (alert_configs (svc init) !! "visual")))
    as (H1 & H2 & _).
  - reflexivity.
  - reflexivity.
  - split; [exact H1|exact H2].
Defined.

(** ** Channels without a configuration *)

Lemma value_inj (t t' : AlertType) : value t = value t' -> t = t'.
Proof. destruct t, t'; simpl; intros H; try reflexivity; discriminate. Qed.

Lemma send_alert_configs (clock : nat -> Q) (user : string) (t : AlertType)
    (lvl : AlertLevel) (msg : string) (conf : Q) (meta : option Metadata) (w : World) :
  alert_configs (svc (send_alert clock user t lvl msg conf meta w).2)
    = alert_configs (svc w).
Proof.
  destruct (send_alert clock user t lvl msg conf meta w) as [r w'] eqn:E.
  apply send_alert_cases in E. simpl.
  destruct E as [_ Hs _ _|config _ _ _ Hs _ _ _|config _ _ _ _ _ Hx].
  - rewrite Hs. reflexivity.
  - rewrite Hs. reflexivity.
  - apply conclude_frame in Hx as (Hs & _). rewrite Hs. reflexivity.
Qed.

Lemma await_all_configs (clock : nat -> Q) (user : string) (ts : list AlertType)
    (lvl : AlertLevel) (msg : string) (conf : Q) (meta : option Metadata)
    (results : gmap AlertType bool) (w : World) :
  alert_configs (svc (await_all clock user ts lvl msg conf meta results w).2)
    = alert_configs (svc w).
Proof.
  revert results w. induction ts as [|t ts IH]; intros results w; simpl; [reflexivity|].
  unfold bind, try_except.
  pose proof (send_alert_configs clock user t lvl msg conf meta w) as Hs.
  destruct (send_alert clock user t lvl msg conf meta w) as [[b|e] w1]; simpl in *.
  - rewrite IH. exact Hs.
  - destruct (is_Exception e); simpl; [|exact Hs].
    rewrite IH. exact Hs.
Qed.

Lemma step_unconfigured (clock : nat -> Q) (t : AlertType) (o : Op) (w : World) :
  ~ configures t o ->
  alert_configs (svc w) !! value t = None ->
  alert_configs (svc (step clock w o)) !! value t = None.
Proof.
  intros Hn Hw. destruct o as [c|user ts lvl msg conf meta|t' cb|t' config|name|user|user];
    simpl in *.
  - unfold send. rewrite send_alert_configs. exact Hw.
  - unfold send_multiple_alerts. rewrite await_all_configs. exact Hw.
  - exact Hw.
  - rewrite lookup_insert_ne; [exact Hw|].
    intros Hv. apply Hn. apply value_inj. exact Hv.
  - unfold enable_alert_type. destruct (AlertType_of name); simpl; [|exact Hw].
    rewrite lookup_alter. case_decide as Hd; [|exact Hw].
    rewrite Hd, Hw. reflexivity.
  - unfold get_alert_stats, get_alert_history, bind, get_svc.
    destruct (truthy user); simpl;
      match goal with |- context [match ?l with [] => _ | _ :: _ => _ end] => destruct l end;
      simpl; exact Hw.
  - unfold clear_history. destruct (truthy user); simpl; exact Hw.
Qed.

Lemma exec_unconfigured (clock : nat -> Q) (t : AlertType) (ops : list Op) (w : World) :
  Forall (fun o => ~ configures t o) ops ->
  alert_configs (svc w) !! value t = None ->
  alert_configs (svc (exec clock ops w)) !! value t = None.
Proof.
  intros Hops. revert w. induction Hops as [|o ops Ho Hops IH]; intros w Hw; simpl.
  - exact Hw.
  - apply IH. apply step_unconfigured; assumption.
Qed.

Lemma send_alert_unconfigured (clock : nat -> Q) (user : string) (t : AlertType)
    (lvl : AlertLevel) (msg : string) (conf : Q) (meta : option Metadata) (w : World) :
  alert_configs (svc w) !! value t = None ->
  send_alert clock user t lvl msg conf meta w
    = (Ret false,
       {| svc := svc w; ticks := ticks w;
          logged := logged w ++ [(WARNING, NoConfigurationFound t)];
          invoked := invoked w |}).
Proof.
  intros Hw. unfold send_alert, bind, get_svc. rewrite Hw. reflexivity.
Qed.

(** C10.  A new service has configurations for visual, audio, haptic and
    notification only.  Whatever is done with it short of calling
    [update_config] for email (for sms), [send_alert] on that channel
    returns false for every user, level, message and confidence, and
    creates no event; once [update_config] has installed a configuration
    the channel can dispatch. *)
Theorem C10_email_sms_unconfigured :
  (forall t, is_Some (alert_configs (svc init) !! value t) <->
             t ∈ [VISUAL; AUDIO; HAPTIC; NOTIFICATION]) /\
  (forall (clock : nat -> Q) (ops : list Op) (t : AlertType) (user : string)
          (lvl : AlertLevel) (msg : string) (conf : Q) (meta : option Metadata),
     t = EMAIL \/ t = SMS ->
     Forall (fun o => ~ configures t o) ops ->
     let w := exec clock ops init in
     (send_alert clock user t lvl msg conf meta w).1 = Ret false /\
     alert_history (svc (send_alert clock user t lvl msg conf meta w).2)
       = alert_history (svc w) /\
     svc (send_alert clock user t lvl msg conf meta w).2 = svc w) /\
  (send_alert fan_out_clock "u" EMAIL LOW "" 1 None
     (update_config EMAIL email_config init).2).1 = Ret true.
Proof.
  split; [|split].
  - intros t. rewrite !elem_of_cons, elem_of_nil.
    destruct t; vm_compute; split; intros H;
      try (destruct H as [x Hx]; discriminate);
      try (eexists; reflexivity); try tauto;
      repeat (destruct H as [H|H]; try discriminate H); try contradiction.
  - intros clock ops t user lvl msg conf meta Ht Hops w.
    assert (Hnone : alert_configs (svc w) !! value t = None).
    { apply exec_unconfigured; [exact Hops|]. destruct Ht; subst t; reflexivity. }
    rewrite (send_alert_unconfigured clock user t lvl msg conf meta w Hnone).
    simpl. repeat split; reflexivity.
  - vm_compute. reflexivity.
Qed.

Lemma C10_email_sms_unconfigured_witness :
  (send_alert steady_clock "u" SMS CRITICAL "peek" 1 None
     (exec steady_clock [op_update_config EMAIL email_config;
                         op_send_alert (dispatch "u" HAPTIC 1)] init)).1 = Ret false.
Proof.
  apply (proj1 (proj2 C10_email_sms_unconfigured) steady_clock
           [op_update_config EMAIL email_config; op_send_alert (dispatch "u" HAPTIC 1)]
           SMS "u" CRITICAL "peek" 1%Q None).
  - right. reflexivity.
  - repeat constructor; simpl; [discriminate|tauto].
Defined.

(** ** Configuration updates *)

Lemma below_threshold_rejected (clock : nat -> Q) (w : World) (user : string)
    (t : AlertType) (lvl : AlertLevel) (msg : string) (conf : Q)
    (meta : option Metadata) (config : AlertConfig) :
  alert_configs (svc w) !! value t = Some config ->
  (conf < threshold config)%Q ->
  send_alert clock user t lvl msg conf meta w
    = (Ret false,
       {| svc := svc w; ticks := ticks w;
          logged := logged w ++ [(DEBUG, BelowThreshold conf (threshold config))];
          invoked := invoked w |}).
Proof.
  intros Hc Hlt. apply Qltb_lt in Hlt.
  unfold send_alert, bind, get_svc. rewrite Hc, Hlt. reflexivity.
Qed.

(** C8, as the code has it.  [update_config] validates nothing: for every
    service, channel and configuration it returns normally, the given
    configuration is the channel's configuration from then on, the other
    channels keep theirs, and the next admission check already compares
    with the new threshold. *)
Theorem C8_update_config_installs (clock : nat -> Q) (w : World) (t : AlertType)
    (config : AlertConfig) :
  (update_config t config w).1 = Ret tt /\
  alert_configs (svc (update_config t config w).2) !! value t = Some config /\
  (forall t', t' <> t ->
     alert_configs (svc (update_config t config w).2) !! value t'
       = alert_configs (svc w) !! value t') /\
  alert_history (svc (update_config t config w).2) = alert_history (svc w) /\
  rate_limits (svc (update_config t config w).2) = rate_limits (svc w) /\
  cooldowns (svc (update_config t config w).2) = cooldowns (svc w) /\
  (forall user lvl msg conf meta,
     (send_alert clock user t lvl msg conf meta (update_config t config w).2).1 = Ret false
     \/ (threshold config <= conf)%Q).
Proof.
  repeat split; simpl.
  - apply lookup_insert_eq.
  - intros t' Hne. apply lookup_insert_ne. intros Hv. apply Hne. symmetry.
    apply value_inj. exact Hv.
  - intros user lvl msg conf meta.
    destruct (Qlt_le_dec conf (threshold config)) as [Hlt|Hle]; [left|right; exact Hle].
    rewrite (below_threshold_rejected clock _ user t lvl msg conf meta config);
      [reflexivity| |exact Hlt].
    simpl. apply lookup_insert_eq.
Qed.

(** C8 as stated fails: a threshold of 1.5 with a cooldown of -1 is
    accepted without an error, replaces the visual configuration, and a
    dispatch at confidence 0.9 that the old configuration admitted is
    rejected under it. *)
Lemma C8_counterexample :
  invalid bad_config /\
  (update_config VISUAL bad_config init).1 = Ret tt /\
  ~ (exists e, (update_config VISUAL bad_config init).1 = Exc e) /\
  alert_configs (svc (update_config VISUAL bad_config init).2) !! value VISUAL
    = Some bad_config /\
  alert_configs (svc (update_config VISUAL bad_config init).2) !! value VISUAL
    <> alert_configs (svc init) !! value VISUAL /\
  (send_alert fan_out_clock "u" VISUAL HIGH "" (9 # 10) None init).1 = Ret true /\
  (send_alert fan_out_clock "u" VISUAL HIGH "" (9 # 10) None
     (update_config VISUAL bad_config init).2).1 = Ret false.
Proof.
  split; [right; left; reflexivity|].
  split; [reflexivity|].
  split; [intros [e He]; discriminate|].
  split; [reflexivity|].
  split; [vm_compute; discriminate|].
  split; vm_compute; reflexivity.
Qed.

(** ** Statistics *)

Lemma slice_from_length {A : Type} (l : list A) :
  length (slice_from (- default_limit) l) = Nat.min 100 (length l).
Proof.
  unfold slice_from, default_limit.
  destruct (Z.ltb_spec (- (100)) 0) as [_|Hn]; [|lia]. rewrite length_drop. lia.
Qed.

Lemma slice_from_small {A : Type} (l : list A) :
  (length l <= 100)%nat -> slice_from (- default_limit) l = l.
Proof.
  intros Hl. unfold slice_from, default_limit.
  destruct (Z.ltb_spec (- (100)) 0) as [_|Hn]; [|lia].
  replace (Z.to_nat (Z.max 0 (Z.of_nat (length l) + - (100)))) with 0%nat by lia.
  reflexivity.
Qed.

Lemma get_alert_stats_total (clock : nat -> Q) (user : option string) (w : World) :
  exists st, (get_alert_stats clock user w).1 = Ret st /\
             total_alerts st = Nat.min 100 (length (selected user (alert_history (svc w)))).
Proof.
  unfold get_alert_stats, get_alert_history, selected, bind, get_svc.
  destruct (truthy user) as [u|]; simpl.
  - pose proof (slice_from_length (filter (fun alert => user_id alert = u)
                                     (alert_history (svc w)))) as Hl.
    destruct (slice_from (- default_limit) _) as [|e l] eqn:E; simpl in *;
      eexists; (split; [reflexivity|]); simpl; exact Hl.
  - pose proof (slice_from_length (alert_history (svc w))) as Hl.
    destruct (slice_from (- default_limit) _) as [|e l] eqn:E; simpl in *;
      eexists; (split; [reflexivity|]); simpl; exact Hl.
Qed.

(** C7, at the failing input.  After 101 admitted haptic alerts of user
    "u" the history holds 101 events, yet [get_alert_stats] (for all users
    and for "u") reports 100 in total, 100 by channel, 100 by level and
    100 in the last hour: it reads the history through
    [get_alert_history], whose [limit] defaults to 100. *)
Theorem C7_stats_truncated :
  length (alert_history (svc steady)) = 101%nat /\
  Forall (fun e => user_id e = "u" /\ alert_type e = HAPTIC /\ level e = MEDIUM /\
                   Qgtb (timestamp e) (steady_clock (ticks steady) - 3600) = true)
         (alert_history (svc steady)) /\
  (exists st, (get_alert_stats steady_clock None steady).1 = Ret st /\
              total_alerts st = 100%nat /\
              alerts_by_type st !! "haptic" = Some 100%nat /\
              alerts_by_level st !! "medium" = Some 100%nat /\
              recent_alerts st = 100%nat) /\
  (exists st, (get_alert_stats steady_clock (Some "u") steady).1 = Ret st /\
              total_alerts st = 100%nat /\
              alerts_by_type st !! "haptic" = Some 100%nat /\
              alerts_by_level st !! "medium" = Some 100%nat /\
              recent_alerts st = 100%nat).
Proof.
  split; [vm_compute; reflexivity|].
  split; [vm_compute; repeat (constructor; [repeat split|]); constructor|].
  split.
  - eexists. split; [vm_compute; reflexivity|]. vm_compute. repeat split; reflexivity.
  - eexists. split; [vm_compute; reflexivity|]. vm_compute. repeat split; reflexivity.
Qed.

(** ** Handlers that raise *)

Lemma execute_callbacks_logged (cbs : list Callback) (ev : AlertEvent) (w : World) :
  raises_only_Exception cbs ev ->
  logged (execute_callbacks cbs ev w).2 = logged w ++ errors_of cbs ev.
Proof.
  revert w. induction cbs as [|cb cbs IH]; intros w Hs; simpl.
  - rewrite app_nil_r. reflexivity.
  - inversion Hs as [|? ? Hcb Hrest]; subst.
    unfold bind, try_except.
    assert (Hc : (if cb_is_coroutine cb then call cb ev else call cb ev) = call cb ev)
      by (destruct (cb_is_coroutine cb); reflexivity).
    rewrite Hc. unfold call.
    destruct (cb_body cb ev) as [|e] eqn:Hb; simpl.
    + rewrite (IH _ Hrest). reflexivity.
    + rewrite (Hcb e eq_refl). simpl. rewrite (IH _ Hrest). simpl.
      rewrite <- app_assoc. reflexivity.
Qed.

Lemma send_alert_when_allowed (clock : nat -> Q) (w : World) (user : string)
    (t : AlertType) (lvl : AlertLevel) (msg : string) (conf : Q)
    (meta : option Metadata) (config : AlertConfig) :
  alert_configs (svc w) !! value t = Some config ->
  (threshold config <= conf)%Q ->
  (_can_send_alert clock user t w).1 = Ret true ->
  send_alert clock user t lvl msg conf meta w
    = conclude user t conf
        (execute_callbacks (default [] (alert_callbacks (svc w) !! t))
           (event_of user t lvl msg conf meta config
              (clock (1 + ticks w)%nat) (clock (2 + ticks w)%nat))
           (dispatching clock user t lvl msg conf meta config w)).
Proof.
  intros Hcfg Hthr Hok. apply Qltb_ge in Hthr.
  unfold send_alert, bind at 1, get_svc. rewrite Hcfg, Hthr.
  unfold bind at 1.
  unfold _can_send_alert, bind, get_svc in Hok |- *. rewrite Hcfg in Hok |- *.
  destruct (enabled config); simpl in Hok |- *; [|discriminate].
  destruct (match cooldowns (svc w) !! rate_key user t with
            | Some last => Qltb (clock (ticks w) - last) (inject_Z (cooldown config))
            | None => false
            end); simpl in Hok |- *; [discriminate|].
  match goal with
  | |- context [(?a >=? ?b)%Z] => destruct (a >=? b)%Z
  end; simpl in Hok |- *; [discriminate|].
  unfold _update_rate_limits, bind, time_time, modify, set_svc; simpl.
  rewrite lookup_insert_eq; simpl.
  unfold conclude, dispatching, accepted, event_of, stamps_of, pruned. simpl.
  reflexivity.
Qed.

Lemma send_alert_same_engine (clock : nat -> Q) (user : string) (t : AlertType)
    (lvl : AlertLevel) (msg : string) (conf : Q) (meta : option Metadata)
    (w w' : World) :
  same_engine w w' -> well_behaved w -> well_behaved w' ->
  (exists b, (send_alert clock user t lvl msg conf meta w).1 = Ret b /\
             (send_alert clock user t lvl msg conf meta w').1 = Ret b) /\
  same_engine (send_alert clock user t lvl msg conf meta w).2
              (send_alert clock user t lvl msg conf meta w').2 /\
  alert_callbacks (svc (send_alert clock user t lvl msg conf meta w).2)
    = alert_callbacks (svc w) /\
  alert_callbacks (svc (send_alert clock user t lvl msg conf meta w').2)
    = alert_callbacks (svc w').
Proof.
  intros Hse Hwb Hwb'.
  pose proof (Hwb t) as Hsafe. pose proof (Hwb' t) as Hsafe'.
  destruct w as [[cfg h cbs rl cd] n lg iv], w' as [[cfg' h' cbs' rl' cd'] n' lg' iv'].
  destruct Hse as (Hc & Hh & Hr & Hd & Hn). simpl in *. subst cfg' h' rl' cd' n'.
  unfold send_alert, _can_send_alert, bind, get_svc. simpl.
  destruct (cfg !! value t) as [config|] eqn:Hcfg; simpl.
  2: { repeat split; try reflexivity. exists false. split; reflexivity. }
  destruct (Qltb conf (threshold config)); simpl.
  { repeat split; try reflexivity. exists false. split; reflexivity. }
  rewrite !Hcfg.
  destruct (enabled config); simpl.
  2: { repeat split; try reflexivity. exists false. split; reflexivity. }
  destruct (match cd !! rate_key user t with
            | Some last => Qltb (clock n - last) (inject_Z (cooldown config))
            | None => false
            end); simpl.
  { repeat split; try reflexivity. exists false. split; reflexivity. }
  match goal with
  | |- context [(?a >=? ?b)%Z] => destruct (a >=? b)%Z
  end; simpl.
  { repeat split; try reflexivity. exists false. split; reflexivity. }
  unfold _update_rate_limits, bind, time_time, modify, set_svc; simpl.
  match goal with
  | |- context [execute_callbacks (default [] (cbs !! t)) ?ev ?w1] =>
    destruct (execute_callbacks_frame (default [] (cbs !! t)) ev w1) as (Hs1 & Ht1 & _ & _);
    destruct (execute_callbacks_safe (default [] (cbs !! t)) ev w1 (Hsafe ev)) as (Hr1 & _);
    destruct (execute_callbacks (default [] (cbs !! t)) ev w1) as [r1 w1']
  end.
  match goal with
  | |- context [execute_callbacks (default [] (cbs' !! t)) ?ev ?w2] =>
    destruct (execute_callbacks_frame (default [] (cbs' !! t)) ev w2) as (Hs2 & Ht2 & _ & _);
    destruct (execute_callbacks_safe (default [] (cbs' !! t)) ev w2 (Hsafe' ev)) as (Hr2 & _);
    destruct (execute_callbacks (default [] (cbs' !! t)) ev w2) as [r2 w2']
  end.
  simpl in *. subst r1 r2. simpl.
  unfold same_engine. simpl. rewrite Hs1, Hs2, Ht1, Ht2. simpl.
  repeat split; try reflexivity. exists true. split; reflexivity.
Qed.

Lemma await_all_same_engine (clock : nat -> Q) (user : string) (ts : list AlertType)
    (lvl : AlertLevel) (msg : string) (conf : Q) (meta : option Metadata)
    (results : gmap AlertType bool) (w w' : World) :
  same_engine w w' -> well_behaved w -> well_behaved w' ->
  (exists m, (await_all clock user ts lvl msg conf meta results w).1 = Ret m /\
             (await_all clock user ts lvl msg conf meta results w').1 = Ret m) /\
  same_engine (await_all clock user ts lvl msg conf meta results w).2
              (await_all clock user ts lvl msg conf meta results w').2.
Proof.
  revert results w w'. induction ts as [|t ts IH]; intros results w w' Hse Hwb Hwb'; simpl.
  - split; [|exact Hse]. exists results. split; reflexivity.
  - unfold bind, try_except.
    destruct (send_alert_same_engine clock user t lvl msg conf meta w w' Hse Hwb Hwb')
      as ((b & Hb & Hb') & Hse1 & Hcb & Hcb').
    destruct (send_alert clock user t lvl msg conf meta w) as [r1 w1].
    destruct (send_alert clock user t lvl msg conf meta w') as [r1' w1'].
    simpl in *. subst r1 r1'.
    apply IH; [exact Hse1| |].
    + intros t0 ev. rewrite Hcb. apply Hwb.
    + intros t0 ev. rewrite Hcb'. apply Hwb'.
Qed.

(** C4.  When the channel is configured, the confidence reaches the
    threshold and [_can_send_alert] answers true, [send_alert] returns
    true whatever the handlers do, provided what they raise are instances
    of [Exception]: the event is appended to the history, every handler
    registered for the channel is invoked on it, in registration order,
    and each exception is logged as an error.  In [send_multiple_alerts]
    the map of results does not depend on the handlers at all: two
    services that differ only in their registered handlers answer the
    same.  In the scenario the audio handler raises, and both visual and
    audio are reported as sent, the visual handler having run. *)
Theorem C4_handler_failures :
  (forall (clock : nat -> Q) (w : World) (user : string) (t : AlertType)
          (lvl : AlertLevel) (msg : string) (conf : Q) (meta : option Metadata)
          (config : AlertConfig),
     let cbs := default [] (alert_callbacks (svc w) !! t) in
     let ev := event_of user t lvl msg conf meta config
                 (clock (1 + ticks w)%nat) (clock (2 + ticks w)%nat) in
     let out := send_alert clock user t lvl msg conf meta w in
     alert_configs (svc w) !! value t = Some config ->
     (threshold config <= conf)%Q ->
     (_can_send_alert clock user t w).1 = Ret true ->
     raises_only_Exception cbs ev ->
     out.1 = Ret true /\
     alert_history (svc out.2) = alert_history (svc w) ++ [ev] /\
     invoked out.2 = invoked w ++ map (fun cb => (cb_name cb, ev)) cbs /\
     logged out.2 = logged w ++ errors_of cbs ev ++ [(INFO, AlertSent t user conf)]) /\
  (forall (clock : nat -> Q) (w w' : World) (user : string) (ts : list AlertType)
          (lvl : AlertLevel) (msg : string) (conf : Q) (meta : option Metadata),
     same_engine w w' -> well_behaved w -> well_behaved w' ->
     exists results,
       (send_multiple_alerts clock user ts lvl msg conf meta w).1 = Ret results /\
       (send_multiple_alerts clock user ts lvl msg conf meta w').1 = Ret results) /\
  (exists results,
     (send_multiple_alerts fan_out_clock "u" [VISUAL; AUDIO] MEDIUM "" (9 # 10) None
        fan_out_start).1 = Ret results /\
     results !! VISUAL = Some true /\ results !! AUDIO = Some true /\
     map fst (invoked (send_multiple_alerts fan_out_clock "u" [VISUAL; AUDIO] MEDIUM ""
                         (9 # 10) None fan_out_start).2)
       = [cb_name visual_handler; cb_name audio_handler] /\
     (ERROR, CallbackError {| is_Exception := true; exc_text := "speaker unplugged" |})
       ∈ logged (send_multiple_alerts fan_out_clock "u" [VISUAL; AUDIO] MEDIUM ""
                   (9 # 10) None fan_out_start).2).
Proof.
  split; [|split].
  - intros clock w user t lvl msg conf meta config cbs ev out Hcfg Hthr Hok Hsafe.
    subst out.
    rewrite (send_alert_when_allowed clock w user t lvl msg conf meta config Hcfg Hthr Hok).
    fold cbs. fold ev.
    set (w1 := dispatching clock user t lvl msg conf meta config w).
    destruct (execute_callbacks_frame cbs ev w1) as (Hs & _ & _ & _).
    destruct (execute_callbacks_safe cbs ev w1 Hsafe) as (Hr & Hi).
    pose proof (execute_callbacks_logged cbs ev w1 Hsafe) as Hl.
    destruct (execute_callbacks cbs ev w1) as [r w2]. simpl in *. subst r. simpl.
    rewrite Hs, Hi, Hl, <- app_assoc. repeat split; reflexivity.
  - intros clock w w' user ts lvl msg conf meta Hse Hwb Hwb'.
    unfold send_multiple_alerts.
    destruct (await_all_same_engine clock user ts lvl msg conf meta ∅ w w' Hse Hwb Hwb')
      as (Hm & _).
    exact Hm.
  - eexists. split; [vm_compute; reflexivity|].
    split; [vm_compute; reflexivity|].
    split; [vm_compute; reflexivity|].
    split; [vm_compute; reflexivity|].
    vm_compute. apply list_elem_of_In. simpl. tauto.
Qed.

Lemma fan_out_well_behaved : well_behaved fan_out_start.
Proof.
  intros t ev. destruct t; vm_compute; repeat constructor.
  - intros e He. discriminate He.
  - intros e He. injection He as <-. reflexivity.
Qed.

Lemma init_well_behaved : well_behaved init.
Proof. intros t ev. destruct t; vm_compute; constructor. Qed.

Lemma C4_handler_failures_witness :
  ((send_alert fan_out_clock "u" AUDIO HIGH "" (9 # 10) None fan_out_start).1 = Ret true /\
   map fst (invoked (send_alert fan_out_clock "u" AUDIO HIGH "" (9 # 10) None
                       fan_out_start).2)
     = [cb_name audio_handler]) /\
  (exists results,
     (send_multiple_alerts fan_out_clock "u" [VISUAL; AUDIO] MEDIUM "" (9 # 10) None
        fan_out_start).1 = Ret results /\
     (send_multiple_alerts fan_out_clock "u" [VISUAL; AUDIO] MEDIUM "" (9 # 10) None
        init).1 = Ret results).
Proof.
  split.
  - destruct (proj1 C4_handler_failures fan_out_clock fan_out_start "u" AUDIO HIGH ""
                (9 # 10)%Q None (default burst_config (alert_configs (svc init) !! "audio")))
      as (H1 & _ & H3 & _).
    + reflexivity.
    + vm_compute. discriminate.
    + reflexivity.
    + repeat constructor. intros e He. injection He as <-. reflexivity.
    + split; [exact H1|]. rewrite H3. reflexivity.
  - apply (proj1 (proj2 C4_handler_failures) fan_out_clock fan_out_start init "u"
             [VISUAL; AUDIO] MEDIUM "" (9 # 10)%Q None).
    + repeat split; reflexivity.
    + exact fan_out_well_behaved.
    + exact init_well_behaved.
Defined.

End AlertsFacts.

Module DetectorFacts.
Import Detector.

(** ** The gaze classifier on a failed estimate *)

Lemma face_step_keeps_peeking (faces : list Face) (angles : list (Q * Q)) (mc : Q) :
  (fold_left face_step faces (true, angles, mc)).1.1 = true.
Proof.
  revert angles mc. induction faces as [|f faces IH]; intros angles mc; simpl.
  - reflexivity.
  - destruct (is_looking_at_screen (estimate_gaze_direction f)); apply IH.
Qed.

Lemma face_step_finds_peeking (faces : list Face) (f : Face) (st : bool * list (Q * Q) * Q) :
  f ∈ faces ->
  is_looking_at_screen (estimate_gaze_direction f) = true ->
  (fold_left face_step faces st).1.1 = true.
Proof.
  intros Hin Hlook. revert st.
  induction faces as [|g faces IH]; intros [[peeking angles] mc].
  - apply elem_of_nil in Hin. contradiction.
  - apply elem_of_cons in Hin as [->|Hin]; simpl.
    + rewrite Hlook. apply face_step_keeps_peeking.
    + destruct (is_looking_at_screen (estimate_gaze_direction g)); apply (IH Hin).
Qed.

Lemma process_frame_peeking (thr now : Q) (detections : list Detection) :
  is_peeking (process_frame thr now detections)
    = (fold_left face_step (detect_faces thr detections) (false, [], 0%Q)).1.1.
Proof.
  unfold process_frame.
  destruct (fold_left face_step (detect_faces thr detections) (false, [], 0%Q))
    as [[peeking angles] mc].
  reflexivity.
Qed.

Lemma estimate_failed (face : Face) :
  failed (face_mesh face) -> estimate_gaze_direction face = (0, 0)%Q.
Proof.
  unfold estimate_gaze_direction. destruct (face_mesh face); simpl; intros H;
    [reflexivity..|contradiction].
Qed.

(** C5, as the code has it.  The classifier is a function of the angles
    alone.  A failed gaze estimate is replaced by the angles (0, 0), and
    the classifier evaluates (0, 0) to "looking at the screen": a frame in
    which some detected face has a failed estimate is reported with
    [is_peeking = true]. *)
Theorem C5_failed_estimate_counts_as_peeking :
  (forall face, failed (face_mesh face) -> estimate_gaze_direction face = (0, 0)%Q) /\
  is_looking_at_screen (0, 0)%Q = true /\
  (forall (thr now : Q) (detections : list Detection) (d : Detection),
     d ∈ detections ->
     (thr <= score d)%Q ->
     failed (mesh d) ->
     is_peeking (process_frame thr now detections) = true).
Proof.
  split; [exact estimate_failed|]. split; [reflexivity|].
  intros thr now detections d Hin Hthr Hfail.
  rewrite process_frame_peeking.
  apply (face_step_finds_peeking _ {| face_confidence := score d; face_mesh := mesh d |}).
  - unfold detect_faces. apply list_elem_of_omap. exists d. split; [exact Hin|].
    apply Qltb_ge in Hthr. rewrite Hthr. reflexivity.
  - rewrite estimate_failed by exact Hfail. reflexivity.
Qed.

Lemma C5_failed_estimate_counts_as_peeking_witness :
  is_peeking (process_frame (7 # 10) 0
                [ {| score := 9 # 10; mesh := HeadPose 40 0 |};
                  {| score := 8 # 10; mesh := NoLandmarks |} ]) = true.
Proof.
  apply (proj2 (proj2 C5_failed_estimate_counts_as_peeking) (7 # 10)%Q 0%Q _
           {| score := 8 # 10; mesh := NoLandmarks |}).
  - apply list_elem_of_In. simpl. tauto.
  - vm_compute. discriminate.
  - simpl. exact I.
Defined.

(** C5 as stated fails: on a frame with one detected face whose gaze
    estimation raised, the estimate is (0, 0), the classifier says the
    face looks at the screen, and [process_frame] reports peeking, with
    the face's confidence. *)
Lemma C5_counterexample :
  let face := {| face_confidence := 9 # 10; face_mesh := EstimationRaised |} in
  let result := process_frame (7 # 10) 0 [ {| score := 9 # 10; mesh := EstimationRaised |} ] in
  estimate_gaze_direction face = (0, 0)%Q /\
  is_looking_at_screen (estimate_gaze_direction face) = true /\
  is_peeking result <> false /\
  is_peeking result = true /\
  confidence result = (9 # 10)%Q.
Proof.
  vm_compute. repeat split; try reflexivity. discriminate.
Qed.

End DetectorFacts.

Module SessionsFacts.
Import Sessions.

(** ** Starting and stopping the detection loop *)

Lemma start_registered (user : string) (m : Manager) :
  is_Some (detection_tasks (start_continuous_detection user m) !! user).
Proof.
  unfold start_continuous_detection.
  destruct (detection_tasks m !! user) as [id|] eqn:E; simpl.
  - rewrite E. eexists. reflexivity.
  - rewrite lookup_insert_eq. eexists. reflexivity.
Qed.

Lemma start_twice (user : string) (m : Manager) :
  start_continuous_detection user (start_continuous_detection user m)
    = start_continuous_detection user m.
Proof.
  destruct (start_registered user m) as [id Hid].
  unfold start_continuous_detection at 1. rewrite Hid. reflexivity.
Qed.

Lemma start_fresh_running (user : string) (m : Manager) :
  detection_tasks m !! user = None ->
  running_loops user (start_continuous_detection user m) = S (running_loops user m).
Proof.
  intros Hn. unfold start_continuous_detection, running_loops. rewrite Hn. simpl.
  rewrite filter_app, length_app, filter_cons, filter_nil.
  case_decide as Hd; simpl; [lia|].
  exfalso. apply Hd. split; reflexivity.
Qed.

Lemma cancel_and_forget_twice (user : string) (m : Manager) :
  cancel_and_forget user (cancel_and_forget user m) = cancel_and_forget user m.
Proof.
  unfold cancel_and_forget at 1.
  assert (Hgone : detection_tasks (cancel_and_forget user m) !! user = None).
  { unfold cancel_and_forget. destruct (detection_tasks m !! user) eqn:E; simpl.
    - apply lookup_delete_eq.
    - exact E. }
  rewrite Hgone. reflexivity.
Qed.

(** C9.  A second [start_continuous_detection] changes nothing; from a
    state in which the user has no registered task and no running loop,
    two starts leave exactly one running loop, and it is the registered
    one.  [stop_detection] always answers success, and a second stop
    leaves the manager as the first one left it. *)
Theorem C9_start_stop_idempotent :
  (forall (user : string) (m : Manager),
     start_continuous_detection user (start_continuous_detection user m)
       = start_continuous_detection user m) /\
  (forall (user : string) (m : Manager),
     detection_tasks m !! user = None ->
     running_loops user m = 0%nat ->
     let m2 := start_continuous_detection user (start_continuous_detection user m) in
     running_loops user m2 = 1%nat /\
     detection_tasks m2 !! user = Some (length (tasks m)) /\
     tasks m2 !! length (tasks m) = Some {| task_user := user; task_state := Pending |}) /\
  (forall (user : string) (m : Manager),
     (stop_detection user m).1 = {| response_user_id := user; detection_stopped := true |} /\
     stop_detection user (stop_detection user m).2
       = ({| response_user_id := user; detection_stopped := true |},
          (stop_detection user m).2)).
Proof.
  split; [exact start_twice|]. split.
  - intros user m Hn Hz m2. subst m2. rewrite start_twice.
    split; [rewrite start_fresh_running by exact Hn; lia|].
    unfold start_continuous_detection. rewrite Hn. simpl.
    split; [apply lookup_insert_eq|].
    apply list_lookup_middle. reflexivity.
  - intros user m. split; [reflexivity|].
    unfold stop_detection. simpl. rewrite cancel_and_forget_twice. reflexivity.
Qed.

Lemma C9_start_stop_idempotent_witness :
  running_loops "u"
    (start_continuous_detection "u" (start_continuous_detection "u" empty_manager))
    = 1%nat.
Proof.
  apply (proj1 (proj2 C9_start_stop_idempotent) "u" empty_manager).
  - reflexivity.
  - reflexivity.
Defined.

(** ** A fault inside the loop *)

Lemma set_task_lookup (id : nat) (st : TaskState) (m : Manager) (t : Task) :
  tasks m !! id = Some t ->
  tasks (set_task id st m) !! id = Some (set_state st t).
Proof.
  intros Ht. unfold set_task. simpl. rewrite list_lookup_alter_eq, Ht. reflexivity.
Qed.

(** C6, as the code has it.  When the body of a running loop raises an
    exception other than cancellation, the loop logs the error and ends:
    its task is done, nothing is written to any push channel, the
    connections are as before, and resuming the task again does nothing. *)
Theorem C6_fault_ends_loop_silently (id : nat) (m : Manager) (t : Task) :
  tasks m !! id = Some t ->
  task_state t = Pending ->
  let m' := detection_loop_step id Faulted m in
  pushed m' = pushed m /\
  logged m' = logged m ++ [ErrorInDetectionLoop (task_user t)] /\
  tasks m' !! id = Some {| task_user := task_user t; task_state := Done |} /\
  active_connections m' = active_connections m /\
  (forall r, detection_loop_step id r m' = m').
Proof.
  intros Ht Hp m'. subst m'. unfold detection_loop_step at 1 2 3 4.
  rewrite Ht, Hp. simpl.
  repeat split.
  - rewrite list_lookup_alter_eq, Ht. reflexivity.
  - intros r. unfold detection_loop_step. rewrite Ht, Hp. simpl.
    rewrite list_lookup_alter_eq, Ht. reflexivity.
Qed.

Lemma C6_fault_ends_loop_silently_witness :
  pushed (detection_loop_step 0 Faulted watching) = [].
Proof.
  destruct (C6_fault_ends_loop_silently 0 watching
              {| task_user := "u"; task_state := Pending |}) as (H & _).
  - reflexivity.
  - reflexivity.
  - rewrite H. reflexivity.
Defined.

(** C6 as stated fails: after a fault in the loop of "u" no frame has
    been pushed (a loop that is not faulted does push one), the dead task
    is still registered, and [start_continuous_detection] returns at its
    guard without creating a loop, so that no loop of "u" is running. *)
Lemma C6_counterexample :
  let dead := detection_loop_step 0 Faulted watching in
  pushed (detection_loop_step 0 (Slept 1 true) watching) = [(7%nat, status_update true 1)] /\
  pushed dead = [] /\
  tasks dead !! 0%nat = Some {| task_user := "u"; task_state := Done |} /\
  detection_tasks dead !! "u" = Some 0%nat /\
  start_continuous_detection "u" dead = dead /\
  running_loops "u" (start_continuous_detection "u" dead) = 0%nat.
Proof.
  vm_compute. repeat split; reflexivity.
Qed.

End SessionsFacts.

Module AlertsMore.
Import Alerts AlertsSpec ExtraSpec AlertsFacts Scenarios.

(** ** Further properties of the dispatch engine *)

#[local] Set Warnings "-clear-no-such-hyp".

Lemma run_invariant (clock : nat -> Q) (P : World -> Prop) (calls : list Call) (w : World) :
  (forall c w1, P w1 -> P (send clock c w1).2) ->
  P w -> P (run clock calls w).2.
Proof.
  intros Hstep. revert w. induction calls as [|c calls IH]; intros w Hw; simpl; [exact Hw|].
  specialize (Hstep c w Hw).
  destruct (send clock c w) as [r w1]. specialize (IH w1 Hstep).
  destruct (run clock calls w1) as [rs w2]. exact IH.
Qed.

Lemma send_alert_history_prefix (clock : nat -> Q) (user : string) (t : AlertType)
    (lvl : AlertLevel) (msg : string) (conf : Q) (meta : option Metadata) (w : World) :
  alert_history (svc w)
    `prefix_of` alert_history (svc (send_alert clock user t lvl msg conf meta w).2).
Proof.
  destruct (send_alert clock user t lvl msg conf meta w) as [r w'] eqn:E.
  apply send_alert_cases in E. simpl.
  destruct E as [_ Hs _ _|config _ _ _ Hs _ _ _|config _ _ _ _ _ Hx].
  - rewrite Hs. reflexivity.
  - rewrite Hs. reflexivity.
  - apply conclude_frame in Hx as (Hs & _). rewrite Hs. simpl.
    apply prefix_app_r. reflexivity.
Qed.

(** X1.  Dispatching never removes or rewrites a recorded event: after
    any sequence of [send_alert] calls the earlier history is a prefix of
    the later one. *)
Theorem X1_history_append_only (clock : nat -> Q) (calls : list Call) (w : World) :
  alert_history (svc w) `prefix_of` alert_history (svc (run clock calls w).2).
Proof.
  apply (run_invariant clock
           (fun w' => alert_history (svc w) `prefix_of` alert_history (svc w'))).
  - intros c w1 H1. etransitivity; [exact H1|]. apply send_alert_history_prefix.
  - reflexivity.
Qed.

Lemma chronological_snoc (h : list AlertEvent) (ev : AlertEvent) :
  chronological h ->
  (forall e, e ∈ h -> (timestamp e <= timestamp ev)%Q) ->
  chronological (h ++ [ev]).
Proof.
  intros Hc Hle i j e e' Hij Hi Hj.
  destruct (decide (j < length h)%nat) as [Hlt|Hge].
  - rewrite lookup_app_l in Hi by lia. rewrite lookup_app_l in Hj by lia.
    apply (Hc i j e e' Hij Hi Hj).
  - assert (Hjl : j = length h).
    { apply lookup_lt_Some in Hj. rewrite length_app in Hj. simpl in Hj. lia. }
    subst j. rewrite lookup_app_l in Hi by lia.
    rewrite list_lookup_middle in Hj by reflexivity. injection Hj as <-.
    apply Hle. apply list_elem_of_lookup. exists i. exact Hi.
Qed.

Lemma send_alert_chronological (clock : nat -> Q) (cfgs : gmap string AlertConfig)
    (user : string) (t : AlertType) (lvl : AlertLevel) (msg : string) (conf : Q)
    (meta : option Metadata) (w : World) :
  monotone clock ->
  Inv clock cfgs w ->
  chronological (alert_history (svc w)) ->
  chronological (alert_history (svc (send_alert clock user t lvl msg conf meta w).2)).
Proof.
  intros Hm HI Hc.
  destruct (send_alert clock user t lvl msg conf meta w) as [r w'] eqn:E.
  apply send_alert_cases in E. simpl.
  destruct E as [_ Hs _ _|config _ _ _ Hs _ _ _|config _ _ _ _ _ Hx].
  - rewrite Hs. exact Hc.
  - rewrite Hs. exact Hc.
  - apply conclude_frame in Hx as (Hs & _). rewrite Hs. simpl.
    apply chronological_snoc; [exact Hc|].
    intros e He. simpl.
    destruct (inv_cool_seen _ _ _ HI e He) as (last & Hl & Hle).
    pose proof (inv_cool_past _ _ _ HI _ _ Hl (2 + ticks w)%nat) as Hp.
    assert (last <= clock (2 + ticks w)%nat)%Q by (apply Hp; lia).
    simpl in *. lra.
Qed.

(** X2.  Under a clock that does not run backwards, the history of a
    service that started without one is in chronological order: an event
    recorded later never has an earlier timestamp. *)
Theorem X2_history_chronological (clock : nat -> Q) (w0 : World) (calls : list Call) :
  monotone clock ->
  quiet w0 ->
  chronological (alert_history (svc (run clock calls w0).2)).
Proof.
  intros Hm Hq.
  apply (run_invariant clock
           (fun w => Inv clock (alert_configs (svc w0)) w /\
                     chronological (alert_history (svc w)))).
  - intros c w1 [HI Hc]. split.
    + apply send_alert_Inv; assumption.
    + apply send_alert_chronological with (cfgs := alert_configs (svc w0)); assumption.
  - split; [apply Inv_quiet; exact Hq|].
    destruct Hq as (Hh & _). rewrite Hh. intros i j e e' _ Hi. rewrite lookup_nil in Hi.
    discriminate.
Qed.

Lemma X2_history_chronological_witness :
  chronological (alert_history (svc (run burst_clock burst_calls burst_start).2)).
Proof.
  apply (X2_history_chronological burst_clock burst_start burst_calls).
  - exact burst_clock_monotone.
  - repeat split; reflexivity.
Defined.

Lemma length_pruned (c : Q) (l : list Q) : (length (pruned c l) <= length l)%nat.
Proof. unfold pruned. apply length_filter. Qed.

(** X3.  The rate table stays small: from a service that has not
    dispatched yet, under an unchanged configuration, the list of send
    timestamps kept for a user and channel never holds more than the
    channel's [max_frequency] entries, however many dispatches are
    attempted. *)
Theorem X3_rate_table_bounded (clock : nat -> Q) (w0 : World) (calls : list Call)
    (u : string) (t : AlertType) (config : AlertConfig) :
  quiet w0 ->
  alert_configs (svc w0) !! value t = Some config ->
  (0 <= max_frequency config)%Z ->
  (Z.of_nat (length (default [] (rate_limits (svc (run clock calls w0).2) !! rate_key u t)))
     <= max_frequency config)%Z.
Proof.
  intros Hq Hcfg Hmax.
  assert (HP : alert_configs (svc (run clock calls w0).2) = alert_configs (svc w0) /\
               (Z.of_nat (length (stamps_of (svc (run clock calls w0).2) (rate_key u t)))
                  <= max_frequency config)%Z); [|exact (proj2 HP)].
  apply (run_invariant clock
           (fun w => alert_configs (svc w) = alert_configs (svc w0) /\
                     (Z.of_nat (length (stamps_of (svc w) (rate_key u t)))
                        <= max_frequency config)%Z)).
  - intros c w1 [Hc1 Hb]. unfold send.
    split; [rewrite send_alert_configs; exact Hc1|].
    destruct (send_alert clock (call_user c) (call_type c) (call_level c) (call_message c)
                (call_confidence c) (call_metadata c) w1) as [r w'] eqn:E.
    apply send_alert_cases in E. simpl.
    destruct E as [_ Hs _ _|config' _ _ _ Hs _ _ _|config' Hc' _ _ _ Hlen Hx].
    + rewrite Hs. exact Hb.
    + rewrite Hs, stamps_of_throttled. case_decide; [|exact Hb].
      pose proof (length_pruned (clock (ticks w1)) (stamps_of (svc w1) (rate_key u t))). lia.
    + apply conclude_frame in Hx as (Hs & _). rewrite Hs. simpl.
      rewrite stamps_of_accepted. case_decide as Hk; [|exact Hb].
      apply rate_key_inj in Hk as [Hu Ht].
      rewrite Hu, Ht in Hlen. rewrite Ht, Hc1, Hcfg in Hc'. injection Hc' as <-.
      rewrite length_app. simpl. lia.
  - split; [reflexivity|].
    destruct Hq as (_ & Hr & _). unfold stamps_of. rewrite Hr, lookup_empty. simpl. exact Hmax.
Qed.

Lemma X3_rate_table_bounded_witness :
  (Z.of_nat (length (default [] (rate_limits (svc (run burst_clock burst_calls burst_start).2)
                                   !! rate_key "u" VISUAL)))
     <= max_frequency burst_config)%Z.
Proof.
  apply (X3_rate_table_bounded burst_clock burst_start burst_calls "u" VISUAL burst_config).
  - repeat split; reflexivity.
  - reflexivity.
  - simpl. lia.
Defined.

(** X4.  Users and channels do not share admission state, whatever the
    user ids look like: a [send_alert] for [(user, t)] leaves the send
    timestamps, the cooldown stamp and the recorded events of every other
    pair [(u', t')] as they were. *)
Theorem X4_pairs_are_isolated (clock : nat -> Q) (user : string) (t : AlertType)
    (lvl : AlertLevel) (msg : string) (conf : Q) (meta : option Metadata) (w : World)
    (u' : string) (t' : AlertType) :
  u' <> user \/ t' <> t ->
  let w' := (send_alert clock user t lvl msg conf meta w).2 in
  rate_limits (svc w') !! rate_key u' t' = rate_limits (svc w) !! rate_key u' t' /\
  cooldowns (svc w') !! rate_key u' t' = cooldowns (svc w) !! rate_key u' t' /\
  filter (fun e => user_id e = u' /\ alert_type e = t') (alert_history (svc w'))
    = filter (fun e => user_id e = u' /\ alert_type e = t') (alert_history (svc w)).
Proof.
  intros Hne w'. subst w'.
  assert (Hk : rate_key user t <> rate_key u' t').
  { intros Hk. apply rate_key_inj in Hk as [-> ->]. destruct Hne; congruence. }
  destruct (send_alert clock user t lvl msg conf meta w) as [r w'] eqn:E.
  apply send_alert_cases in E. simpl.
  destruct E as [_ Hs _ _|config _ _ _ Hs _ _ _|config _ _ _ _ _ Hx].
  - rewrite Hs. repeat split; reflexivity.
  - rewrite Hs. unfold throttled. simpl. rewrite lookup_insert_ne by exact Hk.
    repeat split; reflexivity.
  - apply conclude_frame in Hx as (Hs & _). rewrite Hs. simpl.
    rewrite !lookup_insert_ne by exact Hk.
    repeat split; try reflexivity.
    rewrite filter_app, filter_cons, filter_nil.
    case_decide as Hd; [|apply app_nil_r].
    exfalso. simpl in Hd. destruct Hd as [-> ->]. destruct Hne; congruence.
Qed.

Lemma X4_pairs_are_isolated_witness :
  cooldowns (svc (send_alert fan_out_clock "a_visual" AUDIO HIGH "" 1 None init).2)
    !! rate_key "a" VISUAL = None.
Proof.
  destruct (X4_pairs_are_isolated fan_out_clock "a_visual" AUDIO HIGH "" 1%Q None init
              "a" VISUAL) as (_ & H & _).
  - left. discriminate.
  - rewrite H. reflexivity.
Defined.

(** X5.  A channel whose configuration is switched off dispatches
    nothing: [send_alert] returns false whatever the confidence, reads no
    clock, runs no handler and leaves the service untouched. *)
Theorem X5_disabled_channel (clock : nat -> Q) (user : string) (t : AlertType)
    (lvl : AlertLevel) (msg : string) (conf : Q) (meta : option Metadata) (w : World)
    (config : AlertConfig) :
  alert_configs (svc w) !! value t = Some config ->
  enabled config = false ->
  let out := send_alert clock user t lvl msg conf meta w in
  out.1 = Ret false /\ svc out.2 = svc w /\ ticks out.2 = ticks w /\
  invoked out.2 = invoked w.
Proof.
  intros Hc Hen out. subst out.
  unfold send_alert, bind, get_svc. rewrite Hc.
  destruct (Qltb conf (threshold config)); simpl; [repeat split; reflexivity|].
  unfold _can_send_alert, bind, get_svc. rewrite Hc, Hen. simpl.
  repeat split; reflexivity.
Qed.

Lemma X5_disabled_channel_witness :
  (send_alert fan_out_clock "u" VISUAL HIGH "" 1 None
     (update_config VISUAL
        {| config_alert_type := VISUAL; enabled := false; threshold := 0;
           cooldown := 0; max_frequency := 20; custom_message := None |} init).2).1
    = Ret false.
Proof.
  apply (X5_disabled_channel fan_out_clock "u" VISUAL HIGH "" 1%Q None _
           {| config_alert_type := VISUAL; enabled := false; threshold := 0;
              cooldown := 0; max_frequency := 20; custom_message := None |}).
  - reflexivity.
  - reflexivity.
Defined.

(** X6.  [get_alert_history] changes nothing and answers with a slice of
    the selected events (those of the user, or all when the user is
    [None] or the empty string): for a positive [limit] the last
    [min limit n] of them, for a negative [limit] all but the first
    [-limit], and for [limit = 0] every one of them, since [l[-0:]] is the
    whole list. *)
Theorem X6_history_slice (user : option string) (limit : Z) (w : World) :
  exists r,
    get_alert_history user limit w = (Ret r, w) /\
    ((0 < limit)%Z ->
       r `suffix_of` selected user (alert_history (svc w)) /\
       length r = Nat.min (Z.to_nat limit) (length (selected user (alert_history (svc w))))) /\
    (limit = 0%Z -> r = selected user (alert_history (svc w))) /\
    ((limit < 0)%Z -> r = drop (Z.to_nat (- limit)) (selected user (alert_history (svc w)))).
Proof.
  exists (slice_from (- limit) (selected user (alert_history (svc w)))).
  split.
  - unfold get_alert_history, selected, bind, get_svc.
    destruct (truthy user); reflexivity.
  - set (sel := selected user (alert_history (svc w))).
    unfold slice_from. repeat split.
    + destruct (Z.ltb_spec (- limit) 0); [|lia]. apply suffix_drop.
    + destruct (Z.ltb_spec (- limit) 0); [|lia]. rewrite length_drop. lia.
    + intros ->. reflexivity.
    + intros Hneg. destruct (Z.ltb_spec (- limit) 0); [lia|]. reflexivity.
Qed.

Lemma clear_history_frame (user : option string) (w : World) :
  (clear_history user w).1 = Ret tt /\
  alert_configs (svc (clear_history user w).2) = alert_configs (svc w) /\
  alert_callbacks (svc (clear_history user w).2) = alert_callbacks (svc w) /\
  rate_limits (svc (clear_history user w).2) = rate_limits (svc w) /\
  cooldowns (svc (clear_history user w).2) = cooldowns (svc w) /\
  ticks (clear_history user w).2 = ticks w.
Proof. unfold clear_history. destruct (truthy user); repeat split; reflexivity. Qed.

(** X7.  [clear_history] for a named user keeps exactly the events of
    the other users, in their order; for [None], and also for the empty
    string, it erases the events of every user.  In both cases the
    configurations, the callbacks, the rate table and the cooldowns stay
    as they are. *)
Theorem X7_clear_history (user : option string) (w : World) :
  (forall u, user = Some u -> u <> "" ->
     alert_history (svc (clear_history user w).2)
       = filter (fun e => user_id e <> u) (alert_history (svc w))) /\
  (user = None \/ user = Some "" -> alert_history (svc (clear_history user w).2) = []) /\
  (clear_history user w).1 = Ret tt /\
  alert_configs (svc (clear_history user w).2) = alert_configs (svc w) /\
  alert_callbacks (svc (clear_history user w).2) = alert_callbacks (svc w) /\
  rate_limits (svc (clear_history user w).2) = rate_limits (svc w) /\
  cooldowns (svc (clear_history user w).2) = cooldowns (svc w) /\
  ticks (clear_history user w).2 = ticks w.
Proof.
  split; [|split].
  - intros u -> Hu. unfold clear_history. destruct u; [contradiction|]. reflexivity.
  - intros [-> | ->]; reflexivity.
  - apply clear_history_frame.
Qed.

Lemma X7_clear_history_witness :
  alert_history (svc (clear_history (Some "") steady).2) = [].
Proof.
  apply (proj1 (proj2 (X7_clear_history (Some "") steady))). right. reflexivity.
Defined.

Lemma X6_history_slice_witness :
  exists r, get_alert_history (Some "u") 0 steady = (Ret r, steady) /\ length r = 101%nat.
Proof.
  destruct (X6_history_slice (Some "u") 0 steady) as (r & Hr & _ & H0 & _).
  exists r. split; [exact Hr|]. rewrite (H0 eq_refl). vm_compute. reflexivity.
Defined.

(** ** What an admission decision depends on *)

Lemma send_alert_same_admission (clock : nat -> Q) (user : string) (t : AlertType)
    (lvl : AlertLevel) (msg : string) (conf : Q) (meta : option Metadata)
    (w w' : World) :
  same_admission w w' -> well_behaved w -> well_behaved w' ->
  (exists b, (send_alert clock user t lvl msg conf meta w).1 = Ret b /\
             (send_alert clock user t lvl msg conf meta w').1 = Ret b) /\
  same_admission (send_alert clock user t lvl msg conf meta w).2
                 (send_alert clock user t lvl msg conf meta w').2 /\
  alert_callbacks (svc (send_alert clock user t lvl msg conf meta w).2)
    = alert_callbacks (svc w) /\
  alert_callbacks (svc (send_alert clock user t lvl msg conf meta w').2)
    = alert_callbacks (svc w').
Proof.
  intros Hse Hwb Hwb'.
  pose proof (Hwb t) as Hsafe. pose proof (Hwb' t) as Hsafe'.
  destruct w as [[cfg h cbs rl cd] n lg iv], w' as [[cfg' h' cbs' rl' cd'] n' lg' iv'].
  destruct Hse as (Hc & Hr & Hd & Hn). simpl in *. subst cfg' rl' cd' n'.
  unfold send_alert, _can_send_alert, bind, get_svc. simpl.
  destruct (cfg !! value t) as [config|] eqn:Hcfg; simpl.
  2: { repeat split; try reflexivity. exists false. split; reflexivity. }
  destruct (Qltb conf (threshold config)); simpl.
  { repeat split; try reflexivity. exists false. split; reflexivity. }
  rewrite !Hcfg.
  destruct (enabled config); simpl.
  2: { repeat split; try reflexivity. exists false. split; reflexivity. }
  destruct (match cd !! rate_key user t with
            | Some last => Qltb (clock n - last) (inject_Z (cooldown config))
            | None => false
            end); simpl.
  { repeat split; try reflexivity. exists false. split; reflexivity. }
  match goal with
  | |- context [(?a >=? ?b)%Z] => destruct (a >=? b)%Z
  end; simpl.
  { repeat split; try reflexivity. exists false. split; reflexivity. }
  unfold _update_rate_limits, bind, time_time, modify, set_svc; simpl.
  match goal with
  | |- context [execute_callbacks (default [] (cbs !! t)) ?ev ?w1] =>
    destruct (execute_callbacks_frame (default [] (cbs !! t)) ev w1) as (Hs1 & Ht1 & _ & _);
    destruct (execute_callbacks_safe (default [] (cbs !! t)) ev w1 (Hsafe ev)) as (Hr1 & _);
    destruct (execute_callbacks (default [] (cbs !! t)) ev w1) as [r1 w1']
  end.
  match goal with
  | |- context [execute_callbacks (default [] (cbs' !! t)) ?ev ?w2] =>
    destruct (execute_callbacks_frame (default [] (cbs' !! t)) ev w2) as (Hs2 & Ht2 & _ & _);
    destruct (execute_callbacks_safe (default [] (cbs' !! t)) ev w2 (Hsafe' ev)) as (Hr2 & _);
    destruct (execute_callbacks (default [] (cbs' !! t)) ev w2) as [r2 w2']
  end.
  simpl in *. subst r1 r2. simpl.
  unfold same_admission. simpl. rewrite Hs1, Hs2, Ht1, Ht2. simpl.
  repeat split; try reflexivity. exists true. split; reflexivity.
Qed.

Lemma run_same_admission (clock : nat -> Q) (calls : list Call) (w w' : World) :
  same_admission w w' -> well_behaved w -> well_behaved w' ->
  (run clock calls w).1 = (run clock calls w').1.
Proof.
  revert w w'. induction calls as [|c calls IH]; intros w w' Hse Hwb Hwb'; simpl;
    [reflexivity|].
  unfold send.
  destruct (send_alert_same_admission clock (call_user c) (call_type c) (call_level c)
              (call_message c) (call_confidence c) (call_metadata c) w w' Hse Hwb Hwb')
    as ((b & Hb & Hb') & Hse1 & Hcb & Hcb').
  destruct (send_alert clock (call_user c) (call_type c) (call_level c) (call_message c)
              (call_confidence c) (call_metadata c) w) as [r1 w1].
  destruct (send_alert clock (call_user c) (call_type c) (call_level c) (call_message c)
              (call_confidence c) (call_metadata c) w') as [r1' w1'].
  simpl in *. subst r1 r1'.
  assert (Hwb1 : well_behaved w1) by (intros t0 ev; rewrite Hcb; apply Hwb).
  assert (Hwb1' : well_behaved w1') by (intros t0 ev; rewrite Hcb'; apply Hwb').
  specialize (IH w1 w1' Hse1 Hwb1 Hwb1').
  destruct (run clock calls w1) as [rs w2], (run clock calls w1') as [rs' w2'].
  simpl in *. rewrite IH. reflexivity.
Qed.

(** X8.  Clearing the history does not reopen the rate limit or the
    cooldown: when the handlers raise nothing but [Exception]s, every
    later sequence of dispatches is answered the same with or without a
    [clear_history] before it. *)
Theorem X8_clear_history_keeps_limits (clock : nat -> Q) (user : option string)
    (calls : list Call) (w : World) :
  well_behaved w ->
  (run clock calls (clear_history user w).2).1 = (run clock calls w).1.
Proof.
  intros Hwb.
  destruct (clear_history_frame user w) as (_ & Hc & Hcb & Hr & Hd & Ht).
  apply run_same_admission.
  - repeat split; assumption.
  - intros t ev. rewrite Hcb. apply Hwb.
  - exact Hwb.
Qed.

Lemma X8_clear_history_keeps_limits_witness :
  (run cooldown_clock cooldown_calls (clear_history None fan_out_start).2).1
    = (run cooldown_clock cooldown_calls fan_out_start).1.
Proof.
  apply (X8_clear_history_keeps_limits cooldown_clock None cooldown_calls fan_out_start).
  exact fan_out_well_behaved.
Defined.

(** ** What the statistics count *)










(** ** Registering handlers and fanning out *)

Lemma register_callback_callbacks (t : AlertType) (cb : Callback) (w : World) :
  default [] (alert_callbacks (svc (register_callback t cb w).2) !! t)
    = default [] (alert_callbacks (svc w) !! t) ++ [cb] /\
  (forall t', t' <> t ->
     alert_callbacks (svc (register_callback t cb w).2) !! t'
       = alert_callbacks (svc w) !! t').
Proof.
  unfold register_callback, bind, modify, set_svc, logger. simpl.
  destruct (alert_callbacks (svc w) !! t) as [old|] eqn:E; simpl.
  - split.
    + rewrite lookup_insert_eq. simpl.
      rewrite (lookup_total_correct _ _ _ E). reflexivity.
    + intros t' Hne. rewrite lookup_insert_ne by congruence. reflexivity.
  - split.
    + rewrite lookup_insert_eq. simpl. rewrite lookup_total_insert_eq. reflexivity.
    + intros t' Hne. rewrite !lookup_insert_ne by congruence. reflexivity.
Qed.

(** X11.  [register_callback] puts the handler at the end of the
    channel's list (creating the list for a channel that has none, such
    as email or sms on a new service) and touches no other channel; the
    next dispatch admitted on the channel runs the earlier handlers
    first and the new one last, each once. *)
Theorem X11_register_callback (clock : nat -> Q) (t : AlertType) (cb : Callback)
    (w : World) (user : string) (lvl : AlertLevel) (msg : string) (conf : Q)
    (meta : option Metadata) (config : AlertConfig) :
  let old := default [] (alert_callbacks (svc w) !! t) in
  let w1 := (register_callback t cb w).2 in
  let ev := event_of user t lvl msg conf meta config
              (clock (1 + ticks w)%nat) (clock (2 + ticks w)%nat) in
  (default [] (alert_callbacks (svc w1) !! t) = old ++ [cb] /\
   forall t', t' <> t -> alert_callbacks (svc w1) !! t' = alert_callbacks (svc w) !! t') /\
  (alert_configs (svc w) !! value t = Some config ->
   (threshold config <= conf)%Q ->
   (_can_send_alert clock user t w).1 = Ret true ->
   raises_only_Exception (old ++ [cb]) ev ->
   (send_alert clock user t lvl msg conf meta w1).1 = Ret true /\
   invoked (send_alert clock user t lvl msg conf meta w1).2
     = invoked w ++ map (fun c => (cb_name c, ev)) old ++ [(cb_name cb, ev)]).
Proof.
  intros old w1 ev.
  pose proof (register_callback_callbacks t cb w) as [Hcb Hother].
  fold w1 old in Hcb. fold w1 in Hother.
  split; [split; assumption|].
  intros Hcfg Hthr Hok Hsafe.
  assert (Hok1 : (_can_send_alert clock user t w1).1 = Ret true).
  { revert Hok. unfold w1, register_callback, _can_send_alert, bind, get_svc, modify,
      set_svc, logger. simpl. rewrite Hcfg.
    destruct (enabled config); simpl; [|intros H; exact H].
    destruct (match cooldowns (svc w) !! rate_key user t with
              | Some last => Qltb (clock (ticks w) - last) (inject_Z (cooldown config))
              | None => false
              end); simpl; [intros H; exact H|].
    match goal with
    | |- context [(?a >=? ?b)%Z] => destruct (a >=? b)%Z
    end; simpl; intros H; exact H. }
  rewrite (send_alert_when_allowed clock w1 user t lvl msg conf meta config Hcfg Hthr Hok1).
  rewrite Hcb. change (ticks w1) with (ticks w). fold ev.
  set (w2 := dispatching clock user t lvl msg conf meta config w1).
  destruct (execute_callbacks_safe (old ++ [cb]) ev w2 Hsafe) as (Hr & Hi).
  destruct (execute_callbacks (old ++ [cb]) ev w2) as [r w3]. simpl in *. subst r. simpl.
  split; [reflexivity|]. rewrite Hi, map_app. reflexivity.
Qed.

Lemma X11_register_callback_witness :
  map fst (invoked (send_alert fan_out_clock "u" EMAIL HIGH "" 1 None
                      (register_callback EMAIL audio_handler
                         (update_config EMAIL email_config init).2).2).2)
    = [cb_name audio_handler].
Proof.
  destruct (proj2 (X11_register_callback fan_out_clock EMAIL audio_handler
                     (update_config EMAIL email_config init).2
                     "u" HIGH "" 1%Q None email_config)) as (_ & H).
  - reflexivity.
  - vm_compute. discriminate.
  - reflexivity.
  - repeat constructor. intros e He. injection He as <-. reflexivity.
  - rewrite H. reflexivity.
Defined.

Lemma await_all_dom (clock : nat -> Q) (user : string) (ts : list AlertType)
    (lvl : AlertLevel) (msg : string) (conf : Q) (meta : option Metadata)
    (results : gmap AlertType bool) (w : World) :
  well_behaved w ->
  exists m, (await_all clock user ts lvl msg conf meta results w).1 = Ret m /\
            dom m = dom results ∪ list_to_set ts.
Proof.
  revert results w. induction ts as [|t ts IH]; intros results w Hwb; simpl.
  - exists results. split; [reflexivity|]. set_solver.
  - unfold bind, try_except.
    assert (Hse : same_engine w w) by (repeat split; reflexivity).
    destruct (send_alert_same_engine clock user t lvl msg conf meta w w Hse Hwb Hwb)
      as ((b & Hb & _) & _ & Hcb & _).
    destruct (send_alert clock user t lvl msg conf meta w) as [r1 w1].
    simpl in *. subst r1.
    destruct (IH (<[t := b]> results) w1) as (m & Hm & Hd).
    { intros t0 ev. rewrite Hcb. apply Hwb. }
    exists m. split; [exact Hm|]. rewrite Hd, dom_insert_L. set_solver.
Qed.

(** X13.  With handlers that raise nothing but [Exception]s,
    [send_multiple_alerts] always returns a dictionary, and its keys are
    exactly the requested channels (a channel requested twice has one
    entry); for an empty request it returns the empty dictionary and
    touches nothing. *)
Theorem X13_send_multiple_keys (clock : nat -> Q) (user : string) (ts : list AlertType)
    (lvl : AlertLevel) (msg : string) (conf : Q) (meta : option Metadata) (w : World) :
  well_behaved w ->
  (exists results,
     (send_multiple_alerts clock user ts lvl msg conf meta w).1 = Ret results /\
     dom results = list_to_set ts) /\
  send_multiple_alerts clock user [] lvl msg conf meta w = (Ret ∅, w).
Proof.
  intros Hwb. split; [|reflexivity].
  unfold send_multiple_alerts.
  destruct (await_all_dom clock user ts lvl msg conf meta ∅ w Hwb) as (m & Hm & Hd).
  exists m. split; [exact Hm|]. rewrite Hd, dom_empty_L. set_solver.
Qed.

Lemma X13_send_multiple_keys_witness :
  exists results,
    (send_multiple_alerts fan_out_clock "u" [AUDIO; EMAIL; AUDIO] LOW "" 1 None
       fan_out_start).1 = Ret results /\
    dom results = {[AUDIO; EMAIL]}.
Proof.
  destruct (proj1 (X13_send_multiple_keys fan_out_clock "u" [AUDIO; EMAIL; AUDIO] LOW ""
                     1%Q None fan_out_start fan_out_well_behaved)) as (m & Hm & Hd).
  exists m. split; [exact Hm|]. rewrite Hd. set_solver.
Defined.

(** ** Alert identifiers *)

Lemma py_int_close (q : Q) :
  (q - 1 < inject_Z (py_int q))%Q /\ (inject_Z (py_int q) < q + 1)%Q.
Proof.
  destruct q as [n d]. unfold py_int. cbn [Qnum Qden].
  pose proof (Z.quot_rem' n (Z.pos d)) as Hqr.
  pose proof (Z.rem_bound_abs n (Z.pos d)) as Hb.
  assert (Hab : (Z.abs (Z.rem n (Z.pos d)) < Z.pos d)%Z) by (apply Hb; lia).
  clear Hb.
  set (k := Z.quot n (Z.pos d)) in *. set (r := Z.rem n (Z.pos d)) in *.
  unfold Qlt, Qminus, Qplus, Qopp, inject_Z. cbn [Qnum Qden].
  rewrite !Pos2Z.inj_mul, !Z.mul_1_r. clearbody k r. subst n.
  assert (Hr : (- Z.pos d < r < Z.pos d)%Z) by lia. clear Hab.
  rewrite (Z.mul_comm k (Z.pos d)).
  set (D := Z.pos d) in *. clearbody D.
  set (P := (D * k)%Z). clearbody P.
  split; lia.
Qed.

Lemma py_int_apart (x y : Q) :
  (x + 1 <= y)%Q -> py_int (x * 1000) <> py_int (y * 1000).
Proof.
  intros Hxy Heq.
  destruct (py_int_close (x * 1000)) as [_ Hx].
  destruct (py_int_close (y * 1000)) as [Hy _].
  rewrite Heq in Hx. lra.
Qed.

Lemma id_of_apart (u : string) (t : AlertType) (x y : Q) :
  (x + 1 <= y)%Q -> id_of u t x <> id_of u t y.
Proof.
  intros Hxy Heq. unfold id_of in Heq.
  do 4 apply String.app_inj in Heq.
  apply pretty_Z_inj in Heq. exact (py_int_apart x y Hxy Heq).
Qed.

Lemma send_alert_ids (clock : nat -> Q) (cfgs : gmap string AlertConfig)
    (user : string) (t : AlertType) (lvl : AlertLevel) (msg : string) (conf : Q)
    (meta : option Metadata) (w : World) :
  monotone clock ->
  Inv clock cfgs w -> ids_covered w -> ids_distinct cfgs (alert_history (svc w)) ->
  ids_covered (send_alert clock user t lvl msg conf meta w).2 /\
  ids_distinct cfgs (alert_history (svc (send_alert clock user t lvl msg conf meta w).2)).
Proof.
  intros Hm HI Hcov Hdis.
  destruct (send_alert clock user t lvl msg conf meta w) as [r w'] eqn:E.
  apply send_alert_cases in E. simpl.
  destruct E as [_ Hs _ _|config _ _ _ Hs _ _ _|config Hcfg _ _ Hcool _ Hx].
  - unfold ids_covered. rewrite Hs. split; assumption.
  - unfold ids_covered. rewrite Hs. split; assumption.
  - apply conclude_frame in Hx as (Hs & _).
    unfold ids_covered. rewrite Hs. simpl.
    set (ev := event_of user t lvl msg conf meta config
                 (clock (S (ticks w))) (clock (S (S (ticks w))))).
    split.
    + intros e He. apply elem_of_app in He as [He|He].
      * destruct (Hcov e He) as (t_id & last & Hid & Hl & Hle).
        destruct (decide (rate_key user t = rate_key (user_id e) (alert_type e))) as [Hk|Hk].
        -- exists t_id, (clock (S (S (S (ticks w))))).
           rewrite <- Hk, lookup_insert_eq. repeat split; [exact Hid|].
           pose proof (inv_cool_past _ _ _ HI _ _ Hl (3 + ticks w)%nat) as Hp.
           assert (last <= clock (3 + ticks w)%nat)%Q by (apply Hp; lia).
           simpl in *. lra.
        -- exists t_id, last. rewrite lookup_insert_ne by exact Hk.
           repeat split; assumption.
      * apply list_elem_of_singleton in He. subst e.
        exists (clock (S (ticks w))), (clock (S (S (S (ticks w))))).
        simpl. rewrite lookup_insert_eq. repeat split. apply Hm. lia.
    + intros i j e e' config' Hij Hi Hj Hu Ht Hc' Hcd.
      destruct (decide (j < length (alert_history (svc w)))%nat) as [Hlt|Hge].
      * rewrite lookup_app_l in Hi by lia. rewrite lookup_app_l in Hj by lia.
        apply (Hdis i j e e' config' Hij Hi Hj Hu Ht Hc' Hcd).
      * assert (Hjl : j = length (alert_history (svc w))).
        { apply lookup_lt_Some in Hj. rewrite length_app in Hj. simpl in Hj. lia. }
        subst j. rewrite lookup_app_l in Hi by lia.
        rewrite list_lookup_middle in Hj by reflexivity. injection Hj as <-.
        simpl in Hu, Ht, Hc'.
        assert (He : e ∈ alert_history (svc w)).
        { apply list_elem_of_lookup. exists i. exact Hi. }
        destruct (Hcov e He) as (t_id & last & Hid & Hl & Hle).
        rewrite Hu, Ht in Hl, Hid. specialize (Hcool last Hl).
        rewrite <- (inv_configs _ _ _ HI), Hcfg in Hc'. injection Hc' as <-.
        rewrite Hid. simpl. apply id_of_apart.
        assert (clock (ticks w) <= clock (S (ticks w)))%Q by (apply Hm; lia).
        assert (1 <= inject_Z (cooldown config))%Q.
        { change 1%Q with (inject_Z 1). rewrite <- Zle_Qle. exact Hcd. }
        lra.
Qed.

(** X12.  Under a clock that does not run backwards and an unchanged
    configuration, two events of one user on a channel whose cooldown is
    at least one second never share an [alert_id].  The cooldown is what
    keeps them apart: on a channel without cooldown two dispatches within
    the same millisecond are both admitted under the same identifier. *)
Theorem X12_alert_ids (clock : nat -> Q) (w0 : World) (calls : list Call) (i j : nat)
    (e e' : AlertEvent) (config : AlertConfig) :
  (monotone clock ->
   quiet w0 ->
   (i < j)%nat ->
   alert_history (svc (run clock calls w0).2) !! i = Some e ->
   alert_history (svc (run clock calls w0).2) !! j = Some e' ->
   user_id e = user_id e' -> alert_type e = alert_type e' ->
   alert_configs (svc w0) !! value (alert_type e') = Some config ->
   (1 <= cooldown config)%Z ->
   alert_id e <> alert_id e') /\
  (run fan_out_clock twin_calls burst_start).1 = [Ret true; Ret true] /\
  map alert_id (alert_history (svc (run fan_out_clock twin_calls burst_start).2))
    = ["u_visual_0"; "u_visual_0"].
Proof.
  split; [|split; vm_compute; reflexivity].
  intros Hm Hq Hij Hi Hj Hu Ht Hc Hcd.
  assert (HP : Inv clock (alert_configs (svc w0)) (run clock calls w0).2 /\
               ids_covered (run clock calls w0).2 /\
               ids_distinct (alert_configs (svc w0))
                 (alert_history (svc (run clock calls w0).2))).
  { apply (run_invariant clock
             (fun w => Inv clock (alert_configs (svc w0)) w /\ ids_covered w /\
                       ids_distinct (alert_configs (svc w0)) (alert_history (svc w)))).
    - intros c w1 (HI & Hcov & Hdis). split.
      + apply send_alert_Inv; assumption.
      + apply send_alert_ids; assumption.
    - split; [apply Inv_quiet; exact Hq|].
      destruct Hq as (Hh & _). unfold ids_covered. rewrite Hh. split.
      + intros e0 He0. apply elem_of_nil in He0. contradiction.
      + intros i0 j0 e0 e0' c0 _ Hi0. rewrite lookup_nil in Hi0. discriminate. }
  destruct HP as (_ & _ & Hdis).
  apply (Hdis i j e e' config Hij Hi Hj Hu Ht Hc Hcd).
Qed.

Lemma X12_alert_ids_witness :
  let config := default burst_config (alert_configs (svc init) !! "visual") in
  alert_id (event_of "u" VISUAL MEDIUM "" (8 # 10) None config 0 0)
    <> alert_id (event_of "u" VISUAL MEDIUM "" (9 # 10) None config 4 4).
Proof.
  intros config.
  apply (proj1 (X12_alert_ids cooldown_clock init cooldown_calls 0%nat 1%nat
                  (event_of "u" VISUAL MEDIUM "" (8 # 10) None config 0 0)
                  (event_of "u" VISUAL MEDIUM "" (9 # 10) None config 4 4) config)).
  - exact cooldown_clock_monotone.
  - repeat split; reflexivity.
  - lia.
  - reflexivity.
  - reflexivity.
  - reflexivity.
  - reflexivity.
  - reflexivity.
  - vm_compute. discriminate.
Defined.

End AlertsMore.

Module DetectorMore.
Import Detector DetectorFacts.

(** ** Further properties of [process_frame] *)

Lemma py_max_cases (a b : Q) :
  (py_max a b = a \/ py_max a b = b) /\ (a <= py_max a b)%Q /\ (b <= py_max a b)%Q.
Proof.
  unfold py_max. destruct (Qgtb b a) eqn:E.
  - apply Qgtb_gt in E. repeat split; [right; reflexivity|lra|lra].
  - apply Qgtb_le in E. repeat split; [left; reflexivity|lra|lra].
Qed.

Lemma face_fold (faces : list Face) (peeking : bool) (angles : list (Q * Q)) (mc : Q) :
  let '(peeking', angles', mc') := fold_left face_step faces (peeking, angles, mc) in
  peeking' = peeking || existsb (fun f => is_looking_at_screen (estimate_gaze_direction f)) faces /\
  angles' = angles ++ map estimate_gaze_direction faces /\
  (mc <= mc')%Q /\
  (forall f, f ∈ faces -> is_looking_at_screen (estimate_gaze_direction f) = true ->
             (face_confidence f <= mc')%Q) /\
  (mc' = mc \/
   exists f, f ∈ faces /\ is_looking_at_screen (estimate_gaze_direction f) = true /\
             mc' = face_confidence f).
Proof.
  revert peeking angles mc. induction faces as [|g faces IH]; intros peeking angles mc.
  - simpl. rewrite orb_false_r, app_nil_r. repeat split.
    + lra.
    + intros f Hf. apply elem_of_nil in Hf. contradiction.
    + left. reflexivity.
  - cbn [fold_left face_step existsb map].
    destruct (is_looking_at_screen (estimate_gaze_direction g)) eqn:Hg.
    + specialize (IH true (angles ++ [estimate_gaze_direction g])
                     (py_max mc (face_confidence g))).
      destruct (fold_left face_step faces _) as [[p' a'] m'].
      destruct IH as (Hp & Ha & Hm & Hall & Hone).
      destruct (py_max_cases mc (face_confidence g)) as (Hc & Hc1 & Hc2).
      repeat split.
      * rewrite Hp. simpl. rewrite orb_true_r. reflexivity.
      * rewrite Ha, <- app_assoc. reflexivity.
      * lra.
      * intros f Hf Hlook. apply elem_of_cons in Hf as [->|Hf]; [lra|].
        apply Hall; assumption.
      * destruct Hone as [Hone|(f & Hf & Hl & Hone)].
        -- destruct Hc as [Hc|Hc].
           ++ left. congruence.
           ++ right. exists g. split; [left|]. split; [exact Hg|congruence].
        -- right. exists f. split; [right; exact Hf|]. split; assumption.
    + specialize (IH peeking (angles ++ [estimate_gaze_direction g]) mc).
      destruct (fold_left face_step faces _) as [[p' a'] m'].
      destruct IH as (Hp & Ha & Hm & Hall & Hone).
      repeat split.
      * rewrite Hp. reflexivity.
      * rewrite Ha, <- app_assoc. reflexivity.
      * exact Hm.
      * intros f Hf Hlook. apply elem_of_cons in Hf as [->|Hf]; [congruence|].
        apply Hall; assumption.
      * destruct Hone as [Hone|(f & Hf & Hl & Hone)]; [left; exact Hone|].
        right. exists f. split; [right; exact Hf|]. split; assumption.
Qed.

Lemma detect_faces_spec (thr : Q) (detections : list Detection) (f : Face) :
  f ∈ detect_faces thr detections <->
  exists d, d ∈ detections /\ (thr <= score d)%Q /\
            f = {| face_confidence := score d; face_mesh := mesh d |}.
Proof.
  unfold detect_faces. rewrite list_elem_of_omap. split.
  - intros (d & Hd & Hf). exists d. split; [exact Hd|].
    destruct (Qltb (score d) thr) eqn:E; simpl in Hf; [discriminate|].
    apply Qltb_ge in E. injection Hf as <-. split; [exact E|reflexivity].
  - intros (d & Hd & Hthr & ->). exists d. split; [exact Hd|].
    apply Qltb_ge in Hthr. rewrite Hthr. reflexivity.
Qed.

Lemma detect_faces_length (thr : Q) (detections : list Detection) :
  length (detect_faces thr detections)
    = length (filter (fun d => Qltb (score d) thr = false) detections).
Proof.
  unfold detect_faces. induction detections as [|d ds IH]; [reflexivity|].
  rewrite filter_cons. cbn [omap list_omap].
  destruct (decide (Qltb (score d) thr = false)) as [E|E].
  - rewrite E. simpl. f_equal. exact IH.
  - apply not_false_is_true in E. rewrite E. simpl. exact IH.
Qed.

(** X14.  [process_frame] keeps one face for every detection whose score
    reaches the confidence threshold and no other: [face_count] is their
    number, and [gaze_angles] holds one estimate per kept face. *)
Theorem X14_faces_and_angles (thr now : Q) (detections : list Detection) :
  let result := process_frame thr now detections in
  face_count result
    = length (filter (fun d => Qltb (score d) thr = false) detections) /\
  length (gaze_angles result) = face_count result /\
  gaze_angles result = map estimate_gaze_direction (detect_faces thr detections) /\
  timestamp result = now.
Proof.
  unfold process_frame.
  pose proof (face_fold (detect_faces thr detections) false [] 0%Q) as H.
  destruct (fold_left face_step (detect_faces thr detections) (false, [], 0%Q))
    as [[p a] m].
  destruct H as (_ & Ha & _). simpl in *. subst a.
  rewrite length_map, detect_faces_length. repeat split; reflexivity.
Qed.

(** X15.  [process_frame] reports peeking exactly when some detection
    that reaches the threshold is classified as looking at the screen.
    Then the reported confidence is the score of such a detection, the
    highest among them or zero if that is higher, and so at least the
    threshold; otherwise the confidence is zero.  A frame without
    detections is never peeking. *)
Theorem X15_peeking_and_confidence (thr now : Q) (detections : list Detection) :
  let result := process_frame thr now detections in
  let looking d :=
    is_looking_at_screen
      (estimate_gaze_direction {| face_confidence := score d; face_mesh := mesh d |}) in
  (is_peeking result = true <->
   exists d, d ∈ detections /\ (thr <= score d)%Q /\ looking d = true) /\
  (is_peeking result = false -> confidence result = 0%Q) /\
  (is_peeking result = true ->
   (thr <= confidence result)%Q /\
   (forall d, d ∈ detections -> (thr <= score d)%Q -> looking d = true ->
              (score d <= confidence result)%Q) /\
   (confidence result = 0%Q \/
    exists d, d ∈ detections /\ (thr <= score d)%Q /\ looking d = true /\
              confidence result = score d)) /\
  (detections = [] -> is_peeking result = false).
Proof.
  intros result looking. subst result. unfold process_frame.
  pose proof (face_fold (detect_faces thr detections) false [] 0%Q) as H.
  destruct (fold_left face_step (detect_faces thr detections) (false, [], 0%Q))
    as [[p a] m].
  destruct H as (Hp & _ & Hm & Hall & Hone). cbn [is_peeking confidence].
  simpl in Hp.
  assert (Hiff : p = true <->
                 exists d, d ∈ detections /\ (thr <= score d)%Q /\ looking d = true).
  { rewrite Hp, existsb_exists. split.
    - intros (f & Hf & Hl). apply list_elem_of_In, detect_faces_spec in Hf.
      destruct Hf as (d & Hd & Hthr & ->). exists d. repeat split; assumption.
    - intros (d & Hd & Hthr & Hl).
      exists {| face_confidence := score d; face_mesh := mesh d |}.
      split; [|exact Hl]. apply list_elem_of_In, detect_faces_spec.
      exists d. repeat split; assumption. }
  split; [exact Hiff|]. split; [intros ->; reflexivity|]. split.
  - intros ->. destruct (proj1 Hiff eq_refl) as (d0 & Hd0 & Hthr0 & Hl0).
    assert (Hbig : forall d, d ∈ detections -> (thr <= score d)%Q -> looking d = true ->
                             (score d <= m)%Q).
    { intros d Hd Hthr Hl.
      apply (Hall {| face_confidence := score d; face_mesh := mesh d |}); [|exact Hl].
      apply detect_faces_spec. exists d. repeat split; assumption. }
    split; [|split].
    + specialize (Hbig d0 Hd0 Hthr0 Hl0). lra.
    + exact Hbig.
    + destruct Hone as [->|(f & Hf & Hl & ->)]; [left; reflexivity|].
      apply detect_faces_spec in Hf. destruct Hf as (d & Hd & Hthr & ->).
      right. exists d. repeat split; assumption.
  - intros ->. rewrite Hp. reflexivity.
Qed.

Lemma X15_peeking_and_confidence_witness :
  confidence (process_frame (7 # 10) 0 [ {| score := 9 # 10; mesh := HeadPose 40 0 |} ])
    = 0%Q.
Proof.
  apply (proj1 (proj2 (X15_peeking_and_confidence (7 # 10) 0
                         [ {| score := 9 # 10; mesh := HeadPose 40 0 |} ]))).
  reflexivity.
Defined.

(** X16.  The verdict of [is_looking_at_screen] depends on the absolute
    values of the two angles only, and angles that are no larger in
    absolute value than angles accepted are accepted too. *)
Theorem X16_looking_is_downward_closed (pitch yaw pitch' yaw' : Q) :
  (Qabs pitch' <= Qabs pitch)%Q ->
  (Qabs yaw' <= Qabs yaw)%Q ->
  is_looking_at_screen (pitch, yaw) = true ->
  is_looking_at_screen (pitch', yaw') = true.
Proof.
  unfold is_looking_at_screen. intros Hp Hy.
  rewrite !andb_true_iff, !Qltb_lt. intros [H1 H2]. split; lra.
Qed.

Lemma X16_looking_is_downward_closed_witness :
  is_looking_at_screen (-10, 5)%Q = true.
Proof.
  apply (X16_looking_is_downward_closed 10 (-5) (-10) 5).
  - vm_compute. discriminate.
  - vm_compute. discriminate.
  - reflexivity.
Defined.

End DetectorMore.

Module SessionsMore.
Import Sessions Routes.

(** ** Further properties of the detection sessions *)

Lemma filter_none {A : Type} (P : A -> Prop) `{forall x, Decision (P x)} (l : list A) :
  (forall y, y ∈ l -> ~ P y) -> filter P l = [].
Proof.
  induction l as [|x l IH]; intros Hn; [reflexivity|].
  rewrite filter_cons. case_decide as Hx.
  - exfalso. apply (Hn x); [left|exact Hx].
  - apply IH. intros y Hy. apply Hn. right. exact Hy.
Qed.

Lemma filter_at_most_one {A : Type} (P : A -> Prop) `{forall x, Decision (P x)}
    (l : list A) :
  (forall i j x y, l !! i = Some x -> l !! j = Some y -> P x -> P y -> i = j) ->
  (length (filter P l) <= 1)%nat.
Proof.
  induction l as [|x l IH]; intros Hu; [simpl; lia|].
  rewrite filter_cons. case_decide as Hx.
  - rewrite filter_none; [simpl; lia|].
    intros y Hy Py. apply list_elem_of_lookup in Hy as [k Hk].
    specialize (Hu 0%nat (S k) x y eq_refl Hk Hx Py). discriminate.
  - apply IH. intros i j a b Hi Hj Pa Pb.
    specialize (Hu (S i) (S j) a b Hi Hj Pa Pb). lia.
Qed.

Lemma cancel_not_pending (t : Task) : task_state (cancel t) <> Pending.
Proof. unfold cancel. destruct (task_state t) eqn:E; simpl; congruence. Qed.

Lemma cancel_and_forget_registered (user : string) (m : Manager) :
  registered_running m -> registered_running (cancel_and_forget user m).
Proof.
  intros Hr. unfold cancel_and_forget.
  destruct (detection_tasks m !! user) as [id0|] eqn:E; [|exact Hr].
  intros id t Ht Hp. simpl in *.
  rewrite list_lookup_alter in Ht. case_decide as Hd.
  - subst id. destruct (tasks m !! id0) as [t0|]; [|discriminate].
    injection Ht as <-. exfalso. exact (cancel_not_pending t0 Hp).
  - specialize (Hr id t Ht Hp).
    rewrite lookup_delete_ne; [exact Hr|].
    intros Heq. rewrite <- Heq, E in Hr. congruence.
Qed.

Lemma start_registered_running (user : string) (m : Manager) :
  registered_running m -> registered_running (start_continuous_detection user m).
Proof.
  intros Hr. unfold start_continuous_detection.
  destruct (detection_tasks m !! user) as [id0|] eqn:E; [exact Hr|].
  intros id t Ht Hp. simpl in *.
  destruct (decide (id < length (tasks m))%nat) as [Hlt|Hge].
  - rewrite lookup_app_l in Ht by exact Hlt.
    specialize (Hr id t Ht Hp).
    rewrite lookup_insert_ne; [exact Hr|].
    intros Heq. rewrite <- Heq, E in Hr. discriminate.
  - assert (id = length (tasks m)).
    { apply lookup_lt_Some in Ht. rewrite length_app in Ht. simpl in Ht. lia. }
    subst id. rewrite list_lookup_middle in Ht by reflexivity. injection Ht as <-.
    simpl. apply lookup_insert_eq.
Qed.

Lemma disconnect_registered (user : string) (m : Manager) :
  registered_running m -> registered_running (disconnect user m).
Proof.
  intros Hr. unfold disconnect.
  set (m1 := {| active_connections := delete user (active_connections m);
                detection_tasks := detection_tasks m; tasks := tasks m;
                pushed := pushed m; logged := logged m |}).
  assert (H1 : registered_running m1) by exact Hr.
  apply (cancel_and_forget_registered user) in H1.
  intros id t Ht Hp. simpl in *. apply (H1 id t Ht Hp).
Qed.

Lemma step_registered (id : nat) (r : Resumption) (m : Manager) :
  registered_running m -> registered_running (detection_loop_step id r m).
Proof.
  intros Hr. unfold detection_loop_step.
  destruct (tasks m !! id) as [t0|] eqn:E; [|exact Hr].
  assert (Hdone : registered_running (set_task id Done m)).
  { intros id' t Ht Hp. unfold set_task in *. simpl in *.
    rewrite list_lookup_alter in Ht. case_decide as Hd.
    - rewrite E in Ht. simpl in Ht. injection Ht as <-. simpl in Hp. discriminate.
    - apply (Hr id' t Ht Hp). }
  destruct (task_state t0); [|exact Hdone|exact Hr].
  destruct r as [now write_ok|].
  - unfold send_detection_update.
    destruct (active_connections m !! task_user t0); [|exact Hr].
    destruct write_ok; exact Hr.
  - intros id' t Ht Hp. simpl in *. apply (Hdone id' t Ht Hp).
Qed.

Lemma apply_event_registered (e : Event) (m : Manager) :
  registered_running m -> registered_running (apply_event m e).
Proof.
  intros Hr. destruct e as [ws user|user r|user|id r]; simpl.
  - exact Hr.
  - unfold websocket_turn. destruct r as [|[| |type]]; simpl;
      try (apply disconnect_registered; exact Hr).
    repeat case_decide; simpl.
    + apply start_registered_running; exact Hr.
    + apply cancel_and_forget_registered; exact Hr.
    + exact Hr.
  - apply cancel_and_forget_registered; exact Hr.
  - apply step_registered; exact Hr.
Qed.

Lemma reachable_registered (es : list Event) (m : Manager) :
  registered_running m -> registered_running (apply_events es m).
Proof.
  unfold apply_events. revert m. induction es as [|e es IH]; intros m Hr; simpl.
  - exact Hr.
  - apply IH. apply apply_event_registered. exact Hr.
Qed.

Lemma empty_registered : registered_running empty_manager.
Proof. intros id t Ht. simpl in Ht. rewrite lookup_nil in Ht. discriminate. Qed.

Lemma registered_at_most_one (user : string) (m : Manager) :
  registered_running m -> (running_loops user m <= 1)%nat.
Proof.
  intros Hr. unfold running_loops. apply filter_at_most_one.
  intros i j x y Hi Hj [Hux Hpx] [Huy Hpy].
  pose proof (Hr i x Hi Hpx) as H1. pose proof (Hr j y Hj Hpy) as H2.
  rewrite Hux in H1. rewrite Huy in H2. congruence.
Qed.

(** X17.  At most one loop per user: whatever sequence of connections,
    websocket messages, stop requests and resumptions of loops the
    manager goes through from its initial state, a running loop is
    always the task registered for its user, so that no user ever has
    two running loops. *)
Theorem X17_at_most_one_loop (es : list Event) (user : string) :
  let m := apply_events es empty_manager in
  registered_running m /\ (running_loops user m <= 1)%nat.
Proof.
  intros m.
  assert (Hr : registered_running m) by (apply reachable_registered, empty_registered).
  split; [exact Hr|]. apply registered_at_most_one. exact Hr.
Qed.

Lemma stop_leaves_none_running (user : string) (m : Manager) :
  registered_running m -> running_loops user (cancel_and_forget user m) = 0%nat.
Proof.
  intros Hr. unfold running_loops. rewrite filter_none; [reflexivity|].
  intros t Ht [Hu Hp]. apply list_elem_of_lookup in Ht as [id Ht].
  pose proof (cancel_and_forget_registered user m Hr id t Ht Hp) as Hreg.
  rewrite Hu in Hreg. revert Hreg. unfold cancel_and_forget.
  destruct (detection_tasks m !! user) eqn:E; simpl.
  - rewrite lookup_delete_eq. discriminate.
  - rewrite E. discriminate.
Qed.

(** X18.  Stopping and starting again works from every state the manager
    can reach, also after the loop died of a fault: [stop_detection]
    leaves the user without a running loop, and a
    [start_continuous_detection] after it creates a new task, which is
    then the user's only running loop. *)
Theorem X18_restart (es : list Event) (user : string) :
  let m := apply_events es empty_manager in
  let stopped := (stop_detection user m).2 in
  let restarted := start_continuous_detection user stopped in
  running_loops user stopped = 0%nat /\
  running_loops user restarted = 1%nat /\
  detection_tasks restarted !! user = Some (length (tasks m)) /\
  tasks restarted !! length (tasks m)
    = Some {| task_user := user; task_state := Pending |}.
Proof.
  intros m stopped restarted.
  assert (Hr : registered_running m) by (apply reachable_registered, empty_registered).
  assert (H0 : running_loops user stopped = 0%nat)
    by (apply stop_leaves_none_running; exact Hr).
  assert (Hgone : detection_tasks stopped !! user = None).
  { unfold stopped, stop_detection, cancel_and_forget. simpl.
    destruct (detection_tasks m !! user) eqn:E; simpl.
    - apply lookup_delete_eq.
    - exact E. }
  assert (Hlen : length (tasks stopped) = length (tasks m)).
  { unfold stopped, stop_detection, cancel_and_forget. simpl.
    destruct (detection_tasks m !! user); simpl; [apply length_alter|reflexivity]. }
  split; [exact H0|].
  unfold restarted, start_continuous_detection, running_loops. rewrite Hgone. simpl.
  rewrite filter_app, length_app, filter_cons, filter_nil, Hlen.
  fold (running_loops user stopped). rewrite H0.
  repeat split.
  - case_decide as Hd; [reflexivity|]. exfalso. apply Hd. split; reflexivity.
  - apply lookup_insert_eq.
  - rewrite <- Hlen. apply list_lookup_middle. reflexivity.
Qed.

(** ** A loop that is not running *)

Lemma alter_keeps_settled (f : Task -> Task) (i id : nat) (l : list Task) :
  (forall x, task_state x <> Pending -> task_state (f x) <> Pending) ->
  (exists t, l !! id = Some t /\ task_state t <> Pending) ->
  exists t, alter f i l !! id = Some t /\ task_state t <> Pending.
Proof.
  intros Hf (t & Ht & Hp). rewrite list_lookup_alter. case_decide as Hd.
  - subst i. rewrite Ht. simpl. exists (f t). split; [reflexivity|]. apply Hf, Hp.
  - exists t. split; assumption.
Qed.

Lemma cancel_keeps_settled (x : Task) :
  task_state x <> Pending -> task_state (cancel x) <> Pending.
Proof. intros _. apply cancel_not_pending. Qed.

Lemma cancel_and_forget_settled (user : string) (id : nat) (m : Manager) :
  (exists t, tasks m !! id = Some t /\ task_state t <> Pending) ->
  exists t, tasks (cancel_and_forget user m) !! id = Some t /\ task_state t <> Pending.
Proof.
  intros H. unfold cancel_and_forget. destruct (detection_tasks m !! user); [|exact H].
  simpl. apply alter_keeps_settled; [exact cancel_keeps_settled|exact H].
Qed.

Lemma apply_event_settled (e : Event) (id : nat) (m : Manager) :
  (exists t, tasks m !! id = Some t /\ task_state t <> Pending) ->
  exists t, tasks (apply_event m e) !! id = Some t /\ task_state t <> Pending.
Proof.
  intros H.
  assert (Hstart : forall user,
             exists t, tasks (start_continuous_detection user m) !! id = Some t /\
                       task_state t <> Pending).
  { intros user. unfold start_continuous_detection.
    destruct (detection_tasks m !! user); [exact H|]. simpl.
    destruct H as (t & Ht & Hp). exists t. split; [|exact Hp].
    rewrite lookup_app_l; [exact Ht|]. apply lookup_lt_Some in Ht. exact Ht. }
  assert (Hdis : forall user,
             exists t, tasks (disconnect user m) !! id = Some t /\ task_state t <> Pending).
  { intros user. unfold disconnect. simpl.
    apply (cancel_and_forget_settled user id
             {| active_connections := delete user (active_connections m);
                detection_tasks := detection_tasks m; tasks := tasks m;
                pushed := pushed m; logged := logged m |}). exact H. }
  destruct e as [ws user|user r|user|id' r]; simpl.
  - exact H.
  - unfold websocket_turn. destruct r as [|[| |type]]; simpl; try apply Hdis.
    repeat case_decide; simpl.
    + apply Hstart.
    + apply cancel_and_forget_settled. exact H.
    + exact H.
  - apply cancel_and_forget_settled. exact H.
  - unfold detection_loop_step. destruct (tasks m !! id') as [t0|] eqn:E; [|exact H].
    assert (Hdone : exists t, tasks (set_task id' Done m) !! id = Some t /\
                              task_state t <> Pending).
    { unfold set_task. simpl. apply alter_keeps_settled; [|exact H].
      intros x _. simpl. discriminate. }
    destruct (task_state t0); [|exact Hdone|exact H].
    destruct r as [now write_ok|].
    + unfold send_detection_update.
      destruct (active_connections m !! task_user t0); [|exact H].
      destruct write_ok; exact H.
    + exact Hdone.
Qed.

Lemma apply_events_settled (es : list Event) (id : nat) (m : Manager) :
  (exists t, tasks m !! id = Some t /\ task_state t <> Pending) ->
  exists t, tasks (apply_events es m) !! id = Some t /\ task_state t <> Pending.
Proof.
  unfold apply_events. revert m. induction es as [|e es IH]; intros m H; simpl; [exact H|].
  apply IH. apply apply_event_settled. exact H.
Qed.

Lemma settled_step_silent (id : nat) (r : Resumption) (m : Manager) :
  (exists t, tasks m !! id = Some t /\ task_state t <> Pending) ->
  pushed (detection_loop_step id r m) = pushed m.
Proof.
  intros (t & Ht & Hp). unfold detection_loop_step. rewrite Ht.
  destruct (task_state t); [contradiction|reflexivity|reflexivity].
Qed.

(** X19.  A stopped loop stays stopped: once [stop_detection] has
    cancelled the task registered for a user, nothing that happens to the
    manager afterwards makes that task run again, and resuming it never
    writes a frame. *)
Theorem X19_stopped_loop_is_silent (m : Manager) (user : string) (id : nat) (t : Task)
    (es : list Event) (r : Resumption) :
  detection_tasks m !! user = Some id ->
  tasks m !! id = Some t ->
  let later := apply_events es (stop_detection user m).2 in
  (exists t', tasks later !! id = Some t' /\ task_state t' <> Pending) /\
  pushed (detection_loop_step id r later) = pushed later.
Proof.
  intros Hreg Ht later.
  assert (H0 : exists t', tasks (stop_detection user m).2 !! id = Some t' /\
                          task_state t' <> Pending).
  { unfold stop_detection, cancel_and_forget. simpl. rewrite Hreg. simpl.
    rewrite list_lookup_alter_eq, Ht. simpl.
    exists (cancel t). split; [reflexivity|apply cancel_not_pending]. }
  assert (Hl : exists t', tasks later !! id = Some t' /\ task_state t' <> Pending).
  { apply apply_events_settled. exact H0. }
  split; [exact Hl|]. apply settled_step_silent. exact Hl.
Qed.

Lemma X19_stopped_loop_is_silent_witness :
  pushed (detection_loop_step 0 (Slept 5 true)
            (apply_events [ev_resume 0 (Slept 1 true); ev_connect 8 "u"]
               (stop_detection "u" watching).2))
    = pushed (apply_events [ev_resume 0 (Slept 1 true); ev_connect 8 "u"]
                (stop_detection "u" watching).2).
Proof.
  apply (proj2 (X19_stopped_loop_is_silent watching "u" 0
                  {| task_user := "u"; task_state := Pending |}
                  [ev_resume 0 (Slept 1 true); ev_connect 8 "u"] (Slept 5 true)
                  eq_refl eq_refl)).
Defined.

(** X20.  A running loop survives its own ticks: after any number of
    them the task is still running and registered as before, and the
    frames written are one [status_update] with [is_active] true per
    tick whose write succeeded, to the websocket of the loop's user; a
    failed write is logged and does not end the loop, and without a
    connection nothing is written. *)
Theorem X20_ticks (m : Manager) (id : nat) (t : Task) (outs : list (Q * bool)) :
  tasks m !! id = Some t ->
  task_state t = Pending ->
  let m' := fold_left (fun m0 o => detection_loop_step id (Slept o.1 o.2) m0) outs m in
  tasks m' = tasks m /\
  detection_tasks m' = detection_tasks m /\
  active_connections m' = active_connections m /\
  pushed m' = pushed m ++
    match active_connections m !! task_user t with
    | Some websocket =>
      omap (fun o : Q * bool =>
              if o.2 then Some (websocket, status_update true o.1) else None) outs
    | None => []
    end.
Proof.
  intros Ht Hp. revert m Ht. induction outs as [|[now ok] outs IH]; intros m Ht m'.
  - subst m'. simpl. repeat split.
    destruct (active_connections m !! task_user t); rewrite app_nil_r; reflexivity.
  - subst m'. cbn [fold_left].
    set (m1 := detection_loop_step id (Slept (now, ok).1 (now, ok).2) m).
    assert (H1 : tasks m1 = tasks m /\ detection_tasks m1 = detection_tasks m /\
                 active_connections m1 = active_connections m /\
                 pushed m1 = pushed m ++
                   match active_connections m !! task_user t with
                   | Some websocket =>
                     if ok then [(websocket, status_update true now)] else []
                   | None => []
                   end).
    { unfold m1, detection_loop_step. rewrite Ht, Hp. simpl.
      unfold send_detection_update.
      destruct (active_connections m !! task_user t) as [ws|].
      - destruct ok; simpl; repeat split; rewrite ?app_nil_r; reflexivity.
      - repeat split. rewrite app_nil_r. reflexivity. }
    destruct H1 as (Ht1 & Hd1 & Ha1 & Hp1).
    assert (Ht' : tasks m1 !! id = Some t) by (rewrite Ht1; exact Ht).
    destruct (IH m1 Ht') as (Ht2 & Hd2 & Ha2 & Hp2).
    repeat split.
    + rewrite Ht2. exact Ht1.
    + rewrite Hd2. exact Hd1.
    + rewrite Ha2. exact Ha1.
    + rewrite Hp2, Hp1, Ha1, <- app_assoc. f_equal.
      destruct (active_connections m !! task_user t) as [ws|]; [|reflexivity].
      simpl. destruct ok; reflexivity.
Qed.

Lemma X20_ticks_witness :
  pushed (fold_left (fun m0 o => detection_loop_step 0 (Slept o.1 o.2) m0)
            [(1%Q, true); (2%Q, false); (3%Q, true)] watching)
    = [(7%nat, status_update true 1); (7%nat, status_update true 3)].
Proof.
  destruct (X20_ticks watching 0 {| task_user := "u"; task_state := Pending |}
              [(1%Q, true); (2%Q, false); (3%Q, true)] eq_refl eq_refl)
    as (_ & _ & _ & H).
  rewrite H. reflexivity.
Defined.

(** X21.  How a turn of the websocket handler ends.  When the socket
    closes, or the received text is not JSON, or is JSON but not an
    object, the handler stops and the user is disconnected: in a state
    the manager can reach, the user then has no registered connection, no
    registered task and no running loop.  An object whose type is neither
    "start_detection" nor "stop_detection" changes nothing, and the
    handler goes on. *)
Theorem X21_websocket_turn (es : list Event) (user : string) (r : Received) :
  let m := apply_events es empty_manager in
  let out := websocket_turn user r m in
  (r = Closed \/ r = Text NotJson \/ r = Text NotAnObject ->
   out.1.1 = false /\
   active_connections out.2 !! user = None /\
   detection_tasks out.2 !! user = None /\
   running_loops user out.2 = 0%nat) /\
  (forall type, r = Text (Object type) ->
     type <> Some "start_detection" -> type <> Some "stop_detection" ->
     out = (true, [], m)).
Proof.
  intros m out.
  assert (Hr : registered_running m) by (apply reachable_registered, empty_registered).
  split.
  - intros Hbad.
    assert (Hout : out.1.1 = false /\ out.2 = disconnect user m).
    { unfold out, websocket_turn. destruct Hbad as [->|[->| ->]]; split; reflexivity. }
    destruct Hout as (H1 & H2). rewrite H2. split; [exact H1|].
    set (m1 := {| active_connections := delete user (active_connections m);
                  detection_tasks := detection_tasks m; tasks := tasks m;
                  pushed := pushed m; logged := logged m |}).
    assert (Hr1 : registered_running m1) by exact Hr.
    repeat split.
    + unfold disconnect, cancel_and_forget. simpl.
      destruct (detection_tasks m !! user); simpl; apply lookup_delete_eq.
    + unfold disconnect, cancel_and_forget. simpl.
      destruct (detection_tasks m !! user) eqn:E; simpl;
        [apply lookup_delete_eq|exact E].
    + pose proof (stop_leaves_none_running user m1 Hr1) as H0.
      unfold running_loops in *. unfold disconnect. simpl. exact H0.
  - intros type -> Hs Ht. unfold out, websocket_turn.
    rewrite decide_False by exact Hs. rewrite decide_False by exact Ht. reflexivity.
Qed.

Lemma X21_websocket_turn_witness :
  running_loops "u"
    (websocket_turn "u" (Text NotJson)
       (apply_events [ev_connect 7 "u"; ev_receive "u" (Text (Object (Some "start_detection")))]
          empty_manager)).2 = 0%nat.
Proof.
  destruct (proj1 (X21_websocket_turn
                     [ev_connect 7 "u";
                      ev_receive "u" (Text (Object (Some "start_detection")))]
                     "u" (Text NotJson))) as (_ & _ & _ & H).
  - right. left. reflexivity.
  - exact H.
Defined.

End SessionsMore.

Module RoutesMore.
Import Routes.

(** ** The endpoints *)

Lemma maybe_update_screen_region_frame (region : option (gmap string Z)) (a : App) :
  service (maybe_update_screen_region region a) = service a /\
  manager (maybe_update_screen_region region a) = manager a /\
  updates (maybe_update_screen_region region a) = updates a /\
  confidence_threshold (detector (maybe_update_screen_region region a))
    = confidence_threshold (detector a) /\
  gaze_threshold (detector (maybe_update_screen_region region a))
    = gaze_threshold (detector a).
Proof.
  unfold maybe_update_screen_region. destruct region as [d|]; [|repeat split].
  case_decide; repeat split.
Qed.

Lemma timestamp_or_now_svc (clock : nat -> Q) (ts : option Q) (w : Alerts.World) :
  Alerts.svc (timestamp_or_now clock ts w).2 = Alerts.svc w /\
  Alerts.invoked (timestamp_or_now clock ts w).2 = Alerts.invoked w /\
  Alerts.logged (timestamp_or_now clock ts w).2 = Alerts.logged w /\
  (forall t, ts = Some t -> Qeq_bool t 0 = false ->
             timestamp_or_now clock ts w = (t, w)).
Proof.
  unfold timestamp_or_now, time_now. destruct ts as [t|]; simpl.
  - destruct (Qeq_bool t 0) eqn:E; simpl; repeat split; try reflexivity.
    + intros t' Ht' Hz. injection Ht' as <-. congruence.
    + intros t' Ht' Hz. injection Ht' as <-. reflexivity.
  - repeat split. intros t Ht. discriminate.
Qed.

(** X22.  [process_detection] as it stands.  A request with an empty
    user id is answered with status 500, not 400: the [HTTPException]
    raised by the validation is caught by the route's own
    [except Exception].  Every other request is answered normally with
    the simulated result (not peeking, confidence zero, no face), so no
    alert is ever dispatched by this route and the alert service keeps
    its state; a [detection_update] frame with the response's id and
    timestamp is written to the user's websocket when there is one and
    the write succeeds.  A timestamp given in the request and different
    from zero is the timestamp of the response. *)
Theorem X22_process_detection (clock : nat -> Q) (request : DetectionRequest)
    (write_ok : bool) (a : App) :
  let out := process_detection clock request write_ok a in
  (request_user_id request = "" ->
   out = (HTTPException 500 "Internal server error",
          log_route ErrorProcessingDetection a)) /\
  (request_user_id request <> "" ->
   exists response,
     out.1 = Ok response /\
     response_user_id response = request_user_id request /\
     is_peeking response = false /\
     confidence response = 0%Q /\
     face_count response = 0%nat /\
     gaze_angles response = [] /\
     alerts_sent response = [] /\
     (forall t, request_timestamp request = Some t -> Qeq_bool t 0 = false ->
                timestamp response = t) /\
     Alerts.svc (service out.2) = Alerts.svc (service a) /\
     Alerts.invoked (service out.2) = Alerts.invoked (service a) /\
     Sessions.tasks (manager out.2) = Sessions.tasks (manager a) /\
     Sessions.detection_tasks (manager out.2) = Sessions.detection_tasks (manager a) /\
     Sessions.active_connections (manager out.2)
       = Sessions.active_connections (manager a) /\
     updates out.2 = updates a ++
       match Sessions.active_connections (manager a) !! request_user_id request with
       | Some websocket =>
         if write_ok
         then [(websocket,
                {| update_detection_id := detection_id response;
                   update_is_peeking := false;
                   update_confidence := 0;
                   update_timestamp := timestamp response |})]
         else []
       | None => []
       end).
Proof.
  intros out. subst out. unfold process_detection. split.
  - intros Hu. rewrite decide_True by exact Hu. reflexivity.
  - intros Hu. rewrite decide_False by exact Hu.
    destruct (maybe_update_screen_region_frame (request_screen_region request) a)
      as (Hs & Hm & Hup & _).
    set (a1 := maybe_update_screen_region (request_screen_region request) a) in *.
    destruct (timestamp_or_now_svc clock (request_timestamp request) (service a1))
      as (Hsvc & Hinv & _ & Hts).
    destruct (timestamp_or_now clock (request_timestamp request) (service a1))
      as [ts w1] eqn:E1.
    unfold time_now. simpl in *.
    unfold send_detection_frame. simpl. rewrite Hm.
    destruct (Sessions.active_connections (manager a) !! request_user_id request)
      as [ws|] eqn:Ec.
    + destruct write_ok; simpl; eexists; repeat split;
        try reflexivity; try (rewrite ?Hsvc, ?Hinv, ?Hs, ?Hm, ?Hup; reflexivity);
        try (rewrite app_nil_r; exact Hup);
        try (intros t Ht Hz; specialize (Hts t Ht Hz); simpl; congruence).
    + simpl. eexists; repeat split;
        try reflexivity; try (rewrite ?Hsvc, ?Hinv, ?Hs, ?Hm, ?Hup; reflexivity);
        try (rewrite app_nil_r; exact Hup);
        try (intros t Ht Hz; specialize (Hts t Ht Hz); simpl; congruence).
Qed.

Lemma X22_process_detection_witness :
  (process_detection (fun _ => 5%Q)
     {| request_user_id := ""; image_data := "abc"; request_timestamp := None;
        request_screen_region := None |} true new_app).1
    = HTTPException 500 "Internal server error".
Proof.
  rewrite (proj1 (X22_process_detection (fun _ => 5%Q)
                    {| request_user_id := ""; image_data := "abc";
                       request_timestamp := None; request_screen_region := None |}
                    true new_app) eq_refl).
  reflexivity.
Defined.











End RoutesMore.
